(** * marvin: the structured-extraction core (components/ai_model.py)

    A shallow embedding of [AIModel] and of the library calls it is made of:
    Python strings with [str.strip], [inspect.cleandoc], the part of the
    Jinja2 template language the prompt templates are written in,
    [functools.partial] keyword binding and [asyncio.gather]; and, from
    utilities/messages.py, of the roles of a message and the validator of
    its content. *)

From Stdlib Require Import String Ascii NArith ZArith Lia DecimalString.
From stdpp Require Import gmap strings list fin_maps.

Open Scope string_scope.
Open Scope nat_scope.
Open Scope list_scope.
Open Scope stdpp_scope.
Set Warnings "-register-all".

(** ** Python strings

    A Python [str] is a sequence of Unicode code points.  String literals of
    the source are written as Rocq literals and read through [codepoints]
    (the literals of ai_model.py are ASCII). *)

Definition str := list N.

Definition codepoints (s : string) : str :=
  (fix go s := match s with
               | EmptyString => []
               | String c r => N_of_ascii c :: go r
               end) s.
Coercion codepoints : string >-> str.
Arguments codepoints : simpl never.

Definition LF : N := 10.
Definition CR : N := 13.
Definition TAB : N := 9.
Definition SPACE : N := 32.

(** [str.isspace] on one character: the ASCII table of CPython
    ([_Py_ascii_whitespace]) and [_PyUnicode_IsWhitespace] above it. *)
Definition isspace (c : N) : bool :=
  ((9 <=? c) && (c <=? 13) || (28 <=? c) && (c <=? 32)
   || (c =? 133) || (c =? 160) || (c =? 5760)
   || (8192 <=? c) && (c <=? 8202)
   || (c =? 8232) || (c =? 8233) || (c =? 8239) || (c =? 8287)
   || (c =? 12288))%N.

Fixpoint lstrip (s : str) : str :=
  match s with
  | c :: r => if isspace c then lstrip r else s
  | [] => []
  end.

Definition rstrip (s : str) : str := rev (lstrip (rev s)).

(** [s.strip()] *)
Definition strip (s : str) : str := rstrip (lstrip s).

(** [sep.join(parts)] *)
Fixpoint join (sep : str) (parts : list str) : str :=
  match parts with
  | [] => []
  | [p] => p
  | p :: rest => p ++ sep ++ join sep rest
  end.

(** [s.split(c)] for a one-character separator: never the empty list. *)
Fixpoint split_on (c : N) (s : str) : list str :=
  match s with
  | [] => [[]]
  | x :: r =>
      if (x =? c)%N then [] :: split_on c r
      else match split_on c r with
           | l :: ls => (x :: l) :: ls
           | [] => [[x]]
           end
  end.

(** [s.expandtabs()] with the default tab size 8; [col] is the column. *)
Fixpoint expandtabs_from (col : nat) (s : str) : str :=
  match s with
  | [] => []
  | c :: r =>
      if (c =? TAB)%N then
        let incr := 8 - col `mod` 8 in
        replicate incr SPACE ++ expandtabs_from (col + incr) r
      else if (c =? LF)%N || (c =? CR)%N then c :: expandtabs_from 0 r
      else c :: expandtabs_from (S col) r
  end.
Definition expandtabs (s : str) : str := expandtabs_from 0 s.

(** ** inspect.cleandoc *)

Module inspect.

(** The indentation of a line that is not blank, [None] for a blank one. *)
Definition indent (line : str) : option nat :=
  let content := length (lstrip line) in
  if content =? 0 then None else Some (length line - content).

(** [margin] starts at [sys.maxsize], here [None]. *)
Definition margin (lines : list str) : option nat :=
  foldl (fun m line =>
           match indent line, m with
           | Some i, Some m => Some (min m i)
           | Some i, None => Some i
           | None, m => m
           end) None lines.

Fixpoint pop_leading_empty (lines : list str) : list str :=
  match lines with
  | [] :: r => pop_leading_empty r
  | _ => lines
  end.

Definition pop_trailing_empty (lines : list str) : list str :=
  rev (pop_leading_empty (rev lines)).

Definition cleandoc (doc : str) : str :=
  match split_on LF (expandtabs doc) with
  | [] => []
  | first :: rest =>
      let rest :=
        match margin rest with
        | Some m => drop m <$> rest
        | None => rest
        end in
      join [LF] (pop_leading_empty (pop_trailing_empty (lstrip first :: rest)))
  end.

End inspect.

(** ** The prompt templates of ai_model.py *)

Definition lines (ls : list string) : str := join [LF] (codepoints <$> ls).

Definition system_extract_prompt : str :=
  inspect.cleandoc (lines [
    "The user will provide context as text that you need to parse into a structured form. ";
    "    - To validate your response, you must call the `{{functions[0].__name__}}` function.";
    "    - Use the provided text to extract or infer any parameters needed by `{{functions[0].__name__}}`, including any missing data.";
    "                                      ";
    "{% if instructions %}";
    "The user has provided some additional requirements for this task: {{ instructions }} ";
    "{% endif %}";
    "                                         ";
    "{% if context_fn %}";
    "{% for (arg, value) in context_fn(text).items() %}{{ arg }}: {{ value }}{% endfor %}";
    "{% endif %}" ]).

Definition system_generate_prompt : str :=
  inspect.cleandoc (lines [
    ("The user will provide context as text that you need to parse to generate synthetic"
     ++ " data.")%string;
    ("    - To validate your response, you must call the"
     ++ " `{{functions[0].__name__}}` function.")%string;
    ("    - Use the provided text to generate or"
     ++ " invent any parameters needed by `{{functions[0].__name__}}`, including any"
     ++ " missing data.")%string;
    "    - It is okay to make up representative data.";
    ("{% if"
     ++ " instructions %}You have been provided instructions on completing your task:"
     ++ " {{instructions}}{% endif %}{% if context_fn %}You have been provided the"
     ++ " following context to perform your task:")%string;
    ("{%for (arg, value) in"
     ++ " context_fn(text).items()%}    - {{ arg }}: {{ value }}")%string;
    "{% endfor %}{% endif %}" ]).

Definition user_prompt : str :=
  inspect.cleandoc (lines [
    "    The text to parse: {{text}}";
    "    " ]).

Arguments system_extract_prompt : simpl never.
Arguments system_generate_prompt : simpl never.
Arguments user_prompt : simpl never.

(** No leading and no trailing whitespace. *)
Definition trimmed (s : str) : Prop :=
  (forall c, head s = Some c -> isspace c = false) /\
  (forall c, last s = Some c -> isspace c = false).

(** ** Python values and exceptions *)

(** The values that reach a template or a keyword dictionary.  [PyObject] is
    an instance of a class known only by the attributes listed, [PyCallable]
    a function object (its behaviour is looked up in the table of the run,
    see [callables] below), [PyOpaque] an object the model says nothing
    about (the globals of Jinja2, the [loop] variable). *)
Inductive value :=
| Undefined                                  (* jinja2.Undefined *)
| PyNone
| PyBool (b : bool)
| PyInt (z : Z)
| PyStr (s : str)
| PyList (l : list value)
| PyTuple (l : list value)
| PyDict (d : list (str * value))            (* insertion order *)
| PyItems (d : list (str * value))           (* the view d.items() *)
| PyMethod (self : value) (name : str)       (* a bound method *)
| PyObject (attrs : list (str * value))
| PyCallable (id : nat)
| PyOpaque.

Inductive exn :=
| TemplateSyntaxError
| UndefinedError
| TypeError
| ValueError
| IndexError
| ValidationError (detail : str)
| BackendError (detail : str)
| Unsupported.              (* outside the modelled part of Python or Jinja2 *)

(** A computation that returns or raises. *)
Inductive result (A : Type) :=
| Ok (a : A)
| Raise (e : exn).
Arguments Ok {A} a.
Arguments Raise {A} e.

#[global] Instance result_ret : MRet result := fun A a => Ok a.
#[global] Instance result_bind : MBind result :=
  fun A B f m => match m with Ok a => f a | Raise e => Raise e end.
#[global] Instance result_fmap : FMap result :=
  fun A B f m => match m with Ok a => Ok (f a) | Raise e => Raise e end.

(** The behaviour of the function objects of one run: [callables id args] is
    what calling [PyCallable id] on [args] returns or raises. *)
Definition callables := nat -> list value -> result value.

(** [dict.get(k)] on an insertion-ordered dictionary. *)
Fixpoint assoc (k : str) (d : list (str * value)) : option value :=
  match d with
  | [] => None
  | (k', v) :: r => if decide (k = k') then Some v else assoc k r
  end.

(** [bool(v)] *)
Definition truthy (v : value) : result bool :=
  match v with
  | Undefined | PyNone => Ok false
  | PyBool b => Ok b
  | PyInt z => Ok (negb (z =? 0)%Z)
  | PyStr s => Ok (negb (length s =? 0))
  | PyList l | PyTuple l => Ok (negb (length l =? 0))
  | PyDict d | PyItems d => Ok (negb (length d =? 0))
  | PyMethod _ _ | PyCallable _ => Ok true
  | PyObject _ | PyOpaque => Raise Unsupported
  end.

(** [str(v)] for the scalar values; Jinja2's [Undefined] prints as nothing. *)
Definition to_str (v : value) : result str :=
  match v with
  | Undefined => Ok []
  | PyNone => Ok (codepoints "None")
  | PyBool true => Ok (codepoints "True")
  | PyBool false => Ok (codepoints "False")
  | PyInt z => Ok (codepoints (NilZero.string_of_int (Z.to_int z)))
  | PyStr s => Ok s
  | _ => Raise Unsupported
  end.

(** [seq[i]] with Python's negative indices; [None] is IndexError. *)
Definition index {A} (l : list A) (i : Z) : option A :=
  if (0 <=? i)%Z then l !! Z.to_nat i
  else if (0 <=? Z.of_nat (length l) + i)%Z then l !! Z.to_nat (Z.of_nat (length l) + i)
  else None.

(** ** Jinja2: the template language of the prompts

    [jinja2.Template(source).render] on a context, for the part of the language
    the prompts use: text, [{{ e }}], [{% if e %}], [{% for t in e %}] and
    comments, with expressions built from names, integer and keyword
    constants, [e.a], [e[i]] and calls.  Every other construct is
    [Unsupported].  The environment is the default one: lenient
    [Undefined], no autoescape, no block trimming, no trailing newline. *)

Module jinja2.

Inductive expr :=
| EName (n : str)
| EConst (v : value)
| EGetattr (e : expr) (a : str)
| EGetitem (e : expr) (i : expr)
| ECall (e : expr) (args : list expr).

Inductive target :=
| TName (n : str)
| TTuple (ns : list str).

Inductive node :=
| Data (s : str)
| Output (e : expr)
| If (c : expr) (body : list node)
| For (t : target) (iter : expr) (body : list node).

Definition template := list node.

(** *** Lexer *)

Inductive token :=
| TkName (n : str)
| TkInt (z : Z)
| TkLBracket | TkRBracket | TkLParen | TkRParen | TkDot | TkComma.

Inductive chunk :=
| CData (s : str)
| CVariable (toks : list token)      (* {{ ... }} *)
| CBlock (toks : list token).        (* {% ... %} *)

Definition is_digit (c : N) : bool := ((48 <=? c) && (c <=? 57))%N.
Definition is_name_start (c : N) : bool :=
  ((65 <=? c) && (c <=? 90) || (97 <=? c) && (c <=? 122) || (c =? 95))%N.
Definition is_name_char (c : N) : bool := is_name_start c || is_digit c.

Fixpoint take_while (p : N -> bool) (s : str) : str :=
  match s with
  | c :: r => if p c then c :: take_while p r else []
  | [] => []
  end.
Fixpoint drop_while (p : N -> bool) (s : str) : str :=
  match s with
  | c :: r => if p c then drop_while p r else s
  | [] => []
  end.

Definition digits_value (ds : str) : Z :=
  foldl (fun acc d => acc * 10 + (Z.of_N d - 48))%Z 0%Z ds.

(** The lexer normalises every newline sequence to a line feed and drops
    one trailing newline ([keep_trailing_newline] is off). *)
Fixpoint normalize_newlines (s : str) : str :=
  match s with
  | [] => []
  | c :: r =>
      if (c =? CR)%N then
        match r with
        | c' :: r' => if (c' =? LF)%N then LF :: normalize_newlines r'
                      else LF :: normalize_newlines r
        | [] => [LF]
        end
      else c :: normalize_newlines r
  end.

Definition drop_trailing_newline (s : str) : str :=
  match rev s with
  | c :: r => if (c =? LF)%N then rev r else s
  | [] => []
  end.

(** Tokens of a tag up to its end, [}}] or [%}] ([closer] is the first
    character of it); [stack] holds the closing brackets awaited. *)
Fixpoint lex_tag (fuel : nat) (closer : N) (stack : list N) (s : str)
  : result (list token * str) :=
  match fuel with
  | 0 => Raise Unsupported
  | S fuel =>
      let continue tk r stack :=
        '(toks, rest) ← lex_tag fuel closer stack r; Ok (tk :: toks, rest) in
      match s with
      | [] => Raise TemplateSyntaxError
      | c :: r =>
          let at_end := (c =? closer)%N && match r with
                                          | c' :: _ => (c' =? 125)%N
                                          | [] => false
                                          end in
          if at_end && (length stack =? 0) then Ok ([], drop 1 r)
          else if isspace c then lex_tag fuel closer stack r
          else if is_digit c then
            let ds := take_while is_digit s in
            let r := drop_while is_digit s in
            let next_ok := match r with
                           | c' :: _ => negb (is_name_char c' || (c' =? 46)%N)
                           | [] => true
                           end in
            if ((c =? 48)%N && negb (length ds =? 1)) || negb next_ok
            then Raise Unsupported
            else continue (TkInt (digits_value ds)) r stack
          else if is_name_start c then
            continue (TkName (take_while is_name_char s))
                     (drop_while is_name_char s) stack
          else if (c =? 91)%N then continue TkLBracket r (93%N :: stack)
          else if (c =? 40)%N then continue TkLParen r (41%N :: stack)
          else if (c =? 93)%N || (c =? 41)%N || (c =? 125)%N then
            match stack with
            | expected :: stack =>
                if (c =? expected)%N
                then continue (if (c =? 93)%N then TkRBracket else TkRParen) r stack
                else Raise TemplateSyntaxError
            | [] => Raise TemplateSyntaxError
            end
          else if (c =? 46)%N then continue TkDot r stack
          else if (c =? 44)%N then continue TkComma r stack
          else Raise Unsupported
      end
  end.

(** The text after a comment [{# ... #}]; [prev] is the character before
    [s] (a sign there asks for whitespace control). *)
Fixpoint skip_comment (prev : N) (s : str) : result str :=
  match s with
  | [] => Raise TemplateSyntaxError
  | c :: r =>
      match r with
      | c' :: r' =>
          if (c =? 35)%N && (c' =? 125)%N then
            if (prev =? 45)%N || (prev =? 43)%N then Raise Unsupported else Ok r'
          else skip_comment c r
      | [] => Raise TemplateSyntaxError
      end
  end.

Definition flush (data : str) (cs : list chunk) : list chunk :=
  match data with
  | [] => cs
  | _ => CData (rev data) :: cs
  end.

(** [data] is the text read since the last tag, reversed. *)
Fixpoint lex_root (fuel : nat) (data : str) (s : str) : result (list chunk) :=
  match fuel with
  | 0 => Raise Unsupported
  | S fuel =>
      match s with
      | [] => Ok (flush data [])
      | c :: r =>
          match r with
          | c' :: r' =>
              if (c =? 123)%N && (c' =? 123)%N then
                '(toks, rest) ← lex_tag (S (length r')) 125 [] r';
                cs ← lex_root fuel [] rest;
                Ok (flush data (CVariable toks :: cs))
              else if (c =? 123)%N && (c' =? 37)%N then
                '(toks, rest) ← lex_tag (S (length r')) 37 [] r';
                cs ← lex_root fuel [] rest;
                Ok (flush data (CBlock toks :: cs))
              else if (c =? 123)%N && (c' =? 35)%N then
                match r' with
                | c2 :: _ =>
                    if (c2 =? 45)%N || (c2 =? 43)%N then Raise Unsupported
                    else rest ← skip_comment 0%N r'; lex_root fuel data rest
                | [] => Raise TemplateSyntaxError
                end
              else lex_root fuel (c :: data) r
          | [] => Ok (flush (c :: data) [])
          end
      end
  end.

Definition lex (source : str) : result (list chunk) :=
  let s := drop_trailing_newline (normalize_newlines source) in
  lex_root (S (length s)) [] s.

(** *** Parser *)

Definition keyword_names : list str :=
  [codepoints "not"; codepoints "and"; codepoints "or"; codepoints "in";
   codepoints "is"; codepoints "if"; codepoints "else"].

Definition constant_names : list str :=
  [codepoints "true"; codepoints "True"; codepoints "false"; codepoints "False";
   codepoints "none"; codepoints "None"].

Definition name_expr (n : str) : result expr :=
  if decide (n ∈ [codepoints "true"; codepoints "True"]) then Ok (EConst (PyBool true))
  else if decide (n ∈ [codepoints "false"; codepoints "False"]) then Ok (EConst (PyBool false))
  else if decide (n ∈ [codepoints "none"; codepoints "None"]) then Ok (EConst PyNone)
  else if decide (n ∈ keyword_names) then Raise Unsupported
  else Ok (EName n).

(** The operators after a primary: [.a], [[i]] and calls.  The parsers of
    expressions and of arguments are passed in, as they come after. *)
Fixpoint parse_postfix (fuel : nat) (e : expr) (toks : list token)
  (parse_expr : list token -> result (expr * list token))
  (parse_args : list token -> result (list expr * list token))
  : result (expr * list token) :=
  match fuel with
  | 0 => Raise Unsupported
  | S fuel =>
      match toks with
      | TkDot :: TkName a :: r => parse_postfix fuel (EGetattr e a) r parse_expr parse_args
      | TkDot :: TkInt _ :: _ => Raise Unsupported
      | TkDot :: _ => Raise TemplateSyntaxError
      | TkLBracket :: r =>
          '(i, r) ← parse_expr r;
          match r with
          | TkRBracket :: r => parse_postfix fuel (EGetitem e i) r parse_expr parse_args
          | _ => Raise Unsupported
          end
      | TkLParen :: r =>
          '(args, r) ← parse_args r;
          parse_postfix fuel (ECall e args) r parse_expr parse_args
      | _ => Ok (e, toks)
      end
  end.

Fixpoint parse_expr (fuel : nat) (toks : list token) : result (expr * list token) :=
  match fuel with
  | 0 => Raise Unsupported
  | S fuel =>
      let parse_args :=
        fix parse_args (n : nat) (toks : list token) : result (list expr * list token) :=
          match n with
          | 0 => Raise Unsupported
          | S n =>
              match toks with
              | TkRParen :: r => Ok ([], r)
              | _ =>
                  '(a, r) ← parse_expr fuel toks;
                  match r with
                  | TkComma :: r => '(args, r) ← parse_args n r; Ok (a :: args, r)
                  | TkRParen :: r => Ok ([a], r)
                  | _ => Raise Unsupported
                  end
              end
          end in
      match toks with
      | TkName n :: r =>
          e ← name_expr n;
          parse_postfix (S (length r)) e r (parse_expr fuel) (parse_args (S (length r)))
      | TkInt z :: r =>
          parse_postfix (S (length r)) (EConst (PyInt z)) r
                        (parse_expr fuel) (parse_args (S (length r)))
      | TkLParen :: _ | TkLBracket :: _ => Raise Unsupported
      | _ => Raise TemplateSyntaxError
      end
  end.

(** An expression that fills its tag. *)
Definition parse_whole_expr (toks : list token) : result expr :=
  '(e, r) ← parse_expr (S (length toks)) toks;
  match r with
  | [] => Ok e
  | _ => Raise Unsupported
  end.

(** The names of a loop target, up to the [in] that follows them.  The
    loop variable [loop] cannot be assigned; a keyword, a constant or
    [self] in the place of a name is left out of the model. *)
Fixpoint parse_names (toks : list token) : result (list str * list token) :=
  match toks with
  | TkName n :: r =>
      if decide (n = codepoints "in") then Ok ([], toks)
      else if decide (n = codepoints "loop") then Raise TemplateSyntaxError
      else if decide (n ∈ codepoints "self" :: constant_names ++ keyword_names)
      then Raise Unsupported
      else
        match r with
        | TkComma :: r' => '(ns, rest) ← parse_names r'; Ok (n :: ns, rest)
        | _ => Ok ([n], r)
        end
  | _ => Ok ([], toks)
  end.

(** A name, or names separated by commas, in parentheses or not. *)
Definition parse_target (toks : list token) : result (target * list token) :=
  match toks with
  | TkLParen :: r =>
      '(ns, rest) ← parse_names r;
      match ns, rest with
      | [], _ => Raise Unsupported
      | [n], TkRParen :: rest =>
          match r with
          | _ :: TkComma :: _ => Ok (TTuple ns, rest)
          | _ => Ok (TName n, rest)
          end
      | _, TkRParen :: rest => Ok (TTuple ns, rest)
      | _, _ => Raise Unsupported
      end
  | TkName _ :: r =>
      '(ns, rest) ← parse_names toks;
      match ns, r with
      | [], _ => Raise Unsupported
      | [n], TkComma :: _ => Ok (TTuple ns, rest)
      | [n], _ => Ok (TName n, rest)
      | _, _ => Ok (TTuple ns, rest)
      end
  | _ => Raise Unsupported
  end.

(** The nodes up to the closing tag [closer] ([None] at top level), and
    the chunks after it. *)
Fixpoint parse_nodes (fuel : nat) (closer : option str) (cs : list chunk)
  : result (list node * list chunk) :=
  match fuel with
  | 0 => Raise Unsupported
  | S fuel =>
      match cs with
      | [] =>
          match closer with
          | None => Ok ([], [])
          | Some _ => Raise TemplateSyntaxError
          end
      | CData s :: r =>
          '(ns, rest) ← parse_nodes fuel closer r; Ok (Data s :: ns, rest)
      | CVariable toks :: r =>
          e ← parse_whole_expr toks;
          '(ns, rest) ← parse_nodes fuel closer r; Ok (Output e :: ns, rest)
      | CBlock (TkName kw :: toks) :: r =>
          if decide (kw = codepoints "if") then
            c ← parse_whole_expr toks;
            '(body, r) ← parse_nodes fuel (Some (codepoints "endif")) r;
            '(ns, rest) ← parse_nodes fuel closer r;
            Ok (If c body :: ns, rest)
          else if decide (kw = codepoints "for") then
            '(t, toks) ← parse_target toks;
            match toks with
            | TkName kw_in :: toks =>
                if decide (kw_in = codepoints "in") then
                  iter ← parse_whole_expr toks;
                  '(body, r) ← parse_nodes fuel (Some (codepoints "endfor")) r;
                  '(ns, rest) ← parse_nodes fuel closer r;
                  Ok (For t iter body :: ns, rest)
                else Raise TemplateSyntaxError
            | _ => Raise TemplateSyntaxError
            end
          else if decide (closer = Some kw) then
            match toks with
            | [] => Ok ([], r)
            | _ => Raise TemplateSyntaxError
            end
          else if decide (kw ∈ [codepoints "endif"; codepoints "endfor"])
          then Raise TemplateSyntaxError
          else Raise Unsupported
      | CBlock _ :: _ => Raise TemplateSyntaxError
      end
  end.

(** *** Evaluation *)

(** The names every template sees besides its context. *)
Definition globals : list str :=
  [codepoints "range"; codepoints "dict"; codepoints "lipsum";
   codepoints "cycler"; codepoints "joiner"; codepoints "namespace"].

(** The value of a name.  A template that names [self] has it bound to
    its own [TemplateReference], whatever the context holds. *)
Definition resolve (ctx : gmap str value) (n : str) : value :=
  if decide (n = codepoints "self") then PyOpaque
  else match ctx !! n with
       | Some v => v
       | None => if decide (n ∈ globals) then PyOpaque else Undefined
       end.

(** An attribute name that [dict] itself answers: a method or a dunder. *)
Definition dict_attribute (a : str) : bool :=
  bool_decide (a ∈ [codepoints "clear"; codepoints "copy"; codepoints "fromkeys";
                    codepoints "get"; codepoints "items"; codepoints "keys";
                    codepoints "pop"; codepoints "popitem"; codepoints "setdefault";
                    codepoints "update"; codepoints "values"])
  || match a with
     | c1 :: c2 :: _ => (c1 =? 95)%N && (c2 =? 95)%N
     | _ => false
     end.

(** [getattr(d, a)] on a dictionary, then [d[a]], then undefined. *)
Definition dict_getattr (d : list (str * value)) (a : str) : result value :=
  if decide (a = codepoints "items") then Ok (PyMethod (PyDict d) a)
  else if dict_attribute a then Raise Unsupported
  else Ok (default Undefined (assoc a d)).

(** An attribute name that starts with an underscore: the attributes
    the class [Undefined] has of its own are all named so. *)
Definition underscore (a : str) : bool :=
  match a with
  | c :: _ => (c =? 95)%N
  | [] => false
  end.

(** [environment.getattr(obj, a)], the meaning of [obj.a].  An undefined
    value raises for an attribute it does not have; those it has are
    left out of the model. *)
Definition getattr_ (obj : value) (a : str) : result value :=
  match obj with
  | Undefined => if underscore a then Raise Unsupported else Raise UndefinedError
  | PyDict d => dict_getattr d a
  | PyObject attrs =>
      match assoc a attrs with
      | Some v => Ok v
      | None => Raise Unsupported
      end
  | _ => Raise Unsupported
  end.

Definition seq_getitem (l : list value) (arg : value) : result value :=
  match arg with
  | PyInt i => Ok (default Undefined (index l i))
  | PyBool b => Ok (default Undefined (index l (if b then 1 else 0)%Z))
  | PyStr _ | PyObject _ | PyOpaque => Raise Unsupported
  | _ => Ok Undefined
  end.

(** [environment.getitem(obj, arg)], the meaning of [obj[arg]]. *)
Definition getitem_ (obj arg : value) : result value :=
  match obj with
  | Undefined => Raise UndefinedError
  | PyList l | PyTuple l => seq_getitem l arg
  | PyStr s => seq_getitem ((fun c => PyStr [c]) <$> s) arg
  | PyDict d =>
      match arg with
      | PyStr k =>
          match assoc k d with
          | Some v => Ok v
          | None => dict_getattr d k
          end
      | PyObject _ | PyOpaque => Raise Unsupported
      | _ => Ok Undefined
      end
  | PyNone | PyBool _ | PyInt _ | PyItems _ | PyMethod _ _ =>
      match arg with
      | PyStr _ => Raise Unsupported
      | _ => Ok Undefined
      end
  | PyCallable _ | PyObject _ | PyOpaque => Raise Unsupported
  end.

(** The elements [iter(v)] yields. *)
Definition iterate (v : value) : result (list value) :=
  match v with
  | Undefined => Ok []
  | PyList l | PyTuple l => Ok l
  | PyStr s => Ok ((fun c => PyStr [c]) <$> s)
  | PyDict d => Ok ((fun kv => PyStr kv.1) <$> d)
  | PyItems d => Ok ((fun kv => PyTuple [PyStr kv.1; kv.2]) <$> d)
  | PyObject _ | PyOpaque => Raise Unsupported
  | _ => Raise TypeError
  end.

(** The loop target bound to one element. *)
Definition bind_target (t : target) (item : value) (ctx : gmap str value)
  : result (gmap str value) :=
  match t with
  | TName n => Ok (<[n := item]> ctx)
  | TTuple ns =>
      vs ← iterate item;
      if length vs =? length ns
      then Ok (foldl (fun ctx nv => <[nv.1 := nv.2]> ctx) ctx (zip ns vs))
      else Raise ValueError
  end.

Section render.

Variable fns : callables.

(** [context.call] of [f] on the arguments [args] *)
Definition call_ (f : value) (args : list value) : result value :=
  match f with
  | Undefined => Raise UndefinedError
  | PyCallable id => fns id args
  | PyMethod (PyDict d) name =>
      if decide (name = codepoints "items") then
        match args with
        | [] => Ok (PyItems d)
        | _ => Raise TypeError
        end
      else Raise Unsupported
  | PyMethod _ _ | PyObject _ | PyOpaque => Raise Unsupported
  | _ => Raise TypeError
  end.

Fixpoint eval (ctx : gmap str value) (e : expr) : result value :=
  match e with
  | EName n => Ok (resolve ctx n)
  | EConst v => Ok v
  | EGetattr e a => obj ← eval ctx e; getattr_ obj a
  | EGetitem e i => obj ← eval ctx e; arg ← eval ctx i; getitem_ obj arg
  | ECall e args =>
      f ← eval ctx e;
      vs ← (fix eval_args (args : list expr) : result (list value) :=
              match args with
              | [] => Ok []
              | a :: r => v ← eval ctx a; vs ← eval_args r; Ok (v :: vs)
              end) args;
      call_ f vs
  end.

Fixpoint render_node (ctx : gmap str value) (n : node) : result str :=
  let render_nodes :=
    fix render_nodes (ctx : gmap str value) (ns : list node) : result str :=
      match ns with
      | [] => Ok []
      | n :: r => s ← render_node ctx n; s' ← render_nodes ctx r; Ok (s ++ s')
      end in
  match n with
  | Data s => Ok s
  | Output e => v ← eval ctx e; to_str v
  | If c body =>
      v ← eval ctx c;
      b ← truthy v;
      if b : bool then render_nodes ctx body else Ok []
  | For t iter body =>
      v ← eval ctx iter;
      items ← iterate v;
      (fix loop (items : list value) : result str :=
         match items with
         | [] => Ok []
         | item :: r =>
             ctx' ← bind_target t item (<[codepoints "loop" := PyOpaque]> ctx);
             s ← render_nodes ctx' body;
             s' ← loop r;
             Ok (s ++ s')
         end) items
  end.

Fixpoint render_nodes (ctx : gmap str value) (ns : list node) : result str :=
  match ns with
  | [] => Ok []
  | n :: r => s ← render_node ctx n; s' ← render_nodes ctx r; Ok (s ++ s')
  end.

(** [template.render] on the keywords [context] *)
Definition render (t : template) (context : gmap str value) : result str :=
  render_nodes context t.

End render.

(** [jinja2.Template(source)] *)
Definition Template (source : str) : result template :=
  cs ← lex source;
  '(ns, _) ← parse_nodes (S (length cs)) None cs;
  Ok ns.

End jinja2.

(** ** functools.partial

    Calling [partial(f, k1=v1, ...)] with keywords calls [f] with the
    keywords of the call laid over the bound ones. *)
Module functools.

Definition partial_keywords (bound call : gmap str value) : gmap str value :=
  call ∪ bound.

End functools.

(** ** asyncio.gather

    [await asyncio.gather] on a list of children, [return_exceptions] off, as a
    machine driven by the completion of its children.  A child is given by
    its outcome; [_done_callback] runs once per child, in the order in which
    they complete. *)
Module asyncio.

Section gather.

Context {A : Type}.

(** [outer] is the future the caller awaits: [None] while pending. *)
Record state := {
  nfinished : nat;
  outer : option (result (list (result A)));
}.

Definition _done_callback (children : list (result A)) (st : state) (i : nat)
  : state :=
  let nfinished := S (nfinished st) in
  match outer st with
  | Some _ => {| nfinished := nfinished; outer := outer st |}
  | None =>
      match children !! i with
      | Some (Raise exc) => {| nfinished := nfinished; outer := Some (Raise exc) |}
      | _ =>
          if nfinished =? length children
          then {| nfinished := nfinished; outer := Some (Ok children) |}
          else {| nfinished := nfinished; outer := None |}
      end
  end.

(** Without children the result is set at once to the empty list. *)
Definition initial (children : list (result A)) : state :=
  {| nfinished := 0;
     outer := match children with [] => Some (Ok []) | _ => None end |}.

(** What awaiting the gathered children yields when they complete in
    the order [schedule] (indices into [children]). *)
Definition gather (children : list (result A)) (schedule : list nat)
  : option (result (list (result A))) :=
  outer (foldl (_done_callback children) (initial children) schedule).

(** The exception of the first child, in the order [schedule], that
    raised. *)
Fixpoint first_raised (children : list (result A)) (schedule : list nat)
  : option exn :=
  match schedule with
  | [] => None
  | i :: rest =>
      match children !! i with
      | Some (Raise exc) => Some exc
      | _ => first_raised children rest
      end
  end.

End gather.

Arguments state : clear implicits.

End asyncio.

(** ** marvin.types and the pydantic model behind a schema *)

(** A field of a Schema Definition. *)
Record Field := {
  field_name : str;
  field_type : str;
  field_default : option value;
  field_description : option str;
}.

(** A pydantic model class: a named, ordered set of typed fields. *)
Record BaseModel := {
  model_name : str;
  model_fields : list Field;
}.

(** A subclass of [AIModel]: the schema it carries and the keywords that
    [as_decorator] bound to its [_messages] and [_functions] (none for a
    class that was not decorated). *)
Record AIModelClass := {
  __name__ : str;
  __fields__ : list Field;
  _messages_keywords : gmap str value;
  _functions_keywords : gmap str value;
}.

(** Modelled from the spec: marvin.types.Function is not in the sources
    read here.  [Function.from_model] keeps the name and the description it
    is given next to the model, and [schema] lays them out with the JSON
    schema of the model's fields. *)
Module Function.

Record t := {
  __name__ : str;
  __doc__ : str;
  model : AIModelClass;
}.

Definition from_model (model : AIModelClass) (name description : str) : t :=
  {| __name__ := name; __doc__ := description; model := model |}.

Record Property := {
  property_type : str;
  property_description : option str;
  property_default : option value;
}.

Record Parameters := {
  properties : list (str * Property);
  required : list str;
}.

Record Schema := {
  name : str;
  description : str;
  parameters : Parameters;
}.

Definition field_property (f : Field) : str * Property :=
  (field_name f,
   {| property_type := field_type f;
      property_description := field_description f;
      property_default := field_default f |}).

(** Modelled from the spec: the parameter schema reflects the fields and
    types of the Schema Definition. *)
Definition model_schema (fields : list Field) : Parameters :=
  {| properties := field_property <$> fields;
     required := field_name <$> filter (fun f => field_default f = None) fields |}.

Definition schema (f : t) : Schema :=
  {| name := __name__ f;
     description := __doc__ f;
     parameters := model_schema (__fields__ (model f)) |}.

(** The function as a template sees it. *)
Definition to_value (f : t) : value :=
  PyObject [(codepoints "__name__", PyStr (__name__ f));
            (codepoints "__doc__", PyStr (__doc__ f))].

End Function.

(** Modelled from the spec: marvin.types.FunctionRegistry, a list of
    functions with the list of their schemas. *)
Module FunctionRegistry.

Definition t := list Function.t.

Definition schema (r : t) : list Function.Schema := Function.schema <$> r.

Definition to_value (r : t) : value := PyList (Function.to_value <$> r).

End FunctionRegistry.

(** ** marvin.components.ai_model.AIModel *)

Record Message := {
  role : str;
  content : str;
}.

(** What [as_prompt] returns: the keywords of a [ChatCompletion]. *)
Record Prompt := {
  functions : FunctionRegistry.t + list Function.Schema;
  function_call : str;                   (* the dictionary {"name": ...} *)
  messages : list Message;
}.

(** The keywords [as_decorator] takes besides [base_model]. *)
Record DecoratorKeywords := {
  system : option str;
  user : option str;
  instructions : option str;
  context_fn : option nat;               (* a function object or None *)
  mode : str;
}.

(** A computation that may send requests to the completion backend: the
    requests sent, in order, and what it returns or raises. *)
Definition traced (A : Type) : Type := list Prompt * result A.

#[global] Instance traced_ret : MRet traced := fun A a => ([], Ok a).
#[global] Instance traced_bind : MBind traced :=
  fun A B f m =>
    match m with
    | (log, Ok a) => let '(log', r) := f a in (log ++ log', r)
    | (log, Raise e) => (log, Raise e)
    end.

Definition lift {A} (r : result A) : traced A := ([], r).

Module AIModel.

Definition opt_str (s : option str) : value :=
  match s with
  | Some s => PyStr s
  | None => PyNone
  end.

Definition opt_callable (f : option nat) : value :=
  match f with
  | Some id => PyCallable id
  | None => PyNone
  end.

(** [a or b] for an optional string [a]. *)
Definition or_else (a : option str) (b : str) : str :=
  match a with
  | Some (c :: s) => c :: s
  | _ => b
  end.

(** The function object [default_context] is [PyCallable 0]; it reads the
    clock, so what it returns is a parameter [now] of the run: the
    formatted current date. *)
Definition default_context_id : nat := 0.

Definition default_context (now : str) (args : list value) : result value :=
  match args with
  | [text] => Ok (PyDict [(codepoints "The current date is", PyStr now)])
  | _ => Raise TypeError
  end.

Definition function_table (now : str) (others : callables) : callables :=
  fun id =>
    match id with
    | 0 => default_context now
    | S id => others id
    end.

(** The defaults of the keywords of [as_decorator]. *)
Definition default_keywords : DecoratorKeywords :=
  {| system := None;
     user := Some user_prompt;
     instructions := None;
     context_fn := Some default_context_id;
     mode := codepoints "extract" |}.

(** The fixed text of the description, before the line break and the
    instructions that [format] puts in. *)
Definition boilerplate : str :=
  codepoints
    ("You MUST always call this function before responding to the"
     ++ " user to ensure that your final response is formatted"
     ++ " correctly and complies with the output format"
     ++ " requirements.")%string.
Arguments boilerplate : simpl never.

(** [type("format_response", (cls,), dict(cls.__dict__))] *)
Definition format_response (cls : AIModelClass) : AIModelClass :=
  {| __name__ := codepoints "format_response";
     __fields__ := __fields__ cls;
     _messages_keywords := _messages_keywords cls;
     _functions_keywords := _functions_keywords cls |}.

(** [base_model.construct().dict()]: the fields that have a default. *)
Definition construct_dict (base_model : BaseModel) : value :=
  PyDict (omap (fun f => pair (field_name f) <$> field_default f)
               (model_fields base_model)).

Definition system_prompt_for (mode : str) : str :=
  if decide (mode = codepoints "extract")
  then system_extract_prompt else system_generate_prompt.

(** The keywords bound by the partial that [as_decorator] returns when it
    is called without [base_model]; [mode] is not among them, so the call
    that follows sees its default.  The keywords [model] and
    [model_kwargs] are handed on and never read. *)
Definition as_decorator_partial (kw : DecoratorKeywords) : DecoratorKeywords :=
  {| system := Some (or_else (system kw) (system_prompt_for (mode kw)));
     user := Some (or_else (user kw) user_prompt);
     instructions := instructions kw;
     context_fn := context_fn kw;
     mode := codepoints "extract" |}.

(** The subclass [as_decorator] builds from [base_model]. *)
Definition as_decorator_subclass (base_model : BaseModel) (kw : DecoratorKeywords)
  : AIModelClass :=
  {| __name__ := model_name base_model;
     __fields__ := model_fields base_model;
     _messages_keywords :=
       {[ codepoints "system" :=
            PyStr (or_else (system kw) (system_prompt_for (mode kw)));
          codepoints "user" := PyStr (or_else (user kw) user_prompt);
          codepoints "defaults" := construct_dict base_model;
          codepoints "context_fn" := opt_callable (context_fn kw);
          codepoints "instructions" := opt_str (instructions kw) ]};
     _functions_keywords :=
       {[ codepoints "instructions" := opt_str (instructions kw) ]} |}.

(** [AIModel.as_decorator] on [base_model] and its keywords *)
Definition as_decorator (base_model : option BaseModel) (kw : DecoratorKeywords)
  : DecoratorKeywords + AIModelClass :=
  match base_model with
  | None => inl (as_decorator_partial kw)
  | Some base_model => inr (as_decorator_subclass base_model kw)
  end.

(** The two ways the decorator is used: [@ai_model] on the class, which
    calls [as_decorator] on [base_model] with the keywords [kw], and
    [@ai_model(...)] with keywords, which calls the partial that
    [as_decorator] returned on [base_model]. *)
Definition ai_model (with_keywords : bool) (kw : DecoratorKeywords)
  (base_model : BaseModel) : AIModelClass :=
  if with_keywords then
    match as_decorator None kw with
    | inl bound => as_decorator_subclass base_model bound
    | inr cls => cls
    end
  else as_decorator_subclass base_model kw.

Definition with_mode (mode : str) (kw : DecoratorKeywords) : DecoratorKeywords :=
  {| system := system kw;
     user := user kw;
     instructions := instructions kw;
     context_fn := context_fn kw;
     mode := mode |}.

(** A subclass of [AIModel] written by hand, without the decorator. *)
Definition plain_subclass (base_model : BaseModel) : AIModelClass :=
  {| __name__ := model_name base_model;
     __fields__ := model_fields base_model;
     _messages_keywords := ∅;
     _functions_keywords := ∅ |}.

(** [zip] on any number of lists: as long as the shortest, and empty
    without lists. *)
Fixpoint zip_rows {A} (n : nat) (ls : list (list A)) : list (list A) :=
  match n with
  | 0 => []
  | S n =>
      match mapM head ls with
      | Some row => row :: zip_rows n (tail <$> ls)
      | None => []
      end
  end.

Definition zip_star {A} (ls : list (list A)) : list (list A) :=
  match ls with
  | [] => []
  | l :: _ => zip_rows (length l) ls
  end.

(** The arguments of the calls [amap] makes, one pair per task. *)
Definition amap_calls (map_args : list (list value))
  (map_kwargs : list (str * list value)) : list (list value * gmap str value) :=
  match map_kwargs with
  | [] => (fun a => (a, ∅)) <$> zip_star map_args
  | _ =>
      (fun a_kw : list value * list value =>
         (a_kw.1,
          foldl (fun m kv => <[kv.1 := kv.2]> m) ∅ (zip (map_kwargs.*1) a_kw.2)))
      <$> zip (zip_star map_args) (zip_star (map_kwargs.*2))
  end.

Section backend.

(** The outside of the core: the function objects of the run, the
    completion backend ([ChatCompletion.create], [acreate] and
    [call_function] of the response) and the validation pydantic does
    in [BaseModel.__init__]. *)
Variable fns : callables.
Variable Response : Type.
Variable ChatCompletion_create : Prompt -> result Response.
Variable ChatCompletion_acreate : Prompt -> result Response.
Variable call_function : Response -> result (gmap str value).
Variable BaseModel___init__ :
  AIModelClass -> gmap str value -> result (gmap str value).

(** The content of the message of [role]: the template under the key
    [role] (the empty one by default), rendered with the keywords and
    stripped.  [defaults] is a keyword of its own, the other keywords
    are [kwargs]; [render] receives the template as [self], so that a
    keyword of that name among them is refused. *)
Definition render_content (keywords : gmap str value) (role : str) : result str :=
  let defaults := default PyNone (keywords !! codepoints "defaults") in
  let kwargs := delete (codepoints "defaults") keywords in
  source ← match default (PyStr []) (kwargs !! role) with
           | PyStr s => Ok s
           | _ => Raise Unsupported
           end;
  t ← jinja2.Template source;
  if decide (is_Some (kwargs !! codepoints "self")) then Raise TypeError
  else
    s ← jinja2.render fns t (<[codepoints "defaults" := defaults]> kwargs);
    Ok (strip s).

(** [AIModel._messages] on the keywords of a call *)
Definition _messages_raw (keywords : gmap str value) : result (list Message) :=
  mapM (fun role : str =>
          content ← render_content keywords role;
          Ok {| role := role; content := content |})
       [codepoints "system"; codepoints "user"].

(** [cls._messages] called with [keywords]: through the partial of
    [as_decorator] when the class was decorated. *)
Definition _messages (cls : AIModelClass) (keywords : gmap str value)
  : result (list Message) :=
  _messages_raw (functools.partial_keywords (_messages_keywords cls) keywords).

(** [cls._functions] called with [args] and [keywords]; [instructions]
    is a keyword of its own. *)
Definition _functions (cls : AIModelClass) (args : list value)
  (keywords : gmap str value) : result FunctionRegistry.t :=
  let keywords := functools.partial_keywords (_functions_keywords cls) keywords in
  let instructions := default PyNone (keywords !! codepoints "instructions") in
  b ← truthy instructions;
  s ← to_str (if b : bool then instructions else PyStr []);
  Ok [Function.from_model (format_response cls)
                          (codepoints "format_response")
                          (strip (boilerplate ++ [LF; LF] ++ s))].

(** [cls._function_call] called with [args], [__schema__] and [kwargs]:
    the value under the key name of the dictionary it returns. *)
Definition _function_call (cls : AIModelClass) (args : list value)
  (__schema__ : bool) (kwargs : gmap str value) : result str :=
  registry ← _functions cls args kwargs;
  if __schema__ then
    match FunctionRegistry.schema registry with
    | s :: _ => Ok (Function.name s)
    | [] => Raise IndexError
    end
  else
    match registry with
    | f :: _ => Ok (Function.__name__ f)
    | [] => Raise IndexError
    end.

(** [cls.as_prompt] called with [args] and [keywords]: the first
    positional argument or the keyword [text] is the text, [__schema__]
    and [instructions] are keyword-only, the other keywords are [kwargs].
    A keyword [functions] among them meets the one [as_prompt] passes to
    [_messages] itself. *)
Definition as_prompt (cls : AIModelClass) (args : list value)
  (keywords : gmap str value) : result Prompt :=
  '(text, args, keywords) ←
    match args with
    | text :: args =>
        if decide (is_Some (keywords !! codepoints "text"))
        then Raise TypeError else Ok (text, args, keywords)
    | [] => Ok (default PyNone (keywords !! codepoints "text"), [],
                delete (codepoints "text") keywords)
    end;
  __schema__ ← truthy (default (PyBool true) (keywords !! codepoints "__schema__"));
  let instructions := default PyNone (keywords !! codepoints "instructions") in
  let kwargs := delete (codepoints "instructions")
                       (delete (codepoints "__schema__") keywords) in
  registry ← _functions cls args kwargs;
  name ← _function_call cls args __schema__ kwargs;
  msgs ←
    (if decide (is_Some (kwargs !! codepoints "functions")) then Raise TypeError
     else
       with_instructions ← truthy instructions;
       _messages cls
         ((if with_instructions : bool
           then <[codepoints "instructions" := instructions]> kwargs
           else kwargs)
          ∪ {[ codepoints "text" := text;
               codepoints "functions" := FunctionRegistry.to_value registry ]}));
  Ok {| functions := if __schema__ : bool
                     then inr (FunctionRegistry.schema registry)
                     else inl registry;
        function_call := name;
        messages := msgs |}.

(** [cls.to_chat_completion], where [__schema__] defaults to False: the
    keywords for the [ChatCompletion]. *)
Definition to_chat_completion (cls : AIModelClass) (args : list value)
  (keywords : gmap str value) : result Prompt :=
  let __schema__ := default (PyBool false) (keywords !! codepoints "__schema__") in
  let instructions := default PyNone (keywords !! codepoints "instructions") in
  as_prompt cls args
            (<[codepoints "__schema__" := __schema__]>
               (<[codepoints "instructions" := instructions]> keywords)).

(** Sending a request to the backend. *)
Definition send (backend : Prompt -> result Response) (p : Prompt)
  : traced Response := ([p], backend p).

Definition create (cls : AIModelClass) (args : list value)
  (keywords : gmap str value) : traced Response :=
  p ← lift (to_chat_completion cls args
              (<[codepoints "instructions" :=
                   default PyNone (keywords !! codepoints "instructions")]> keywords));
  send ChatCompletion_create p.

Definition call (cls : AIModelClass) (args : list value)
  (keywords : gmap str value) : traced (gmap str value) :=
  completion ← create cls args keywords;
  lift (call_function completion).

Definition acreate (cls : AIModelClass) (args : list value)
  (keywords : gmap str value) : traced Response :=
  p ← lift (to_chat_completion cls args keywords);
  send ChatCompletion_acreate p.

Definition acall (cls : AIModelClass) (args : list value)
  (keywords : gmap str value) : traced (gmap str value) :=
  completion ← acreate cls args keywords;
  lift (call_function completion).

(** [AIModel.__init__], run by [cls] called on [args] and [kwargs]: the
    requests sent and the instance. *)
Definition __init__ (cls : AIModelClass) (args : list value)
  (kwargs : gmap str value) : traced (gmap str value) :=
  let instructions := default PyNone (kwargs !! codepoints "instructions_") in
  let kwargs := delete (codepoints "instructions_") kwargs in
  let text := default PyNone (head args) in
  has_text ← lift (truthy text);
  kwargs ← (if has_text : bool then
              k ← call cls [text] {[ codepoints "instructions" := instructions ]};
              mret (k ∪ kwargs)
            else mret kwargs);
  lift (BaseModel___init__ cls kwargs).

(** The tasks of [amap]: a coroutine per call, given by its outcome. *)
Definition amap_tasks (cls : AIModelClass) (map_args : list (list value))
  (map_kwargs : list (str * list value)) : list (result (gmap str value)) :=
  (fun call => (acall cls call.1 call.2).2) <$> amap_calls map_args map_kwargs.

(** [await cls.amap(...)] when the tasks complete in the order
    [schedule]; [None] when the gathered future is never resolved. *)
Definition amap (cls : AIModelClass) (map_args : list (list value))
  (map_kwargs : list (str * list value)) (schedule : list nat)
  : option (result (list (result (gmap str value)))) :=
  asyncio.gather (amap_tasks cls map_args map_kwargs) schedule.

(** Modelled from the spec: marvin.utilities.async_utils.run_sync is
    not in the sources read here; [map] is the synchronous wrapper that
    runs [amap] to its end. *)
Definition map (cls : AIModelClass) (map_args : list (list value))
  (map_kwargs : list (str * list value)) (schedule : list nat)
  : option (result (list (result (gmap str value)))) :=
  amap cls map_args map_kwargs schedule.

End backend.

End AIModel.

(** ** marvin.utilities.messages

    The roles of a message and the validator of its content. *)

(** [str.lower] on ASCII text.  The case table of Unicode is not part of
    the model: a string with a character above 127 is [Unsupported]. *)
Definition lower_char (c : N) : N :=
  if ((65 <=? c) && (c <=? 90))%N then (c + 32)%N else c.

Definition lower (s : str) : result str :=
  if forallb (fun c => (c <? 128)%N) s then Ok (lower_char <$> s)
  else Raise Unsupported.

Module Role.

Inductive t := USER | SYSTEM | ASSISTANT | FUNCTION_REQUEST | FUNCTION_RESPONSE.

Definition _value_ (member : t) : str :=
  match member with
  | USER => codepoints "USER"
  | SYSTEM => codepoints "SYSTEM"
  | ASSISTANT => codepoints "ASSISTANT"
  | FUNCTION_REQUEST => codepoints "FUNCTION_REQUEST"
  | FUNCTION_RESPONSE => codepoints "FUNCTION_RESPONSE"
  end.

(** The members in the order of their definition, the order in which
    the class is iterated. *)
Definition members : list t :=
  [USER; SYSTEM; ASSISTANT; FUNCTION_REQUEST; FUNCTION_RESPONSE].

(** The loop of [_missing_] over [members], [value] already in lower
    case. *)
Fixpoint first_member (value : str) (members : list t) : result (option t) :=
  match members with
  | [] => Ok None
  | member :: rest =>
      v ← lower (_value_ member);
      if decide (v = value) then Ok (Some member) else first_member value rest
  end.

(** [Role._missing_] on a string *)
Definition _missing_ (value : str) : result (option t) :=
  value ← lower value;
  first_member value members.

(** [Role(value)] on a string, as [enum.Enum] looks a value up: the member
    that has this value, else the member [_missing_] returns, and
    ValueError when it returns None. *)
Definition lookup (value : str) : result t :=
  match List.find (fun member => bool_decide (_value_ member = value)) members with
  | Some member => Ok member
  | None =>
      found ← _missing_ value;
      match found with
      | Some member => Ok member
      | None => Raise ValueError
      end
  end.

End Role.

(** [Message.clean_content], the validator of the field [content] *)
Definition clean_content (v : option str) : option str :=
  match v with
  | Some v => Some (inspect.cleandoc v)
  | None => None
  end.

(** ** Induction on templates *)

(** Induction on expressions and on nodes, through the lists they nest. *)
Section nested_induction.

Variable P : jinja2.expr -> Prop.
Hypothesis HName : forall n, P (jinja2.EName n).
Hypothesis HConst : forall v, P (jinja2.EConst v).
Hypothesis HGetattr : forall e a, P e -> P (jinja2.EGetattr e a).
Hypothesis HGetitem : forall e i, P e -> P i -> P (jinja2.EGetitem e i).
Hypothesis HCall : forall e args, P e -> Forall P args -> P (jinja2.ECall e args).


Variable Q : jinja2.node -> Prop.
Hypothesis HData : forall s, Q (jinja2.Data s).
Hypothesis HOutput : forall e, Q (jinja2.Output e).
Hypothesis HIf : forall c body, Forall Q body -> Q (jinja2.If c body).
Hypothesis HFor : forall t iter body, Forall Q body -> Q (jinja2.For t iter body).

Fixpoint node_nested_ind (n : jinja2.node) : Q n :=
  let go :=
    fix go (ns : list jinja2.node) : Forall Q ns :=
      match ns with
      | [] => List.Forall_nil Q
      | n :: r => List.Forall_cons Q n r (node_nested_ind n) (go r)
      end in
  match n with
  | jinja2.Data s => HData s
  | jinja2.Output e => HOutput e
  | jinja2.If c body => HIf c body (go body)
  | jinja2.For t iter body => HFor t iter body (go body)
  end.

End nested_induction.

(** ** What the statements below speak of *)

(** The description [_functions] writes for the instructions [s]. *)
Definition description_for (s : str) : str :=
  match rstrip s with
  | [] => AIModel.boilerplate
  | r => AIModel.boilerplate ++ [LF; LF] ++ r
  end.

(** The context a template of the call with [keywords] is rendered in. *)
Definition render_context (keywords : gmap str value) : gmap str value :=
  <[codepoints "defaults" := default PyNone (keywords !! codepoints "defaults")]>
    (delete (codepoints "defaults") keywords).

(** A node that prints the variable [x], tests it or loops over it, and
    does nothing else with it. *)
Inductive lenient_use (x : str) : jinja2.node -> Prop :=
| lenient_output :
    lenient_use x (jinja2.Output (jinja2.EName x))
| lenient_test body :
    lenient_use x (jinja2.If (jinja2.EName x) body)
| lenient_loop t body :
    lenient_use x (jinja2.For t (jinja2.EName x) body).

(** The expressions and the nodes the built-in prompts are made of: the
    name of the first function, the instructions, the text, and, in the
    loop over the items of the context, the key and the value. *)
Definition is_name (x : str) (e : jinja2.expr) : bool :=
  match e with
  | jinja2.EName n => bool_decide (n = x)
  | _ => false
  end.

Definition is_function_name (e : jinja2.expr) : bool :=
  match e with
  | jinja2.EGetattr (jinja2.EGetitem f (jinja2.EConst (PyInt 0))) a =>
      is_name (codepoints "functions") f && bool_decide (a = codepoints "__name__")
  | _ => false
  end.

Definition is_context_items (e : jinja2.expr) : bool :=
  match e with
  | jinja2.ECall (jinja2.EGetattr (jinja2.ECall f [text]) a) [] =>
      is_name (codepoints "context_fn") f && is_name (codepoints "text") text
      && bool_decide (a = codepoints "items")
  | _ => false
  end.

Definition is_arg_value (t : jinja2.target) : bool :=
  match t with
  | jinja2.TTuple [a; v] =>
      bool_decide (a = codepoints "arg") && bool_decide (v = codepoints "value")
  | _ => false
  end.

(** [in_loop]: inside the loop over the items; [has_context]: inside the
    test of [context_fn], where the loop may stand. *)
Fixpoint builtin_node (in_loop has_context : bool) (n : jinja2.node) : bool :=
  match n with
  | jinja2.Data _ => true
  | jinja2.Output e =>
      is_function_name e || is_name (codepoints "instructions") e
      || is_name (codepoints "text") e
      || in_loop && (is_name (codepoints "arg") e || is_name (codepoints "value") e)
  | jinja2.If c body =>
      if is_name (codepoints "context_fn") c
      then forallb (builtin_node in_loop true) body
      else is_name (codepoints "instructions") c
           && forallb (builtin_node in_loop has_context) body
  | jinja2.For t iter body =>
      negb in_loop && has_context && is_arg_value t && is_context_items iter
      && forallb (builtin_node true true) body
  end.

(** The body of a loop rendered for each element in turn. *)
Fixpoint render_loop (fns : callables) (ctx : gmap str value) (t : jinja2.target)
  (body : list jinja2.node) (items : list value) : result str :=
  match items with
  | [] => Ok []
  | item :: r =>
      ctx' ← jinja2.bind_target t item (<[codepoints "loop" := PyOpaque]> ctx);
      s ← jinja2.render_nodes fns ctx' body;
      s' ← render_loop fns ctx t body r;
      Ok (s ++ s')
  end.

(** Evaluating the expression in the context [ctx] comes to a strict
    use of the variable [x]: it takes an attribute of [x] (one whose
    name does not start with an underscore), subscripts [x] or calls
    it, after the subscript or the arguments have been evaluated; or
    it comes to such a use in the object of an attribute, a subscript
    or a call, in a subscript once the object has been evaluated, or
    in an argument once the function and the arguments before it have
    been evaluated. *)
Inductive strict_use (fns : callables) (ctx : gmap str value) (x : str)
  : jinja2.expr -> Prop :=
| strict_getattr a :
    jinja2.underscore a = false ->
    strict_use fns ctx x (jinja2.EGetattr (jinja2.EName x) a)
| strict_getitem i v :
    jinja2.eval fns ctx i = Ok v ->
    strict_use fns ctx x (jinja2.EGetitem (jinja2.EName x) i)
| strict_call args :
    Forall (fun a => exists v, jinja2.eval fns ctx a = Ok v) args ->
    strict_use fns ctx x (jinja2.ECall (jinja2.EName x) args)
| strict_getattr_of e a :
    strict_use fns ctx x e -> strict_use fns ctx x (jinja2.EGetattr e a)
| strict_getitem_of e i :
    strict_use fns ctx x e -> strict_use fns ctx x (jinja2.EGetitem e i)
| strict_call_of e args :
    strict_use fns ctx x e -> strict_use fns ctx x (jinja2.ECall e args)
| strict_subscript e i v :
    jinja2.eval fns ctx e = Ok v ->
    strict_use fns ctx x i -> strict_use fns ctx x (jinja2.EGetitem e i)
| strict_argument e f before a after :
    jinja2.eval fns ctx e = Ok f ->
    Forall (fun a => exists v, jinja2.eval fns ctx a = Ok v) before ->
    strict_use fns ctx x a ->
    strict_use fns ctx x (jinja2.ECall e (before ++ a :: after)).

(** Rendering the node in the context [ctx] comes to a strict use of
    the variable [x], undefined there: in what the node prints, in its
    test or in what it loops over; or in its body, when the body is
    entered and what is rendered before the use, the turns of the loop
    before it among that, has rendered. *)
Inductive meets_strict_use (fns : callables) (x : str)
  : gmap str value -> jinja2.node -> Prop :=
| meets_output ctx e :
    jinja2.resolve ctx x = Undefined -> strict_use fns ctx x e ->
    meets_strict_use fns x ctx (jinja2.Output e)
| meets_test ctx c body :
    jinja2.resolve ctx x = Undefined -> strict_use fns ctx x c ->
    meets_strict_use fns x ctx (jinja2.If c body)
| meets_iterable ctx t iter body :
    jinja2.resolve ctx x = Undefined -> strict_use fns ctx x iter ->
    meets_strict_use fns x ctx (jinja2.For t iter body)
| meets_if_body ctx c v pre n post s :
    jinja2.eval fns ctx c = Ok v -> truthy v = Ok true ->
    jinja2.render_nodes fns ctx pre = Ok s ->
    meets_strict_use fns x ctx n ->
    meets_strict_use fns x ctx (jinja2.If c (pre ++ n :: post))
| meets_for_body ctx t iter v before item after s0 ctx' pre n post s :
    jinja2.eval fns ctx iter = Ok v ->
    jinja2.iterate v = Ok (before ++ item :: after) ->
    render_loop fns ctx t (pre ++ n :: post) before = Ok s0 ->
    jinja2.bind_target t item (<[codepoints "loop" := PyOpaque]> ctx) = Ok ctx' ->
    jinja2.render_nodes fns ctx' pre = Ok s ->
    meets_strict_use fns x ctx' n ->
    meets_strict_use fns x ctx (jinja2.For t iter (pre ++ n :: post)).

(** The names an expression reads. *)
Fixpoint expr_names (e : jinja2.expr) : list str :=
  match e with
  | jinja2.EName n => [n]
  | jinja2.EConst _ => []
  | jinja2.EGetattr e _ => expr_names e
  | jinja2.EGetitem e i => expr_names e ++ expr_names i
  | jinja2.ECall e args =>
      expr_names e
      ++ (fix args_names (args : list jinja2.expr) : list str :=
            match args with
            | [] => []
            | a :: r => expr_names a ++ args_names r
            end) args
  end.

(** The names a loop binds in its body. *)
Definition bound_names (t : jinja2.target) : list str :=
  codepoints "loop" ::
  match t with
  | jinja2.TName n => [n]
  | jinja2.TTuple ns => ns
  end.

(** The names a node reads from the context it is rendered in: those of
    its expressions, in the body of a loop those the loop does not
    bind. *)
Fixpoint node_names (n : jinja2.node) : list str :=
  let nodes_names :=
    fix nodes_names (ns : list jinja2.node) : list str :=
      match ns with
      | [] => []
      | n :: r => node_names n ++ nodes_names r
      end in
  match n with
  | jinja2.Data _ => []
  | jinja2.Output e => expr_names e
  | jinja2.If c body => expr_names c ++ nodes_names body
  | jinja2.For t iter body =>
      expr_names iter ++ filter (fun x => x ∉ bound_names t) (nodes_names body)
  end.

Fixpoint nodes_names (ns : list jinja2.node) : list str :=
  match ns with
  | [] => []
  | n :: r => node_names n ++ nodes_names r
  end.



(** A value that [to_str] prints. *)
Definition printable (v : value) : Prop := exists s, to_str v = Ok s.

(** The context function [f] returns, on the text of the context, a
    dictionary of values that print. *)
Definition good_context_fn (fns : callables) (ctx : gmap str value) (f : value) : Prop :=
  exists id text d,
    f = PyCallable id
    /\ ctx !! codepoints "text" = Some text
    /\ fns id [text] = Ok (PyDict d)
    /\ Forall (fun kv => printable kv.2) d.

(** A context that gives the built-in prompts what they ask for: a
    registry with a first function, instructions, a text that prints, and
    no context function or a good one. *)
Definition provides (fns : callables) (ctx : gmap str value) : Prop :=
  (exists f rest, ctx !! codepoints "functions"
                  = Some (FunctionRegistry.to_value (f :: rest)))
  /\ (exists instr, ctx !! codepoints "instructions" = Some (AIModel.opt_str instr))
  /\ (exists text, ctx !! codepoints "text" = Some text /\ printable text)
  /\ (exists f, ctx !! codepoints "context_fn" = Some f
               /\ (f = PyNone \/ good_context_fn fns ctx f)).

(** In the loop, [arg] and [value] are bound to a key and a value that
    prints. *)
Definition in_items (in_loop : bool) (ctx : gmap str value) : Prop :=
  in_loop = true ->
  (exists k, ctx !! codepoints "arg" = Some (PyStr k))
  /\ (exists v, ctx !! codepoints "value" = Some v /\ printable v).

(** What holds of the context where a node stands. *)
Definition node_context (fns : callables) (in_loop has_context : bool)
  (ctx : gmap str value) : Prop :=
  provides fns ctx
  /\ in_items in_loop ctx
  /\ (has_context = true ->
      exists f, ctx !! codepoints "context_fn" = Some f /\ good_context_fn fns ctx f).

(** ** What the statements on requests speak of *)

(** A request as the backend expects it: one function, named
    format_response, that the forced call names, and the message of the
    system followed by the message of the user, both stripped. *)
Definition well_formed (p : Prompt) : Prop :=
  function_call p = codepoints "format_response"
  /\ match functions p with
     | inl registry => exists f, registry = [f] /\ Function.__name__ f = function_call p
     | inr schemas => exists s, schemas = [s] /\ Function.name s = function_call p
     end
  /\ exists s u,
      messages p = [ {| role := codepoints "system"; content := s |};
                     {| role := codepoints "user"; content := u |} ]
      /\ trimmed s /\ trimmed u.

(** The request in schema form: the schemas in the place of the
    functions. *)
Definition in_schema_form (p : Prompt) : Prompt :=
  {| functions := match functions p with
                  | inl registry => inr (FunctionRegistry.schema registry)
                  | inr schemas => inr schemas
                  end;
     function_call := function_call p;
     messages := messages p |}.

(** ** The built-in prompts, rendered

    What the system prompts of ai_model.py read once the name of the
    function, the instructions and the context are filled in. *)

(** What the context function gives: [None] without a context function,
    else the keys and the printed values of the dictionary it returns on
    the text. *)
Definition context_returns (fns : callables) (context_fn : option nat) (text : value)
  (items : option (list (str * str))) : Prop :=
  match context_fn, items with
  | None, None => True
  | Some id, Some items =>
      exists d, fns id [text] = Ok (PyDict d)
                /\ Forall2 (fun (kv : str * value) (ks : str * str) =>
                              ks.1 = kv.1 /\ to_str kv.2 = Ok ks.2) d items
  | _, _ => False
  end.

Definition extract_text (name instr : str) (items : option (list (str * str))) : str :=
  lines ["The user will provide context as text that you need to parse into a structured form. ";
         "    - To validate your response, you must call the `"]
  ++ name
  ++ lines ["` function.";
            "    - Use the provided text to extract or infer any parameters needed by `"]
  ++ name
  ++ lines ["`, including any missing data.";
            "                                      "]
  ++ [LF]
  ++ match instr with
     | [] => []
     | _ => [LF]
            ++ codepoints "The user has provided some additional requirements for this task: "
            ++ instr ++ [SPACE; LF]
     end
  ++ [LF] ++ codepoints "                                         " ++ [LF]
  ++ match items with
     | Some items =>
         [LF] ++ concat ((fun kv => kv.1 ++ codepoints ": " ++ kv.2) <$> items) ++ [LF]
     | None => []
     end.

Definition generate_text (name instr : str) (items : option (list (str * str))) : str :=
  lines ["The user will provide context as text that you need to parse to generate synthetic data.";
         "    - To validate your response, you must call the `"]
  ++ name
  ++ lines ["` function.";
            "    - Use the provided text to generate or invent any parameters needed by `"]
  ++ name
  ++ lines ["`, including any missing data.";
            "    - It is okay to make up representative data."]
  ++ [LF]
  ++ match instr with
     | [] => []
     | _ => codepoints "You have been provided instructions on completing your task: "
            ++ instr
     end
  ++ match items with
     | Some items =>
         codepoints "You have been provided the following context to perform your task:"
         ++ [LF]
         ++ concat ((fun kv => codepoints "    - " ++ kv.1 ++ codepoints ": " ++ kv.2 ++ [LF])
                      <$> items)
     | None => []
     end.

Definition system_text (mode : str) : str -> str -> option (list (str * str)) -> str :=
  if decide (mode = codepoints "extract") then extract_text else generate_text.

(** The names a call leaves to the class for the statements below:
    the keywords [as_prompt] and the decorator give to [_messages]
    themselves, and [cls] and [self], the parameters that receive the
    class and the template on the way to the rendering, where Python
    refuses a keyword of the same name. *)
Definition reserved : list str :=
  [codepoints "text"; codepoints "functions"; codepoints "system"; codepoints "user";
   codepoints "context_fn"; codepoints "cls"; codepoints "self"].

(** The decorator leaves both templates to the built-in ones. *)
Definition built_in (kw : DecoratorKeywords) : Prop :=
  (system kw = None \/ system kw = Some [])
  /\ (user kw = None \/ user kw = Some [] \/ user kw = Some user_prompt).

(** A run to try the definitions on: the model of the docstring of [amap],
    the clock at one instant and, besides [default_context], function
    objects that raise TypeError when they are called. *)
Module Examples.

Definition Location : BaseModel :=
  {| model_name := codepoints "Location";
     model_fields := [ {| field_name := codepoints "city";
                          field_type := codepoints "string";
                          field_default := None;
                          field_description := None |} ] |}.

Definition now : str := codepoints "Tuesday, 03 November 2026 at 09:30:00 AM UTC".

Definition fns : callables :=
  AIModel.function_table now (fun _ _ => Raise TypeError).

Definition windy_city : value := PyStr (codepoints "windy city").
Definition big_apple : value := PyStr (codepoints "big apple").

(** [@ai_model(system="Hello {{ name }}!")] *)
Definition hello_keywords : DecoratorKeywords :=
  {| system := Some (codepoints "Hello {{ name }}!");
     user := Some user_prompt;
     instructions := None;
     context_fn := Some AIModel.default_context_id;
     mode := codepoints "extract" |}.

(** [@ai_model(user="{{text}}")] *)
Definition bare_user_keywords : DecoratorKeywords :=
  {| system := None;
     user := Some (codepoints "{{text}}");
     instructions := None;
     context_fn := Some AIModel.default_context_id;
     mode := codepoints "extract" |}.

(** [@ai_model] on Location, and the keywords its [_messages] gets for
    the text windy city. *)
Definition LocationModel : AIModelClass :=
  AIModel.ai_model false AIModel.default_keywords Location.

Definition registry : FunctionRegistry.t :=
  [Function.from_model (AIModel.format_response LocationModel)
                       (codepoints "format_response") AIModel.boilerplate].

Definition call_keywords : gmap str value :=
  {[ codepoints "text" := windy_city;
     codepoints "functions" := FunctionRegistry.to_value registry ]}.

Definition messages_keywords : gmap str value :=
  functools.partial_keywords (_messages_keywords LocationModel) call_keywords.

(** The messages of that call. *)
Definition rendered_messages : list Message :=
  match AIModel._messages_raw fns messages_keywords with
  | Ok msgs => msgs
  | Raise _ => []
  end.

(** A user template that, for a text that is not empty, takes an
    attribute of a variable nobody gives. *)
Definition dear_keywords : gmap str value :=
  {[ codepoints "system" := PyStr (codepoints "You write letters.");
     codepoints "user" :=
       PyStr (codepoints "{% if text %}Dear {{ name.first }}, {% endif %}{{ text }}");
     codepoints "text" := windy_city ]}.

(** A system template that prints a variable nobody gives. *)
Definition lenient_keywords : gmap str value :=
  {[ codepoints "system" := PyStr (codepoints "Hello {{ name }}!") ]}.

(** [@ai_model(context_fn=f)] for a function object [f] that raises
    TypeError when it is called on the text, as a function without
    parameters does. *)
Definition no_argument_keywords : DecoratorKeywords :=
  {| system := None;
     user := Some user_prompt;
     instructions := None;
     context_fn := Some 1;
     mode := codepoints "extract" |}.







(** A backend that fails on the big apple. *)
Definition flaky_backend (p : Prompt) : result (gmap str value) :=
  if decide (content <$> messages p !! 1
             = Some (codepoints "The text to parse: big apple"))
  then Raise (BackendError (codepoints "rate limit"))
  else Ok {[ codepoints "city" := PyStr (codepoints "Chicago") ]}.

(** A backend that answers every request with Chicago. *)
Definition chicago : gmap str value :=
  {[ codepoints "city" := PyStr (codepoints "Chicago") ]}.
Definition backend (p : Prompt) : result (gmap str value) := Ok chicago.
Definition call_function (r : gmap str value) : result (gmap str value) := Ok r.
Definition validate (cls : AIModelClass) (kwargs : gmap str value)
  : result (gmap str value) := Ok kwargs.

(** [@ai_model(instructions="Use English names.")] on Location *)
Definition english_keywords : DecoratorKeywords :=
  {| system := None;
     user := Some user_prompt;
     instructions := Some (codepoints "Use English names.");
     context_fn := Some AIModel.default_context_id;
     mode := codepoints "extract" |}.

Definition EnglishLocation : AIModelClass :=
  AIModel.ai_model true english_keywords Location.

(** A call that gives instructions of its own, and its prompt. *)
Definition brief_keywords : gmap str value :=
  {[ codepoints "instructions" := PyStr (codepoints "Be brief.") ]}.

Definition brief_prompt : Prompt :=
  match AIModel.as_prompt fns EnglishLocation [windy_city] brief_keywords with
  | Ok p => p
  | Raise _ => {| functions := inl []; function_call := []; messages := [] |}
  end.

(** A run in which the clock fails. *)
Definition broken_clock : callables := fun _ _ => Raise ValueError.

(** A batch with a list of instructions, shorter than the list of
    texts. *)
Definition batch_keywords : list (str * list value) :=
  [(codepoints "instructions", [PyStr (codepoints "Be brief."); PyNone])].

(** Templates without a tag, the first with a line break of Windows. *)
Definition plain_keywords : gmap str value :=
  {[ codepoints "system" := PyStr (codepoints "You find cities." ++ [CR; LF]);
     codepoints "user" := PyStr (codepoints " Go! ") ]}.

End Examples.

(** * Properties *)

(** * The result monad *)

Lemma bind_Ok {A B} (m : result A) (f : A -> result B) b :
  m ≫= f = Ok b <-> exists a, m = Ok a /\ f a = Ok b.
Proof.
  destruct m as [a|e]; cbn; split.
  - eauto.
  - by intros (? & [= <-] & ?).
  - done.
  - by intros (? & ? & ?).
Qed.

Lemma bind_Raise {A B} (m : result A) (f : A -> result B) e :
  m = Raise e -> m ≫= f = Raise e.
Proof. by intros ->. Qed.

Lemma Ok_inj {A} (a b : A) : Ok a = Ok b -> a = b.
Proof. by intros [= ->]. Qed.

Lemma Raise_inj {A} (e1 e2 : exn) : @Raise A e1 = Raise e2 -> e1 = e2.
Proof. by intros [= ->]. Qed.

(** Split a hypothesis [x ← m; k = Ok b] into its steps. *)
Ltac bind_inv H :=
  repeat match type of H with
         | _ ≫= _ = Ok _ =>
             let a := fresh "a" in
             let Ha := fresh "H" a in
             apply bind_Ok in H as (a & Ha & H)
         | Ok _ = Ok _ => apply Ok_inj in H
         end.

(** * Whitespace stripping *)

Section strip.

Implicit Types (s t : str) (c : N).

Lemma lstrip_head s c : head (lstrip s) = Some c -> isspace c = false.
Proof.
  induction s as [|x s IH]; simpl; [discriminate|].
  destruct (isspace x) eqn:Hx; [exact IH|].
  simpl. intros [= <-]. exact Hx.
Qed.

(** [lstrip] drops a prefix made of whitespace. *)
Lemma lstrip_split s :
  exists p, s = p ++ lstrip s /\ forallb isspace p = true.
Proof.
  induction s as [|x s (p & Hs & Hp)]; simpl.
  - exists []. done.
  - destruct (isspace x) eqn:Hx.
    + exists (x :: p). simpl. rewrite Hx, Hp. split; [congruence|done].
    + exists []. done.
Qed.

Lemma lstrip_spaces p t : forallb isspace p = true -> lstrip (p ++ t) = lstrip t.
Proof.
  induction p as [|x p IH]; simpl; [done|].
  intros [Hx Hp]%andb_prop. rewrite Hx. auto.
Qed.

Lemma lstrip_nonspace c s : isspace c = false -> lstrip (c :: s) = c :: s.
Proof. intros H. simpl. by rewrite H. Qed.

Lemma lstrip_app s t :
  lstrip (s ++ t) = match lstrip s with [] => lstrip t | r => r ++ t end.
Proof.
  induction s as [|x s IH]; simpl; [by destruct (lstrip t)|].
  destruct (isspace x); [exact IH|done].
Qed.

Lemma rstrip_app s t :
  rstrip (s ++ t) = match rstrip t with [] => rstrip s | r => s ++ r end.
Proof.
  unfold rstrip. rewrite rev_app_distr, lstrip_app.
  destruct (lstrip (rev t)) as [|x r] eqn:Ht; simpl; [done|].
  rewrite rev_app_distr, rev_involutive, <- app_assoc.
  destruct (rev r ++ [x]) eqn:E; [by destruct (rev r)|done].
Qed.

Lemma rstrip_snoc_nonspace s c : isspace c = false -> rstrip (s ++ [c]) = s ++ [c].
Proof.
  intros H. unfold rstrip. rewrite rev_app_distr. simpl. rewrite H.
  simpl. by rewrite rev_involutive.
Qed.

Lemma last_rev_head {A} (l : list A) : last (rev l) = head l.
Proof. destruct l as [|x l]; [done|]. simpl. apply last_snoc. Qed.

Lemma rstrip_last s c : last (rstrip s) = Some c -> isspace c = false.
Proof.
  unfold rstrip. rewrite last_rev_head. apply lstrip_head.
Qed.

(** [rstrip] drops a suffix made of whitespace. *)
Lemma rstrip_split s :
  exists q, s = rstrip s ++ q /\ forallb isspace q = true.
Proof.
  destruct (lstrip_split (rev s)) as (p & Hs & Hp).
  exists (rev p). split.
  - unfold rstrip. rewrite <- rev_app_distr, <- Hs. by rewrite rev_involutive.
  - rewrite forallb_forall in *. intros x Hx. apply Hp. by apply in_rev.
Qed.

Lemma rstrip_head s c : head (rstrip s) = Some c -> head s = Some c.
Proof.
  destruct (rstrip_split s) as (q & Hs & _). rewrite Hs at 2.
  by destruct (rstrip s).
Qed.

Lemma strip_trimmed s : trimmed (strip s).
Proof.
  split; intros c Hc.
  - apply rstrip_head in Hc. by apply lstrip_head in Hc.
  - by apply rstrip_last in Hc.
Qed.

Lemma strip_nonspace_head c s : isspace c = false -> exists s', strip (c :: s) = c :: s'.
Proof.
  intros H. unfold strip. rewrite lstrip_nonspace by done.
  destruct (rstrip_split (c :: s)) as (q & Hs & Hq).
  destruct (rstrip (c :: s)) as [|c' s'] eqn:E.
  - simpl in Hs. subst q. simpl in Hq. by rewrite H in Hq.
  - injection Hs as <- _. by exists s'.
Qed.

(** Trailing whitespace does not count. *)
Lemma strip_app_spaces s q : forallb isspace q = true -> strip (s ++ q) = strip s.
Proof.
  intros Hq. unfold strip.
  assert (Hr : rstrip q = []).
  { unfold rstrip. rewrite <- (app_nil_r (rev q)), lstrip_spaces; [done|].
    rewrite forallb_forall in *. intros x Hx. apply Hq. by apply in_rev. }
  rewrite lstrip_app.
  destruct (lstrip s) as [|x r] eqn:E.
  - destruct (lstrip_split q) as (p & Hp & _).
    assert (lstrip q = []) as ->; [|done].
    clear -Hq. induction q as [|y q IH]; simpl in *; [done|].
    apply andb_prop in Hq as [-> Hq]. auto.
  - by rewrite rstrip_app, Hr.
Qed.

End strip.

(** * The Schema Descriptor: [_functions] and [_function_call] *)

Lemma strip_boilerplate s :
  strip (AIModel.boilerplate ++ LF :: LF :: s) = description_for s.
Proof.
  unfold strip, description_for.
  assert (Hb : exists b, AIModel.boilerplate = 89%N :: b) by (eexists; reflexivity).
  destruct Hb as [b Hb]. rewrite Hb at 1. rewrite <- app_comm_cons.
  rewrite lstrip_nonspace by reflexivity. rewrite app_comm_cons, <- Hb.
  change (LF :: LF :: s) with ([LF; LF] ++ s). rewrite !rstrip_app.
  destruct (rstrip s); reflexivity.
Qed.

(** [_functions] reads [instructions] from the keywords of the call, else
    from the keywords bound by the decorator. *)
Lemma _functions_instructions cls args keywords (instructions : option str) :
  functools.partial_keywords (_functions_keywords cls) keywords
    !! codepoints "instructions" = Some (AIModel.opt_str instructions)
  \/ (functools.partial_keywords (_functions_keywords cls) keywords
        !! codepoints "instructions" = None /\ instructions = None) ->
  AIModel._functions cls args keywords =
    Ok [Function.from_model (AIModel.format_response cls)
                            (codepoints "format_response")
                            (description_for (default [] instructions))].
Proof.
  intros H. unfold AIModel._functions.
  assert (default PyNone
            (functools.partial_keywords (_functions_keywords cls) keywords
               !! codepoints "instructions") = AIModel.opt_str instructions) as ->.
  { destruct H as [-> | [-> ->]]; reflexivity. }
  destruct instructions as [[|c s]|]; cbn; by rewrite (strip_boilerplate _).
Qed.

(** C7: for every schema and any optional instructions string, given in the
    call or bound by the decorator, [_functions] returns one function
    specification, named format_response in raw and in schema form, whose
    description is the fixed boilerplate with a blank line and the
    instructions appended, the whole stripped: the boilerplate alone when
    there are no instructions (None, empty or blank). *)
Theorem C7_schema_descriptor (cls : AIModelClass) (base_model : BaseModel)
  (kw : DecoratorKeywords) (args : list value) (kwargs : gmap str value)
  (instr : option str) :
  let description := strip (AIModel.boilerplate ++ [LF; LF] ++ default [] instr) in
  (exists f,
      AIModel._functions cls args
        (<[codepoints "instructions" := AIModel.opt_str instr]> kwargs) = Ok [f]
      /\ Function.__name__ f = codepoints "format_response"
      /\ Function.name (Function.schema f) = codepoints "format_response"
      /\ Function.description (Function.schema f) = description)
  /\ (exists f,
        AIModel._functions (AIModel.as_decorator_subclass base_model kw) args ∅ = Ok [f]
        /\ Function.name (Function.schema f) = codepoints "format_response"
        /\ Function.description (Function.schema f)
           = strip (AIModel.boilerplate ++ [LF; LF]
                    ++ default [] (instructions kw)))
  /\ description = match rstrip (default [] instr) with
                   | [] => AIModel.boilerplate
                   | r => AIModel.boilerplate ++ [LF; LF] ++ r
                   end.
Proof.
  cbn. rewrite !(strip_boilerplate _). split_and!.
  - eexists. split.
    + apply _functions_instructions. left.
      unfold functools.partial_keywords. apply lookup_union_Some_l, lookup_insert_eq.
    + split_and!; reflexivity.
  - eexists. split.
    + apply (_functions_instructions _ _ _ (instructions kw)). left.
      unfold functools.partial_keywords. rewrite (left_id_L ∅ (∪)). apply lookup_singleton_eq.
    + split_and!; reflexivity.
  - reflexivity.
Qed.

(** Whatever the keywords, [_functions] returns one function named
    format_response, or raises. *)
Lemma _functions_inv cls args kwargs registry :
  AIModel._functions cls args kwargs = Ok registry ->
  exists description,
    registry = [Function.from_model (AIModel.format_response cls)
                                    (codepoints "format_response") description].
Proof.
  unfold AIModel._functions. intros H.
  destruct (truthy _) as [b|]; [|done]. cbn in H.
  destruct (to_str _) as [s|]; [|done]. cbn in H.
  injection H as <-. eauto.
Qed.

(** [_function_call] returns the name format_response exactly when
    [_functions] returns. *)
Lemma _function_call_eq cls args (__schema__ : bool) kwargs :
  AIModel._function_call cls args __schema__ kwargs =
    match AIModel._functions cls args kwargs with
    | Ok _ => Ok (codepoints "format_response")
    | Raise e => Raise e
    end.
Proof.
  unfold AIModel._function_call.
  destruct (AIModel._functions cls args kwargs) as [registry|e] eqn:E; [|done].
  apply _functions_inv in E as [d ->]. by destruct __schema__.
Qed.

#[local] Arguments AIModel._functions : simpl never.
#[local] Arguments AIModel._function_call : simpl never.
#[local] Arguments AIModel._messages : simpl never.

(** C1: for every schema and every mode, in schema form and in raw form,
    the name in the directive of [_function_call] is the name of the one
    function in the registry of [_functions], format_response; on the
    keywords [as_prompt] hands over, a decorated class always has that
    registry. *)
Theorem C1_forced_call_name (cls : AIModelClass) (args : list value)
  (__schema__ : bool) (kwargs : gmap str value) :
  match AIModel._functions cls args kwargs with
  | Ok registry =>
      exists f,
        registry = [f]
        /\ Function.__name__ f = codepoints "format_response"
        /\ Function.name (Function.schema f) = codepoints "format_response"
        /\ AIModel._function_call cls args __schema__ kwargs
           = Ok (if __schema__ then Function.name (Function.schema f)
                 else Function.__name__ f)
  | Raise e => AIModel._function_call cls args __schema__ kwargs = Raise e
  end
  /\ forall with_keywords kw base_model,
      exists f,
        AIModel._functions (AIModel.ai_model with_keywords kw base_model) args
                           (delete (codepoints "instructions") kwargs) = Ok [f].
Proof.
  split.
  - rewrite _function_call_eq.
    destruct (AIModel._functions cls args kwargs) as [registry|e] eqn:E; [|done].
    apply _functions_inv in E as [d ->].
    eexists. split_and!; try reflexivity. by destruct __schema__.
  - intros with_keywords kw base_model. eexists.
    apply (_functions_instructions _ _ _ (instructions kw)). left.
    unfold functools.partial_keywords.
    rewrite lookup_union_r by apply lookup_delete_eq.
    destruct with_keywords; apply lookup_singleton_eq.
Qed.

(** The name [as_prompt] puts in [function_call] is the name of the one
    function it puts in [functions]. *)
Lemma as_prompt_forced_call fns cls args keywords p :
  AIModel.as_prompt fns cls args keywords = Ok p ->
  function_call p = codepoints "format_response"
  /\ match functions p with
     | inl registry => exists f, registry = [f] /\ Function.__name__ f = function_call p
     | inr schemas => exists s, schemas = [s] /\ Function.name s = function_call p
     end.
Proof.
  unfold AIModel.as_prompt. intros H.
  destruct (match args with [] => _ | _ => _ end) as [[[text args'] kws]|]; [|done].
  cbn in H.
  destruct (truthy (default (PyBool true) _)) as [sch|]; [|done]. cbn in H.
  destruct (AIModel._functions _ _ _) as [registry|] eqn:E; [|done]. cbn in H.
  rewrite _function_call_eq, E in H. cbn in H.
  apply _functions_inv in E as [d ->].
  destruct (if decide _ then _ else _) as [msgs|]; [|done]. cbn in H.
  injection H as <-. cbn. destruct sch; cbn; eauto.
Qed.

(** * The decorator and its modes *)

(** The schemas of [_functions] depend on the class through its fields and
    the keywords bound to [_functions] only. *)
Lemma _functions_schema_ext c1 c2 args kwargs :
  __fields__ c1 = __fields__ c2 ->
  _functions_keywords c1 = _functions_keywords c2 ->
  FunctionRegistry.schema <$> AIModel._functions c1 args kwargs
  = FunctionRegistry.schema <$> AIModel._functions c2 args kwargs.
Proof.
  intros Hf Hk. unfold AIModel._functions. rewrite Hk.
  destruct (truthy _) as [b|]; [|done]. cbn.
  destruct (to_str _) as [s|]; [|done]. cbn.
  unfold FunctionRegistry.schema, Function.schema. cbn. by rewrite Hf.
Qed.

(** C6: for every schema and every use of the decorator, two modes give
    classes whose function specifications have the same name, description
    and parameter schema, and whose bound keywords are the same except for
    the text of the system prompt. *)
Theorem C6_mode_independence (with_keywords : bool) (kw : DecoratorKeywords)
  (base_model : BaseModel) (mode1 mode2 : str) (args : list value)
  (kwargs : gmap str value) :
  let c1 := AIModel.ai_model with_keywords (AIModel.with_mode mode1 kw) base_model in
  let c2 := AIModel.ai_model with_keywords (AIModel.with_mode mode2 kw) base_model in
  FunctionRegistry.schema <$> AIModel._functions c1 args kwargs
  = FunctionRegistry.schema <$> AIModel._functions c2 args kwargs
  /\ __name__ c1 = __name__ c2
  /\ __fields__ c1 = __fields__ c2
  /\ _functions_keywords c1 = _functions_keywords c2
  /\ forall k, k <> codepoints "system" ->
       _messages_keywords c1 !! k = _messages_keywords c2 !! k.
Proof.
  intros c1 c2.
  assert (Hrest : __name__ c1 = __name__ c2 /\ __fields__ c1 = __fields__ c2
                  /\ _functions_keywords c1 = _functions_keywords c2).
  { subst c1 c2. by destruct with_keywords. }
  destruct Hrest as (Hn & Hf & Hk). split_and!; try done.
  - by apply _functions_schema_ext.
  - intros k Hk'. subst c1 c2.
    destruct with_keywords; cbn;
      rewrite !(lookup_insert_ne _ (codepoints "system")) by done; reflexivity.
Qed.

(** * The Prompt Renderer: [_messages] *)

Section messages.

Variable fns : callables.

(** [_messages] returns the message of the system and then the message
    of the user, or raises what the first failing rendering raises. *)
Lemma _messages_raw_eq keywords :
  AIModel._messages_raw fns keywords =
    match AIModel.render_content fns keywords (codepoints "system") with
    | Ok s =>
        match AIModel.render_content fns keywords (codepoints "user") with
        | Ok u => Ok [ {| role := codepoints "system"; content := s |};
                       {| role := codepoints "user"; content := u |} ]
        | Raise e => Raise e
        end
    | Raise e => Raise e
    end.
Proof.
  unfold AIModel._messages_raw. cbn.
  destruct (AIModel.render_content fns keywords (codepoints "system")); [|done].
  cbn. by destruct (AIModel.render_content fns keywords (codepoints "user")).
Qed.

Lemma render_content_eq keywords role src :
  keywords !! codepoints "self" = None ->
  role <> codepoints "defaults" ->
  keywords !! role = Some (PyStr src) ->
  AIModel.render_content fns keywords role =
    (t ← jinja2.Template src;
     s ← jinja2.render fns t (render_context keywords);
     Ok (strip s)).
Proof.
  intros Hself Hr Hk. unfold AIModel.render_content.
  rewrite !lookup_delete_ne by done. rewrite Hk, Hself.
  by destruct (decide (is_Some None)) as [[? [=]]|_].
Qed.

(** A keyword [self] is refused: no content is returned. *)
Lemma render_content_self keywords role s :
  AIModel.render_content fns keywords role = Ok s ->
  keywords !! codepoints "self" = None.
Proof.
  unfold AIModel.render_content. intros H. bind_inv H.
  rewrite lookup_delete_ne in H by done.
  destruct (decide (is_Some _)) as [|Hn]; [done|].
  by apply eq_None_not_Some.
Qed.

Lemma render_content_trimmed keywords role s :
  AIModel.render_content fns keywords role = Ok s -> trimmed s.
Proof.
  unfold AIModel.render_content. intros H. bind_inv H.
  destruct (decide (is_Some _)); [done|]. bind_inv H.
  subst s. apply strip_trimmed.
Qed.

(** Text at the start of a template is at the start of what it renders. *)
Lemma render_Data ctx d t s :
  jinja2.render fns (jinja2.Data d :: t) ctx = Ok s -> exists s', s = d ++ s'.
Proof.
  unfold jinja2.render. cbn [jinja2.render_nodes jinja2.render_node].
  intros H. bind_inv H. injection Ha as <-. subst s. eauto.
Qed.

Lemma Template_user_prompt :
  jinja2.Template user_prompt =
    Ok [jinja2.Data (codepoints "The text to parse: ");
        jinja2.Output (jinja2.EName (codepoints "text"));
        jinja2.Data [LF; SPACE; SPACE; SPACE; SPACE]].
Proof. vm_compute. reflexivity. Qed.

(** Both system prompts start with the same words. *)
Lemma Template_system_prompt mode :
  exists d t,
    jinja2.Template (AIModel.system_prompt_for mode)
    = Ok (jinja2.Data (codepoints "The user will provide" ++ d) :: t).
Proof.
  unfold AIModel.system_prompt_for. destruct (decide _);
    eexists _, _; vm_compute; reflexivity.
Qed.

(** The user message under the built-in template. *)
Lemma render_content_user_prompt keywords :
  keywords !! codepoints "self" = None ->
  keywords !! codepoints "user" = Some (PyStr user_prompt) ->
  AIModel.render_content fns keywords (codepoints "user") =
    (s ← to_str (jinja2.resolve (render_context keywords) (codepoints "text"));
     Ok (strip (codepoints "The text to parse: " ++ s))).
Proof.
  intros Hself Hk. rewrite (render_content_eq _ _ user_prompt) by done.
  rewrite Template_user_prompt.
  cbn [mbind result_bind jinja2.render jinja2.render_nodes jinja2.render_node jinja2.eval].
  destruct (to_str _) as [s|]; [|done].
  cbn [mbind result_bind app]. by rewrite app_assoc, strip_app_spaces.
Qed.

Lemma render_nodes_unfold ctx ns :
  (fix render_nodes (ctx : gmap str value) (ns : list jinja2.node) : result str :=
     match ns with
     | [] => Ok []
     | n :: r =>
         s ← jinja2.render_node fns ctx n; s' ← render_nodes ctx r; Ok (s ++ s')
     end) ctx ns
  = jinja2.render_nodes fns ctx ns.
Proof. induction ns as [|n r IH]; [done|]. cbn. by rewrite IH. Qed.

Lemma render_node_If ctx c body :
  jinja2.render_node fns ctx (jinja2.If c body) =
    (v ← jinja2.eval fns ctx c;
     b ← truthy v;
     if b : bool then jinja2.render_nodes fns ctx body else Ok []).
Proof. cbn [jinja2.render_node]. by rewrite render_nodes_unfold. Qed.

Lemma render_node_For ctx t iter body :
  jinja2.render_node fns ctx (jinja2.For t iter body) =
    (v ← jinja2.eval fns ctx iter;
     items ← jinja2.iterate v;
     render_loop fns ctx t body items).
Proof.
  cbn [jinja2.render_node].
  destruct (jinja2.eval fns ctx iter) as [v|]; [|done]. cbn [mbind result_bind].
  destruct (jinja2.iterate v) as [items|]; [|done]. cbn [mbind result_bind].
  induction items as [|item r IH]; [done|]. cbn [render_loop]. rewrite <- IH.
  destruct (jinja2.bind_target _ _ _) as [ctx'|]; [|done]. cbn [mbind result_bind].
  by rewrite render_nodes_unfold.
Qed.

End messages.

(** * The built-in prompts always render *)

Section builtin.

Variable fns : callables.

Lemma resolve_Some ctx k v :
  ctx !! k = Some v -> k <> codepoints "self" -> jinja2.resolve ctx k = v.
Proof. unfold jinja2.resolve. intros -> Hk. by rewrite decide_False. Qed.

Lemma is_name_eq x e : is_name x e = true -> e = jinja2.EName x.
Proof. destruct e; try done. cbn. by intros ->%bool_decide_eq_true. Qed.

Lemma provides_insert ctx k v :
  k ∉ [codepoints "functions"; codepoints "instructions"; codepoints "text";
       codepoints "context_fn"] ->
  provides fns ctx -> provides fns (<[k := v]> ctx).
Proof.
  rewrite !not_elem_of_cons.
  intros (H1 & H2 & H3 & H4 & _) (Hf & Hi & Ht & f & Hc & Hg).
  unfold provides, good_context_fn in *. rewrite !lookup_insert_ne by done.
  split_and!; try done. exists f. split; [done|].
  destruct Hg as [->|(id & text & d & -> & Htext & Hd)]; [by left|right].
  by exists id, text, d.
Qed.

Lemma is_function_name_eq e :
  is_function_name e = true ->
  e = jinja2.EGetattr
        (jinja2.EGetitem (jinja2.EName (codepoints "functions")) (jinja2.EConst (PyInt 0)))
        (codepoints "__name__").
Proof.
  destruct e as [| |e a| |]; try done. destruct e as [| | |f i|]; try done.
  destruct i as [|v| | |]; try done. destruct v as [| | |z| | | | | | | | |]; try done.
  destruct z; try done. cbn.
  by intros [->%is_name_eq ->%bool_decide_eq_true]%andb_prop.
Qed.

Lemma is_context_items_eq e :
  is_context_items e = true ->
  e = jinja2.ECall
        (jinja2.EGetattr
           (jinja2.ECall (jinja2.EName (codepoints "context_fn"))
                         [jinja2.EName (codepoints "text")])
           (codepoints "items")) [].
Proof.
  destruct e as [| | | |e args]; try done. destruct e as [| |e a| |]; try done.
  destruct e as [| | | |f [|text [|]]]; try done. destruct args; try done. cbn.
  by intros [[->%is_name_eq ->%is_name_eq]%andb_prop ->%bool_decide_eq_true]%andb_prop.
Qed.

Lemma is_arg_value_eq t :
  is_arg_value t = true -> t = jinja2.TTuple [codepoints "arg"; codepoints "value"].
Proof.
  destruct t as [|[|a [|v [|]]]]; try done. cbn.
  by intros [->%bool_decide_eq_true ->%bool_decide_eq_true]%andb_prop.
Qed.

Lemma eval_function_name ctx e :
  provides fns ctx -> is_function_name e = true ->
  exists s, jinja2.eval fns ctx e ≫= to_str = Ok s.
Proof.
  intros ((f & rest & Hf) & _) ->%is_function_name_eq.
  cbn. rewrite (resolve_Some _ _ _ Hf ltac:(done)). cbn. eauto.
Qed.

Lemma render_builtin_nodes in_loop has_context ctx ns :
  Forall (fun n => forall in_loop has_context ctx,
            builtin_node in_loop has_context n = true ->
            node_context fns in_loop has_context ctx ->
            exists s, jinja2.render_node fns ctx n = Ok s) ns ->
  forallb (builtin_node in_loop has_context) ns = true ->
  node_context fns in_loop has_context ctx ->
  exists s, jinja2.render_nodes fns ctx ns = Ok s.
Proof.
  intros Hall. induction Hall as [|n r Hn _ IH]; intros Hb Hc.
  - cbn. eauto.
  - cbn in Hb. apply andb_prop in Hb as [Hbn Hbr].
    destruct (Hn _ _ _ Hbn Hc) as [s Hs]. destruct (IH Hbr Hc) as [s' Hs'].
    cbn. rewrite Hs. cbn. rewrite Hs'. cbn. eauto.
Qed.

Lemma render_builtin_node n in_loop has_context ctx :
  builtin_node in_loop has_context n = true ->
  node_context fns in_loop has_context ctx ->
  exists s, jinja2.render_node fns ctx n = Ok s.
Proof.
  revert in_loop has_context ctx.
  induction n as [d|e|c body IH|t iter body IH] using node_nested_ind;
    intros in_loop has_context ctx Hb (Hp & Hi & Hg).
  - cbn. eauto.
  - cbn in Hb. cbn [jinja2.render_node].
    destruct (is_function_name e) eqn:E1; [by apply eval_function_name|].
    destruct (is_name (codepoints "instructions") e) eqn:E2.
    { apply is_name_eq in E2 as ->. destruct Hp as (_ & (instr & Hinstr) & _).
      cbn. rewrite (resolve_Some _ _ _ Hinstr ltac:(done)). destruct instr; cbn; eauto. }
    destruct (is_name (codepoints "text") e) eqn:E3.
    { apply is_name_eq in E3 as ->. destruct Hp as (_ & _ & (text & Htext & Hpr) & _).
      cbn. by rewrite (resolve_Some _ _ _ Htext ltac:(done)). }
    cbn in Hb. apply andb_prop in Hb as [-> Hb]. destruct (Hi eq_refl) as [[k Hk] (v & Hv & Hpr)].
    apply orb_prop in Hb as [->%is_name_eq | ->%is_name_eq]; cbn.
    + rewrite (resolve_Some _ _ _ Hk ltac:(done)). cbn. eauto.
    + by rewrite (resolve_Some _ _ _ Hv ltac:(done)).
  - cbn in Hb. rewrite render_node_If.
    destruct (is_name (codepoints "context_fn") c) eqn:E1.
    + apply is_name_eq in E1 as ->. pose proof Hp as (_ & _ & _ & f & Hf & Hgood).
      cbn. rewrite (resolve_Some _ _ _ Hf ltac:(done)).
      destruct Hgood as [->|Hgood]; [cbn; eauto|].
      pose proof Hgood as (id & text & d & -> & _). cbn.
      apply (render_builtin_nodes in_loop true); [done..|]. split_and!; eauto.
    + apply andb_prop in Hb as [->%is_name_eq Hb].
      pose proof Hp as (_ & (instr & Hinstr) & _).
      cbn. rewrite (resolve_Some _ _ _ Hinstr ltac:(done)).
      assert (Hc : node_context fns in_loop has_context ctx) by done.
      destruct instr as [[|x s]|]; cbn; eauto using render_builtin_nodes.
  - cbn in Hb. apply andb_prop in Hb as [Hb Hbody].
    apply andb_prop in Hb as [Hb ->%is_context_items_eq].
    apply andb_prop in Hb as [Hb ->%is_arg_value_eq].
    apply andb_prop in Hb as [Hl ->]. apply negb_true_iff in Hl as ->.
    destruct (Hg eq_refl) as (f & Hf & id & text & d & -> & Htext & Hd & Hpr).
    rewrite render_node_For. cbn [jinja2.eval].
    rewrite (resolve_Some _ _ _ Hf ltac:(done)), (resolve_Some _ _ _ Htext ltac:(done)).
    cbn [mbind result_bind jinja2.call_]. rewrite Hd.
    cbn [mbind result_bind jinja2.getattr_]. unfold jinja2.dict_getattr.
    rewrite decide_True by done.
    cbn [mbind result_bind jinja2.call_]. rewrite decide_True by done.
    cbn [mbind result_bind jinja2.iterate].
    assert (Hgood : good_context_fn fns ctx (PyCallable id)) by (by exists id, text, d).
    clear Hd. induction Hpr as [|[k v] d' Hv _ IHd]; [cbn; eauto|].
    cbn [fmap list_fmap render_loop].
    cbn [jinja2.bind_target jinja2.iterate mbind result_bind].
    cbn [length Nat.eqb zip zip_with foldl fst snd mbind result_bind].
    set (ctx' := <[codepoints "value" := v]> (<[codepoints "arg" := PyStr k]>
                   (<[codepoints "loop" := PyOpaque]> ctx))).
    destruct (render_builtin_nodes true true ctx' body IH Hbody) as [s Hs].
    { subst ctx'. split_and!.
      - do 3 (apply provides_insert;
                [rewrite !not_elem_of_cons; split_and!; (done || apply not_elem_of_nil)|]).
        done.
      - intros _. split.
        + exists k. by rewrite lookup_insert_ne, lookup_insert_eq.
        + exists v. by rewrite lookup_insert_eq.
      - intros _. exists (PyCallable id). rewrite !lookup_insert_ne by done.
        split; [done|]. destruct Hgood as (id' & text' & d0 & ? & ? & ? & ?).
        exists id', text', d0. rewrite !lookup_insert_ne by done. done. }
    rewrite Hs. cbn [mbind result_bind].
    destruct IHd as [s' Hs']. rewrite Hs'. cbn. eauto.
Qed.

Lemma render_builtin ctx t :
  forallb (builtin_node false false) t = true ->
  provides fns ctx ->
  exists s, jinja2.render fns t ctx = Ok s.
Proof.
  intros Hb Hp. apply (render_builtin_nodes false false); [|done|].
  - apply Forall_forall. intros n _ ? ? ?. apply render_builtin_node.
  - by split_and!.
Qed.

Lemma builtin_system_prompt mode :
  exists t, jinja2.Template (AIModel.system_prompt_for mode) = Ok t
            /\ forallb (builtin_node false false) t = true.
Proof.
  unfold AIModel.system_prompt_for. destruct (decide _).
  - exists (match jinja2.Template system_extract_prompt with Ok t => t | Raise _ => [] end).
    split; vm_compute; reflexivity.
  - exists (match jinja2.Template system_generate_prompt with Ok t => t | Raise _ => [] end).
    split; vm_compute; reflexivity.
Qed.

Lemma provides_render_context keywords :
  provides fns keywords -> provides fns (render_context keywords).
Proof.
  intros Hp. unfold render_context. apply provides_insert.
  { rewrite !not_elem_of_cons; split_and!; (done || apply not_elem_of_nil). }
  destruct Hp as (Hf & Hi & Ht & f & Hc & Hg).
  unfold provides, good_context_fn in *. rewrite !lookup_delete_ne by done.
  split_and!; try done. exists f. split; [done|].
  destruct Hg as [->|(id & text & d & -> & Htext & Hd)]; [by left|right].
  by exists id, text, d.
Qed.

(** Under the built-in templates, a context that provides for them gets
    its two messages. *)
Lemma _messages_raw_builtin keywords mode :
  keywords !! codepoints "self" = None ->
  keywords !! codepoints "system" = Some (PyStr (AIModel.system_prompt_for mode)) ->
  keywords !! codepoints "user" = Some (PyStr user_prompt) ->
  provides fns keywords ->
  exists msgs, AIModel._messages_raw fns keywords = Ok msgs.
Proof.
  intros Hself Hs Hu Hp%provides_render_context. rewrite _messages_raw_eq.
  rewrite (render_content_eq _ _ (codepoints "system") (AIModel.system_prompt_for mode))
    by done.
  destruct (builtin_system_prompt mode) as (t & -> & Ht). cbn [mbind result_bind].
  destruct (render_builtin _ _ Ht Hp) as [s ->]. cbn [mbind result_bind].
  rewrite (render_content_user_prompt _ _ Hself Hu).
  destruct Hp as (_ & _ & (text & Htext & s' & Hs') & _).
  rewrite (resolve_Some _ _ _ Htext ltac:(done)), Hs'. cbn. eauto.
Qed.

End builtin.

Section rendering.

Variable fns : callables.

Lemma render_app ctx t1 t2 :
  jinja2.render fns (t1 ++ t2) ctx =
    (s1 ← jinja2.render fns t1 ctx; s2 ← jinja2.render fns t2 ctx; Ok (s1 ++ s2)).
Proof.
  unfold jinja2.render. induction t1 as [|n t1 IH].
  - cbn. by destruct (jinja2.render_nodes fns ctx t2).
  - cbn [app jinja2.render_nodes]. rewrite IH.
    destruct (jinja2.render_node fns ctx n) as [s|]; [|done]. cbn.
    destruct (jinja2.render_nodes fns ctx t1) as [s1|]; [|done]. cbn.
    destruct (jinja2.render_nodes fns ctx t2) as [s2|]; [|done]. cbn.
    by rewrite app_assoc.
Qed.

Lemma render_nodes_app ctx t1 t2 :
  jinja2.render_nodes fns ctx (t1 ++ t2) =
    (s1 ← jinja2.render_nodes fns ctx t1; s2 ← jinja2.render_nodes fns ctx t2; Ok (s1 ++ s2)).
Proof. exact (render_app ctx t1 t2). Qed.

Lemma render_loop_app ctx t body items1 items2 :
  render_loop fns ctx t body (items1 ++ items2) =
    (s1 ← render_loop fns ctx t body items1;
     s2 ← render_loop fns ctx t body items2;
     Ok (s1 ++ s2)).
Proof.
  induction items1 as [|item items1 IH]; cbn [app render_loop].
  - cbn. by destruct (render_loop fns ctx t body items2).
  - destruct (jinja2.bind_target _ _ _) as [ctx'|]; [|done]. cbn [mbind result_bind].
    destruct (jinja2.render_nodes fns ctx' body) as [s|]; [|done]. cbn [mbind result_bind].
    rewrite IH. destruct (render_loop fns ctx t body items1) as [s1|]; [|done].
    cbn [mbind result_bind].
    destruct (render_loop fns ctx t body items2) as [s2|]; [|done].
    cbn [mbind result_bind]. by rewrite app_assoc.
Qed.

#[local] Abbreviation eval_args ctx :=
  (fix eval_args (args : list jinja2.expr) : result (list value) :=
     match args with
     | [] => Ok []
     | a :: r => v ← jinja2.eval fns ctx a; vs ← eval_args r; Ok (v :: vs)
     end).

Lemma eval_args_Ok ctx args :
  Forall (fun a => exists v, jinja2.eval fns ctx a = Ok v) args ->
  exists vs, eval_args ctx args = Ok vs.
Proof.
  induction 1 as [|a r [v Ha] _ [vs IH]]; [by exists []|].
  rewrite Ha. cbn [mbind result_bind]. rewrite IH. cbn. eauto.
Qed.

Lemma eval_args_Raise ctx before a after e :
  Forall (fun a => exists v, jinja2.eval fns ctx a = Ok v) before ->
  jinja2.eval fns ctx a = Raise e ->
  eval_args ctx (before ++ a :: after) = Raise e.
Proof.
  intros Hbefore Ha. induction Hbefore as [|b r [v Hb] _ IH]; cbn [app].
  - by rewrite Ha.
  - rewrite Hb. cbn [mbind result_bind]. by rewrite IH.
Qed.

(** Taking an attribute of an undefined variable, subscripting it or
    calling it raises. *)
Lemma eval_strict_use ctx x e :
  jinja2.resolve ctx x = Undefined ->
  strict_use fns ctx x e ->
  jinja2.eval fns ctx e = Raise UndefinedError.
Proof.
  intros Hx.
  induction 1 as [a Ha|i v Hi|args Hargs|e a _ IH|e i _ IH|e args _ IH
                 |e i v He _ IH|e f before a after He Hbefore _ IH];
    cbn [jinja2.eval]; rewrite ?Hx, ?IH; try reflexivity.
  - cbn. by rewrite Ha.
  - by rewrite Hi.
  - cbn [mbind result_bind]. destruct (eval_args_Ok ctx args Hargs) as [vs ->].
    reflexivity.
  - by rewrite He.
  - rewrite He. cbn [mbind result_bind].
    by rewrite (eval_args_Raise _ _ _ _ UndefinedError).
Qed.

(** The error of a strict use comes out of the node it is met in. *)
Lemma render_meets_strict_use ctx x n :
  meets_strict_use fns x ctx n ->
  jinja2.render_node fns ctx n = Raise UndefinedError.
Proof.
  induction 1 as [ctx e Hx He|ctx c body Hx Hc|ctx t iter body Hx Hi
                 |ctx c v pre n post s Hc Hv Hpre _ IH
                 |ctx t iter v before item after s0 ctx' pre n post s
                    Hiter Hitems Hbefore Hbind Hpre _ IH].
  - cbn [jinja2.render_node]. by rewrite (eval_strict_use _ x).
  - rewrite render_node_If. by rewrite (eval_strict_use _ x).
  - rewrite render_node_For. by rewrite (eval_strict_use _ x).
  - rewrite render_node_If, Hc. cbn [mbind result_bind]. rewrite Hv.
    cbn [mbind result_bind]. rewrite render_nodes_app, Hpre.
    cbn [mbind result_bind jinja2.render_nodes]. by rewrite IH.
  - rewrite render_node_For, Hiter. cbn [mbind result_bind]. rewrite Hitems.
    cbn [mbind result_bind]. rewrite render_loop_app, Hbefore.
    cbn [mbind result_bind render_loop]. rewrite Hbind.
    cbn [mbind result_bind]. rewrite render_nodes_app, Hpre.
    cbn [mbind result_bind jinja2.render_nodes]. by rewrite IH.
Qed.

(** Printing an undefined variable prints nothing; so does testing it
    and looping over it. *)
Lemma render_lenient_use ctx x n :
  jinja2.resolve ctx x = Undefined ->
  lenient_use x n ->
  jinja2.render_node fns ctx n = Ok [].
Proof.
  intros Hx [|body|t body].
  - cbn. by rewrite Hx.
  - rewrite render_node_If. cbn. by rewrite Hx.
  - rewrite render_node_For. cbn. by rewrite Hx.
Qed.

(** C2, as the code has it: when the template of the system or of the
    user takes an attribute of an undefined variable, subscripts it or
    calls it, at a place that is rendered, rendering that template
    raises UndefinedError and [_messages] returns no message: it raises
    that error, or the error the system template has raised before.
    When the template only prints the undefined variable, tests it or
    loops over it, the variable is rendered as nothing and no error is
    raised: the message is what the rest of the template renders, and
    this wherever in a template such a node is rendered. *)
Theorem C2_undefined_variable (keywords : gmap str value) (role src x : str)
  (pre post : jinja2.template) (n : jinja2.node) (s : str) :
  role ∈ [codepoints "system"; codepoints "user"] ->
  keywords !! codepoints "self" = None ->
  keywords !! role = Some (PyStr src) ->
  jinja2.Template src = Ok (pre ++ n :: post) ->
  jinja2.render fns pre (render_context keywords) = Ok s ->
  (meets_strict_use fns x (render_context keywords) n ->
   AIModel.render_content fns keywords role = Raise UndefinedError
   /\ exists e,
       AIModel._messages_raw fns keywords = Raise e
       /\ (e = UndefinedError
           \/ AIModel.render_content fns keywords (codepoints "system") = Raise e))
  /\ (lenient_use x n ->
      jinja2.resolve (render_context keywords) x = Undefined ->
      forall s',
        jinja2.render fns post (render_context keywords) = Ok s' ->
        AIModel.render_content fns keywords role = Ok (strip (s ++ s'))
        /\ forall msgs,
            AIModel._messages_raw fns keywords = Ok msgs ->
            {| role := role; content := strip (s ++ s') |} ∈ msgs)
  /\ (forall ctx n',
        lenient_use x n' ->
        jinja2.resolve ctx x = Undefined ->
        jinja2.render_node fns ctx n' = Ok []).
Proof.
  intros Hrole Hself Hk Ht Hpre.
  assert (Hr : role <> codepoints "defaults").
  { intros ->. by repeat (apply elem_of_cons in Hrole as [|Hrole]; [done|]);
      apply elem_of_nil in Hrole. }
  pose proof (render_content_eq fns keywords role src Hself Hr Hk) as Hcontent.
  rewrite Ht in Hcontent. cbn [mbind result_bind] in Hcontent.
  unfold jinja2.render in Hcontent, Hpre.
  rewrite render_nodes_app, Hpre in Hcontent.
  cbn [mbind result_bind jinja2.render_nodes] in Hcontent.
  split_and!; [| |intros ctx n' Hn Hx; by apply (render_lenient_use ctx x)].
  - intros Hn%render_meets_strict_use. rewrite Hn in Hcontent.
    split; [exact Hcontent|]. rewrite _messages_raw_eq.
    apply elem_of_cons in Hrole as [->|Hrole].
    + rewrite Hcontent. eauto.
    + apply list_elem_of_singleton in Hrole as ->.
      destruct (AIModel.render_content fns keywords (codepoints "system")) as [s0|e].
      * rewrite Hcontent. eauto.
      * eauto.
  - intros Hn Hx s' Hpost. rewrite (render_lenient_use _ x) in Hcontent by done.
    unfold jinja2.render in Hpost. cbn [mbind result_bind] in Hcontent.
    rewrite Hpost in Hcontent. cbn [mbind result_bind app] in Hcontent.
    split; [exact Hcontent|]. intros msgs. rewrite _messages_raw_eq.
    destruct (AIModel.render_content fns keywords (codepoints "system"))
      as [s1|] eqn:Hs; [|done].
    destruct (AIModel.render_content fns keywords (codepoints "user"))
      as [u1|] eqn:Hu; [|done].
    intros [= <-]. apply elem_of_cons in Hrole as [->|Hrole].
    + rewrite Hs in Hcontent. injection Hcontent as ->. left.
    + apply list_elem_of_singleton in Hrole as ->.
      rewrite Hu in Hcontent. injection Hcontent as ->. right. left.
Qed.

(** C3, as the code has it: the content of every message [_messages]
    returns has no leading and no trailing whitespace; under the built-in
    templates, one of the two system prompts and the user prompt, no
    content is empty. *)
Theorem C3_content_trimmed (keywords : gmap str value) (msgs : list Message) :
  AIModel._messages_raw fns keywords = Ok msgs ->
  Forall (fun m => trimmed (content m)) msgs
  /\ (forall mode,
        keywords !! codepoints "system" = Some (PyStr (AIModel.system_prompt_for mode)) ->
        keywords !! codepoints "user" = Some (PyStr user_prompt) ->
        Forall (fun m => content m <> []) msgs).
Proof.
  rewrite _messages_raw_eq. intros H.
  destruct (AIModel.render_content fns keywords (codepoints "system")) as [s|] eqn:Hs; [|done].
  destruct (AIModel.render_content fns keywords (codepoints "user")) as [u|] eqn:Hu; [|done].
  injection H as <-. pose proof (render_content_self _ _ _ _ Hs) as Hself. split.
  - constructor; [|constructor; [|constructor]]; cbn;
      by eapply render_content_trimmed.
  - intros mode Hsys Huser. constructor; [|constructor; [|constructor]]; cbn.
    + rewrite (render_content_eq _ _ _ _) in Hs by done.
      destruct (Template_system_prompt mode) as (d & t & Ht). rewrite Ht in Hs.
      cbn [mbind result_bind] in Hs. bind_inv Hs. subst s.
      apply render_Data in Ha as [s' ->].
      destruct (strip_nonspace_head 84%N (codepoints "he user will provide" ++ d ++ s'))
        as [r Hr]; [done|].
      rewrite <- app_assoc. change (codepoints "The user will provide")
        with (84%N :: codepoints "he user will provide").
      rewrite <- !app_comm_cons, Hr. done.
    + rewrite (render_content_user_prompt _ _ Hself Huser) in Hu. bind_inv Hu. subst u.
      destruct (strip_nonspace_head 84%N (codepoints "he text to parse: " ++ a))
        as [r Hr]; [done|].
      change (codepoints "The text to parse: ")
        with (84%N :: codepoints "he text to parse: ").
      rewrite <- !app_comm_cons, Hr. done.
Qed.

(** C8, as the code has it: whenever [_messages] returns, it returns two
    messages, of the system and then of the user, each stripped, and when
    the user template is the built-in one the user message is the text
    after the words The text to parse, stripped; under the built-in
    templates, without a keyword [self] and with a registry,
    instructions, a text that prints and no context function or one
    that returns a dictionary of values that print, [_messages] does
    return. *)
Theorem C8_two_messages (keywords : gmap str value) :
  (forall msgs,
      AIModel._messages_raw fns keywords = Ok msgs ->
      exists s u,
        msgs = [ {| role := codepoints "system"; content := s |};
                 {| role := codepoints "user"; content := u |} ]
        /\ trimmed s /\ trimmed u
        /\ (keywords !! codepoints "user" = Some (PyStr user_prompt) ->
            forall text,
              keywords !! codepoints "text" = Some (PyStr text) ->
              u = strip (codepoints "The text to parse: " ++ text)))
  /\ (forall mode,
        keywords !! codepoints "self" = None ->
        keywords !! codepoints "system" = Some (PyStr (AIModel.system_prompt_for mode)) ->
        keywords !! codepoints "user" = Some (PyStr user_prompt) ->
        provides fns keywords ->
        exists msgs, AIModel._messages_raw fns keywords = Ok msgs).
Proof.
  split; [|intros mode Hself; by apply _messages_raw_builtin].
  intros msgs. rewrite _messages_raw_eq. intros H.
  destruct (AIModel.render_content fns keywords (codepoints "system")) as [s|] eqn:Hs; [|done].
  destruct (AIModel.render_content fns keywords (codepoints "user")) as [u|] eqn:Hu; [|done].
  injection H as <-. exists s, u. split_and!; [done|by eapply render_content_trimmed..|].
  intros Huser text Htext.
  rewrite (render_content_user_prompt _ _ (render_content_self _ _ _ _ Hu) Huser) in Hu.
  unfold jinja2.resolve, render_context in Hu. rewrite decide_False in Hu by done.
  rewrite lookup_insert_ne, lookup_delete_ne, Htext in Hu by done.
  cbn in Hu. by injection Hu as <-.
Qed.

End rendering.

(** * Rendering depends on the variables the templates read *)

Section congruence.

Variables fns1 fns2 : callables.
Hypothesis Hfns : forall id args, fns1 id args = fns2 id args.

Implicit Types (ctx : gmap str value) (x : str).














End congruence.

(** * The Batch Mapper: [amap] over [asyncio.gather] *)

Section gather.

Context {A : Type}.
Implicit Types (children : list (result A)) (schedule : list nat).
Implicit Type st : asyncio.state A.

(** Once the awaited future is resolved it stays as it is. *)
Lemma gather_done children schedule st r :
  asyncio.outer st = Some r ->
  asyncio.outer (foldl (asyncio._done_callback children) st schedule) = Some r.
Proof.
  revert st. induction schedule as [|i rest IH]; intros st Hst; [done|].
  cbn [foldl]. apply IH. unfold asyncio._done_callback. by rewrite Hst.
Qed.

(** While no more children complete than there are, the future is
    resolved by the first child that raises, else by the last one. *)
Lemma gather_pending children schedule st :
  asyncio.outer st = None ->
  asyncio.nfinished st + length schedule <= length children ->
  asyncio.outer (foldl (asyncio._done_callback children) st schedule) =
    match asyncio.first_raised children schedule with
    | Some exc => Some (Raise exc)
    | None =>
        if decide (asyncio.nfinished st + length schedule = length children
                   /\ schedule <> [])
        then Some (Ok children) else None
    end.
Proof.
  revert st. induction schedule as [|i rest IH]; intros st Hst Hlen.
  { cbn. rewrite Hst. case_decide as H; [by destruct H|done]. }
  cbn [foldl asyncio.first_raised]. cbn [length] in Hlen.
  set (st' := asyncio._done_callback children st i).
  assert (Hnf : asyncio.nfinished st' = S (asyncio.nfinished st)).
  { subst st'. unfold asyncio._done_callback. rewrite Hst.
    destruct (children !! i) as [[|]|]; [|done|]; by destruct (_ =? _). }
  destruct (children !! i) as [[a|exc]|] eqn:Hi.
  2: { apply gather_done. subst st'. unfold asyncio._done_callback.
       by rewrite Hst, Hi. }
  all: assert (Hout : asyncio.outer st' =
                      if S (asyncio.nfinished st) =? length children
                      then Some (Ok children) else None)
    by (subst st'; unfold asyncio._done_callback; rewrite Hst, Hi;
        by destruct (_ =? _)).
  all: destruct (S (asyncio.nfinished st) =? length children) eqn:Hn;
    [ apply Nat.eqb_eq in Hn | apply Nat.eqb_neq in Hn ].
  all: try (destruct rest; [|cbn [length] in Hlen; lia];
            cbn; rewrite Hout; case_decide as H; [done|];
            exfalso; apply H; cbn; split; [lia|done]).
  all: rewrite IH by (rewrite ?Hnf; done || lia); rewrite Hnf;
    destruct (asyncio.first_raised children rest); [done|].
  all: destruct rest as [|k rest]; cbn [length] in *;
    repeat case_decide; try done;
    repeat match goal with H : _ /\ _ |- _ => destruct H end; try lia; try done.
  all: match goal with H : ~ (_ /\ _) |- _ => exfalso; apply H; split; [lia|done] end.
Qed.

Lemma first_raised_elem children schedule i exc :
  i ∈ schedule -> children !! i = Some (Raise exc) ->
  exists exc', asyncio.first_raised children schedule = Some exc'.
Proof.
  induction schedule as [|j rest IH]; intros Hin Hi; [by apply elem_of_nil in Hin|].
  cbn. apply elem_of_cons in Hin as [<- | Hin].
  - rewrite Hi. eauto.
  - destruct (children !! j) as [[|]|]; eauto.
Qed.

Lemma first_raised_Some children schedule exc :
  asyncio.first_raised children schedule = Some exc ->
  exists i, i ∈ schedule /\ children !! i = Some (Raise exc).
Proof.
  induction schedule as [|j rest IH]; [done|]. cbn.
  destruct (children !! j) as [[a|exc']|] eqn:Hj.
  2: { intros [= ->]. exists j. split; [left|done]. }
  all: intros (i & Hi & H)%IH; exists i; split; [by right|done].
Qed.

Lemma first_raised_None children schedule :
  Forall (fun c => exists a, c = Ok a) children ->
  asyncio.first_raised children schedule = None.
Proof.
  intros Hok. induction schedule as [|j rest IH]; [done|]. cbn.
  destruct (children !! j) as [[a|exc]|] eqn:Hj; try done.
  apply list_elem_of_lookup_2 in Hj.
  rewrite Forall_forall in Hok. by destruct (Hok _ Hj).
Qed.

(** Every child completes once: the schedule is a permutation of the
    indices. *)
Lemma gather_permutation children schedule :
  schedule ≡ₚ seq 0 (length children) ->
  asyncio.gather children schedule =
    match asyncio.first_raised children schedule with
    | Some exc => Some (Raise exc)
    | None => Some (Ok children)
    end.
Proof.
  intros Hp. pose proof (Permutation_length Hp) as Hlen. rewrite length_seq in Hlen.
  unfold asyncio.gather. destruct children as [|c children].
  - destruct schedule; [done|discriminate].
  - rewrite gather_pending; [|done|cbn in *; lia].
    destruct (asyncio.first_raised _ _); [done|].
    case_decide as H; [done|]. exfalso. apply H. cbn in *. split; [lia|].
    by destruct schedule.
Qed.

(** When all children return, the results are theirs, in their order. *)
Lemma gather_all_ok children schedule :
  schedule ≡ₚ seq 0 (length children) ->
  Forall (fun c => exists a, c = Ok a) children ->
  asyncio.gather children schedule = Some (Ok children).
Proof.
  intros Hp Hok. by rewrite gather_permutation, first_raised_None.
Qed.

(** When a child that raises has completed, the first that did so
    decides, whether or not the others have completed: no child
    completes twice. *)
Lemma gather_raises children schedule i exc :
  schedule ⊆+ seq 0 (length children) ->
  i ∈ schedule ->
  children !! i = Some (Raise exc) ->
  exists exc' j,
    asyncio.gather children schedule = Some (Raise exc')
    /\ asyncio.first_raised children schedule = Some exc'
    /\ j ∈ schedule
    /\ children !! j = Some (Raise exc').
Proof.
  intros Hs Hin Hi. pose proof (submseteq_length _ _ Hs) as Hlen.
  rewrite length_seq in Hlen.
  destruct (first_raised_elem children schedule i exc Hin Hi) as [exc' He].
  destruct (first_raised_Some _ _ _ He) as (j & Hjin & Hj).
  exists exc', j. split_and!; [|done..].
  unfold asyncio.gather. rewrite gather_pending, He; [done| |done].
  by destruct children.
Qed.

End gather.

Section batch.

Variable fns : callables.
Variable Response : Type.
Variable ChatCompletion_create : Prompt -> result Response.
Variable ChatCompletion_acreate : Prompt -> result Response.
Variable call_function : Response -> result (gmap str value).
Variable BaseModel___init__ : AIModelClass -> gmap str value -> result (gmap str value).

#[local] Abbreviation amap_tasks := (AIModel.amap_tasks fns Response ChatCompletion_acreate call_function).
#[local] Abbreviation amap := (AIModel.amap fns Response ChatCompletion_acreate call_function).
#[local] Abbreviation map := (AIModel.map fns Response ChatCompletion_acreate call_function).
#[local] Abbreviation call := (AIModel.call fns Response ChatCompletion_create call_function).
#[local] Abbreviation __init__ :=
  (AIModel.__init__ fns Response ChatCompletion_create call_function BaseModel___init__).

(** C4: when a task of the batch that raises has completed, [amap] and
    [map] raise, whichever of the other tasks have completed by then: the
    error of the task that raised first, which is the error of that task
    when no completed task raises another, and no list of results. *)
Theorem C4_all_or_nothing (cls : AIModelClass) (map_args : list (list value))
  (map_kwargs : list (str * list value)) (schedule : list nat) (i : nat) (exc : exn) :
  let tasks := amap_tasks cls map_args map_kwargs in
  schedule ⊆+ seq 0 (length tasks) ->
  i ∈ schedule ->
  tasks !! i = Some (Raise exc) ->
  exists exc' j,
    amap cls map_args map_kwargs schedule = Some (Raise exc')
    /\ map cls map_args map_kwargs schedule = Some (Raise exc')
    /\ asyncio.first_raised tasks schedule = Some exc'
    /\ j ∈ schedule
    /\ tasks !! j = Some (Raise exc')
    /\ ((forall k e, k ∈ schedule -> tasks !! k = Some (Raise e) -> e = exc) ->
        exc' = exc).
Proof.
  intros tasks Hs Hin Hi.
  destruct (gather_raises tasks schedule i exc Hs Hin Hi)
    as (exc' & j & Hg & Hf & Hjin & Hj).
  exists exc', j. split_and!; try done.
  intros Honly. by apply (Honly j).
Qed.

(** When every task returns, the results are those of the calls in the
    order of the inputs, whatever the order of completion. *)
Lemma amap_preserves_order cls map_args map_kwargs schedule :
  let tasks := amap_tasks cls map_args map_kwargs in
  schedule ≡ₚ seq 0 (length tasks) ->
  Forall (fun c => exists a, c = Ok a) tasks ->
  amap cls map_args map_kwargs schedule = Some (Ok tasks).
Proof. intros tasks Hp Hok. by apply gather_all_ok. Qed.

(** One call per index for positional lists alone. *)
Lemma amap_calls_positional (l : list value) :
  AIModel.amap_calls [l] [] = (fun a => ([a], ∅)) <$> l.
Proof.
  unfold AIModel.amap_calls, AIModel.zip_star.
  assert (H : forall n, length l <= n ->
              AIModel.zip_rows n [l] = (fun a => [a]) <$> l).
  { intros n. revert l. induction n as [|n IH]; intros [|a l] Hl; cbn in *; try done; [lia|].
    rewrite IH by lia. done. }
  rewrite H by done. by rewrite <- list_fmap_compose.
Qed.

(** C5 on the code: keyword lists without a positional list make no call
    at all, and the batch returns the empty list. *)
Theorem C5_keyword_lists_alone_make_no_call (cls : AIModelClass)
  (map_kwargs : list (str * list value)) :
  map_kwargs <> [] ->
  AIModel.amap_calls [] map_kwargs = []
  /\ amap cls [] map_kwargs [] = Some (Ok []).
Proof.
  intros H. assert (Hc : AIModel.amap_calls [] map_kwargs = []).
  { unfold AIModel.amap_calls. by destruct map_kwargs. }
  split; [done|]. unfold AIModel.amap, AIModel.amap_tasks. by rewrite Hc.
Qed.

(** C10: a truthy first positional argument is sent to the model and the
    arguments that come back are laid over the keyword arguments before
    validation; without a positional argument, or with a falsy one,
    nothing is sent and the keyword arguments are validated as they are
    (without [instructions_]). *)
Theorem C10_init_merges_call (cls : AIModelClass) (args : list value)
  (kwargs : gmap str value) :
  let instructions := default PyNone (kwargs !! codepoints "instructions_") in
  let kwargs' := delete (codepoints "instructions_") kwargs in
  (forall text rest log k,
      args = text :: rest ->
      truthy text = Ok true ->
      call cls [text] {[ codepoints "instructions" := instructions ]} = (log, Ok k) ->
      __init__ cls args kwargs = (log, BaseModel___init__ cls (k ∪ kwargs'))
      /\ (forall field v, k !! field = Some v -> (k ∪ kwargs') !! field = Some v)
      /\ (forall field, k !! field = None -> (k ∪ kwargs') !! field = kwargs' !! field))
  /\ (truthy (default PyNone (head args)) = Ok false ->
      __init__ cls args kwargs = ([], BaseModel___init__ cls kwargs')).
Proof.
  intros instructions kwargs'. split.
  - intros text rest log k -> Ht Hcall. split_and!.
    + unfold AIModel.__init__.
      change (default PyNone (head (text :: rest))) with text. rewrite Ht.
      cbn [lift mbind traced_bind]. fold instructions kwargs'. rewrite Hcall.
      unfold mbind, traced_bind, mret, traced_ret, lift. cbn [app].
      by rewrite !app_nil_r.
    + intros field v Hk. by apply lookup_union_Some_l.
    + intros field Hk. by apply lookup_union_r.
  - intros Hf. unfold AIModel.__init__. rewrite Hf. reflexivity.
Qed.

End batch.

(** * The two ways to decorate *)

Section decorator.

Implicit Types (kw : DecoratorKeywords) (base_model : BaseModel).

Lemma system_prompt_for_nonempty mode : AIModel.system_prompt_for mode <> [].
Proof.
  unfold AIModel.system_prompt_for. destruct (decide _); vm_compute; discriminate.
Qed.

Lemma user_prompt_nonempty : user_prompt <> [].
Proof. vm_compute. discriminate. Qed.

(** [a or b] is [a] when [a] is given and not empty, else [b]; so it is
    empty only when [b] is. *)
Lemma or_else_nonempty a b : b <> [] -> AIModel.or_else a b <> [].
Proof. by destruct a as [[|c s]|]. Qed.

Lemma or_else_again a b b' :
  b <> [] -> AIModel.or_else (Some (AIModel.or_else a b)) b' = AIModel.or_else a b.
Proof.
  intros Hb. pose proof (or_else_nonempty a b Hb) as H.
  by destruct (AIModel.or_else a b).
Qed.

(** The decorator with keywords builds the class the decorator on the
    class builds. *)
Lemma ai_model_forms with_keywords kw base_model :
  AIModel.ai_model with_keywords kw base_model = AIModel.ai_model false kw base_model.
Proof.
  destruct with_keywords; [|done].
  unfold AIModel.ai_model, AIModel.as_decorator, AIModel.as_decorator_partial,
    AIModel.as_decorator_subclass. cbn [system user instructions context_fn mode].
  rewrite !or_else_again by (apply system_prompt_for_nonempty || apply user_prompt_nonempty).
  reflexivity.
Qed.

(** X1: the decorator with keywords, [@ai_model(...)] on a class, builds
    the class that [ai_model(base_model, ...)] builds from the same
    keywords: the partial it goes through has chosen the templates
    already, and the call that follows chooses the same; going through
    the partial once more changes nothing. *)
Theorem ai_model_with_keywords_same_class (kw : DecoratorKeywords)
  (base_model : BaseModel) :
  AIModel.ai_model true kw base_model = AIModel.ai_model false kw base_model
  /\ AIModel.as_decorator None (AIModel.as_decorator_partial kw)
     = AIModel.as_decorator None kw
  /\ AIModel.as_decorator (Some base_model) (AIModel.as_decorator_partial kw)
     = AIModel.as_decorator (Some base_model) kw.
Proof.
  split_and!.
  - apply ai_model_forms.
  - unfold AIModel.as_decorator, AIModel.as_decorator_partial.
    cbn [system user instructions context_fn mode].
    by rewrite !or_else_again
      by (apply system_prompt_for_nonempty || apply user_prompt_nonempty).
  - pose proof (ai_model_forms true kw base_model) as H.
    unfold AIModel.ai_model in H. cbn [AIModel.as_decorator] in *. by rewrite H.
Qed.

(** X2: a decorated class has a system and a user template that are not
    empty: a template the caller leaves out or gives empty is replaced
    by the built-in one, the system prompt of the mode and the user
    prompt. *)
Theorem decorated_templates_not_empty (with_keywords : bool) (kw : DecoratorKeywords)
  (base_model : BaseModel) :
  let cls := AIModel.ai_model with_keywords kw base_model in
  exists s u,
    _messages_keywords cls !! codepoints "system" = Some (PyStr s)
    /\ _messages_keywords cls !! codepoints "user" = Some (PyStr u)
    /\ s <> [] /\ u <> []
    /\ (system kw = None \/ system kw = Some [] -> s = AIModel.system_prompt_for (mode kw))
    /\ (user kw = None \/ user kw = Some [] -> u = user_prompt)
    /\ (forall c r, system kw = Some (c :: r) -> s = c :: r)
    /\ (forall c r, user kw = Some (c :: r) -> u = c :: r).
Proof.
  intros cls. subst cls.
  rewrite ai_model_forms.
  exists (AIModel.or_else (system kw) (AIModel.system_prompt_for (mode kw))),
         (AIModel.or_else (user kw) user_prompt).
  split_and!.
  - reflexivity.
  - reflexivity.
  - apply or_else_nonempty, system_prompt_for_nonempty.
  - apply or_else_nonempty, user_prompt_nonempty.
  - by intros [->| ->].
  - by intros [->| ->].
  - by intros c r ->.
  - by intros c r ->.
Qed.

End decorator.

(** * The prompt of a call: [as_prompt] *)

Section prompt.

Variable fns : callables.

Implicit Types (cls : AIModelClass) (args : list value) (keywords : gmap str value).

(** X3: the schema form and the raw form of a prompt differ in the place of
    the functions only: [as_prompt] with [__schema__] on returns the
    prompt it returns with [__schema__] off, the schemas of the
    functions in the place of the functions, and raises what it raises
    there. *)
Theorem as_prompt_schema_form cls args keywords :
  AIModel.as_prompt fns cls args (<[codepoints "__schema__" := PyBool true]> keywords)
  = in_schema_form
      <$> AIModel.as_prompt fns cls args
            (<[codepoints "__schema__" := PyBool false]> keywords).
Proof.
  unfold AIModel.as_prompt.
  destruct args as [|text args].
  - rewrite !lookup_insert_ne by done. cbn [mbind result_bind].
    rewrite !(delete_insert_ne _ (codepoints "text")) by done. rewrite !lookup_insert_eq.
    cbn [default from_option id truthy mbind result_bind]. rewrite !lookup_insert_ne by done.
    rewrite !delete_insert_eq.
    destruct (AIModel._functions _ _ _) as [registry|] eqn:E; [|done].
    cbn [mbind result_bind]. rewrite !_function_call_eq, E. cbn [mbind result_bind].
    destruct (if decide _ then _ else _) as [msgs|]; [|done]. reflexivity.
  - rewrite !lookup_insert_ne by done.
    destruct (decide _); [done|]. cbn [mbind result_bind].
    rewrite !lookup_insert_eq.
    cbn [default from_option id truthy mbind result_bind]. rewrite !lookup_insert_ne by done.
    rewrite !delete_insert_eq.
    destruct (AIModel._functions _ _ _) as [registry|] eqn:E; [|done].
    cbn [mbind result_bind]. rewrite !_function_call_eq, E. cbn [mbind result_bind].
    destruct (if decide _ then _ else _) as [msgs|]; [|done]. reflexivity.
Qed.

Lemma truthy_Raise v e : truthy v = Raise e -> e = Unsupported.
Proof. destruct v; cbn; congruence. Qed.

Lemma to_str_Raise v e : to_str v = Raise e -> e = Unsupported.
Proof. destruct v as [| |[]| | | | | | | | | |]; cbn; congruence. Qed.

(** What [as_prompt] returns, it has from [_functions] on the keywords
    without [instructions] and from [_messages]. *)
Lemma as_prompt_inv cls args keywords p :
  AIModel.as_prompt fns cls args keywords = Ok p ->
  exists args' kwargs registry messages_keywords __schema__,
    kwargs !! codepoints "instructions" = None
    /\ kwargs !! codepoints "functions" = None
    /\ AIModel._functions cls args' kwargs = Ok registry
    /\ AIModel._messages fns cls messages_keywords = Ok (messages p)
    /\ function_call p = codepoints "format_response"
    /\ truthy (default (PyBool true) (keywords !! codepoints "__schema__"))
       = Ok __schema__
    /\ functions p = if __schema__ : bool
                     then inr (FunctionRegistry.schema registry) else inl registry.
Proof.
  unfold AIModel.as_prompt. intros H.
  assert (Hbound : match (match args with
                          | text :: args =>
                              if decide (is_Some (keywords !! codepoints "text"))
                              then Raise TypeError else Ok (text, args, keywords)
                          | [] => Ok (default PyNone (keywords !! codepoints "text"), [],
                                      delete (codepoints "text") keywords)
                          end) with
                   | Ok (_, _, kws) =>
                       kws !! codepoints "__schema__" = keywords !! codepoints "__schema__"
                   | Raise e => True
                   end).
  { destruct args as [|text args]; [|destruct (decide _); [done|]];
      by rewrite ?lookup_delete_ne by done. }
  destruct (match args with [] => _ | _ => _ end) as [[[text args'] kws]|]; [|done].
  cbn [mbind result_bind] in H. rewrite Hbound in H.
  destruct (truthy (default (PyBool true) _)) as [sch|] eqn:Es; [|done].
  cbn [mbind result_bind] in H.
  destruct (AIModel._functions _ _ _) as [registry|] eqn:E; [|done].
  cbn [mbind result_bind] in H. rewrite _function_call_eq, E in H.
  cbn [mbind result_bind] in H.
  destruct (decide _) as [|Hf]; [done|].
  destruct (truthy (default PyNone _)) as [b|]; [|done]. cbn [mbind result_bind] in H.
  destruct (AIModel._messages _ _ _) as [msgs|] eqn:Em; [|done].
  cbn [mbind result_bind] in H. injection H as <-.
  eexists _, _, registry, _, sch. split_and!; [| |exact E|exact Em|done|done|done].
  - apply lookup_delete_eq.
  - by apply eq_None_not_Some.
Qed.

(** Every prompt [as_prompt] returns is a request as the backend
    expects it. *)
Lemma as_prompt_well_formed cls args keywords p :
  AIModel.as_prompt fns cls args keywords = Ok p -> well_formed p.
Proof.
  intros H. destruct (as_prompt_forced_call _ _ _ _ _ H) as [Hname Hfunctions].
  destruct (as_prompt_inv _ _ _ _ H) as (_ & _ & _ & kws & _ & _ & _ & _ & Hm & _).
  split_and!; [done|done|].
  unfold AIModel._messages in Hm. rewrite _messages_raw_eq in Hm.
  destruct (AIModel.render_content _ _ (codepoints "system")) as [s|] eqn:Hs; [|done].
  destruct (AIModel.render_content _ _ (codepoints "user")) as [u|] eqn:Hu; [|done].
  injection Hm as <-. exists s, u.
  split_and!; [done|by eapply render_content_trimmed..].
Qed.

(** X4: the instructions of a call reach the messages and never the
    function: whatever the keywords of the call, the description of the
    function in the prompt of a decorated class is the one written from
    the instructions of the decorator. *)
Theorem as_prompt_description_from_decorator (with_keywords : bool)
  (kw : DecoratorKeywords) (base_model : BaseModel) args keywords p :
  AIModel.as_prompt fns (AIModel.ai_model with_keywords kw base_model) args keywords
  = Ok p ->
  exists f,
    (functions p = inl [f] \/ functions p = inr [Function.schema f])
    /\ Function.__doc__ f = description_for (default [] (instructions kw))
    /\ Function.description (Function.schema f)
       = strip (AIModel.boilerplate ++ [LF; LF] ++ default [] (instructions kw)).
Proof.
  intros H.
  destruct (as_prompt_inv _ _ _ _ H) as (args' & kwargs & registry & _ & sch & Hi & _ & Hr & _ & _ & _ & Hf).
  rewrite (_functions_instructions _ _ _ (instructions kw)) in Hr.
  - injection Hr as <-.
    exists (Function.from_model
              (AIModel.format_response (AIModel.ai_model with_keywords kw base_model))
              (codepoints "format_response")
              (description_for (default [] (instructions kw)))).
    split; [destruct sch; [right|left]; exact Hf|]. split; [reflexivity|].
    cbn. by rewrite (strip_boilerplate _).
  - left. unfold functools.partial_keywords. rewrite lookup_union_r by done.
    destruct with_keywords; apply lookup_singleton_eq.
Qed.

(** The keyword [functions] is taken: [as_prompt] passes it to
    [_messages] itself, so a call that gives it never gets a prompt. *)
Lemma as_prompt_rejects_functions_keyword cls args keywords :
  is_Some (keywords !! codepoints "functions") ->
  exists e, AIModel.as_prompt fns cls args keywords = Raise e
            /\ (e = TypeError \/ e = Unsupported).
Proof.
  intros Hf. unfold AIModel.as_prompt.
  assert (Hbound : match (match args with
                          | text :: args =>
                              if decide (is_Some (keywords !! codepoints "text"))
                              then Raise TypeError else Ok (text, args, keywords)
                          | [] => Ok (default PyNone (keywords !! codepoints "text"), [],
                                      delete (codepoints "text") keywords)
                          end) with
                   | Ok (_, _, kws) => is_Some (delete (codepoints "instructions")
                                                  (delete (codepoints "__schema__") kws)
                                                !! codepoints "functions")
                   | Raise e => e = TypeError
                   end).
  { destruct args as [|text args]; [|destruct (decide _); [done|]];
      by rewrite !lookup_delete_ne by done. }
  destruct (match args with [] => _ | _ => _ end) as [[[text args'] kws]|];
    [|subst; eauto].
  cbn [mbind result_bind].
  destruct (truthy (default (PyBool true) _)) as [sch|e] eqn:Es;
    [|apply truthy_Raise in Es as ->; eauto].
  cbn [mbind result_bind].
  destruct (AIModel._functions _ _ _) as [registry|e] eqn:E.
  - cbn [mbind result_bind]. rewrite _function_call_eq, E. cbn [mbind result_bind].
    rewrite decide_True by done. eauto.
  - cbn [mbind result_bind]. exists e. split; [done|]. right.
    unfold AIModel._functions in E.
    destruct (truthy (default PyNone _)) as [b|e'] eqn:Eb; cbn [mbind result_bind] in E.
    + destruct (to_str _) as [s|e'] eqn:Et; [done|].
      cbn [mbind result_bind] in E. injection E as <-. by apply to_str_Raise in Et.
    + injection E as <-. by apply truthy_Raise in Eb.
Qed.

End prompt.

(** * The requests a call sends *)

Section requests.

Variable fns : callables.
Variable Response : Type.
Variable ChatCompletion_create : Prompt -> result Response.
Variable ChatCompletion_acreate : Prompt -> result Response.
Variable call_function : Response -> result (gmap str value).
Variable BaseModel___init__ : AIModelClass -> gmap str value -> result (gmap str value).

#[local] Abbreviation call := (AIModel.call fns Response ChatCompletion_create call_function).
#[local] Abbreviation acall := (AIModel.acall fns Response ChatCompletion_acreate call_function).
#[local] Abbreviation __init__ :=
  (AIModel.__init__ fns Response ChatCompletion_create call_function BaseModel___init__).

Implicit Types (cls : AIModelClass) (args : list value) (keywords : gmap str value).

(** [call] sends the prompt of [to_chat_completion], once, and hands
    the response to [call_function]; without a prompt it sends
    nothing. *)
Lemma call_eq cls args keywords :
  call cls args keywords =
    match AIModel.to_chat_completion fns cls args
            (<[codepoints "instructions" :=
                 default PyNone (keywords !! codepoints "instructions")]> keywords) with
    | Ok p => ([p], ChatCompletion_create p ≫= call_function)
    | Raise e => ([], Raise e)
    end.
Proof.
  unfold AIModel.call, AIModel.create, AIModel.send, lift.
  destruct (AIModel.to_chat_completion _ _ _ _) as [p|]; [|done].
  cbn. by destruct (ChatCompletion_create p).
Qed.

Lemma acall_eq cls args keywords :
  acall cls args keywords =
    match AIModel.to_chat_completion fns cls args keywords with
    | Ok p => ([p], ChatCompletion_acreate p ≫= call_function)
    | Raise e => ([], Raise e)
    end.
Proof.
  unfold AIModel.acall, AIModel.acreate, AIModel.send, lift.
  destruct (AIModel.to_chat_completion _ _ _ _) as [p|]; [|done].
  cbn. by destruct (ChatCompletion_acreate p).
Qed.

(** Without the keyword [__schema__], [to_chat_completion] builds the
    prompt in raw form. *)
Lemma to_chat_completion_raw cls args keywords p :
  keywords !! codepoints "__schema__" = None ->
  AIModel.to_chat_completion fns cls args keywords = Ok p ->
  exists registry, functions p = inl registry.
Proof.
  unfold AIModel.to_chat_completion. intros Hk H.
  destruct (as_prompt_inv _ _ _ _ _ H) as (_ & _ & registry & _ & sch & _ & _ & _ & _ & _ & Hs & Hf).
  rewrite lookup_insert_eq, Hk in Hs. injection Hs as <-. eauto.
Qed.

(** The construction of an instance sends what its call sends. *)
Lemma __init___sent cls args keywords :
  (__init__ cls args keywords).1 =
    match truthy (default PyNone (head args)) with
    | Ok true =>
        (call cls [default PyNone (head args)]
              {[ codepoints "instructions" :=
                   default PyNone (keywords !! codepoints "instructions_") ]}).1
    | _ => []
    end.
Proof.
  unfold AIModel.__init__, lift.
  destruct (truthy _) as [[]|]; [|done..].
  cbn [mbind traced_bind].
  destruct (call _ _ _) as [log [k|]]; [|done].
  cbn [mbind traced_bind mret traced_ret fst].
  by rewrite ?app_nil_r.
Qed.

(** X5: a call, synchronous or not, and the construction of an instance
    send one request at most, and every request they send is as the
    backend expects it: one function named format_response, the forced
    call of that name, and the stripped messages of the system and of
    the user.  [call] and [acall] return nothing without having sent
    their request.  The request of a construction carries the function
    itself, not its schema. *)
Theorem requests_well_formed cls args keywords :
  (length (call cls args keywords).1 <= 1
   /\ Forall well_formed (call cls args keywords).1
   /\ ((call cls args keywords).1 = [] -> exists e, (call cls args keywords).2 = Raise e))
  /\ (length (acall cls args keywords).1 <= 1
      /\ Forall well_formed (acall cls args keywords).1
      /\ ((acall cls args keywords).1 = [] ->
          exists e, (acall cls args keywords).2 = Raise e))
  /\ (length (__init__ cls args keywords).1 <= 1
      /\ Forall well_formed (__init__ cls args keywords).1
      /\ Forall (fun p => exists registry, functions p = inl registry)
                (__init__ cls args keywords).1).
Proof.
  assert (Hcall : forall args keywords,
             length (call cls args keywords).1 <= 1
             /\ Forall well_formed (call cls args keywords).1
             /\ ((call cls args keywords).1 = [] ->
                 exists e, (call cls args keywords).2 = Raise e)).
  { clear args keywords. intros args keywords. rewrite call_eq.
    destruct (AIModel.to_chat_completion _ _ _ _) as [p|e] eqn:E; cbn; [|by eauto].
    split_and!; [lia| |done]. constructor; [|constructor].
    by eapply as_prompt_well_formed. }
  split_and!; try apply Hcall.
  - rewrite acall_eq. destruct (AIModel.to_chat_completion _ _ _ _); cbn; lia.
  - rewrite acall_eq.
    destruct (AIModel.to_chat_completion _ _ _ _) as [p|e] eqn:E; cbn; [|done].
    constructor; [|constructor]. by eapply as_prompt_well_formed.
  - rewrite acall_eq. destruct (AIModel.to_chat_completion _ _ _ _); cbn; [done|eauto].
  - rewrite __init___sent. destruct (truthy _) as [[]|]; [apply Hcall|cbn; lia..].
  - rewrite __init___sent. destruct (truthy _) as [[]|]; [apply Hcall|done..].
  - rewrite __init___sent. destruct (truthy _) as [[]|]; [|done..].
    rewrite call_eq.
    destruct (AIModel.to_chat_completion _ _ _ _) as [p|e] eqn:E; cbn; [|done].
    constructor; [|constructor]. eapply to_chat_completion_raw; [|exact E].
    rewrite lookup_insert_ne by done. by rewrite lookup_singleton_ne.
Qed.

(** X6: the keyword [functions] is taken, [as_prompt] passes it to
    [_messages] itself: a call that gives it raises, TypeError unless a
    keyword is outside the values modelled, before anything is sent. *)
Theorem call_with_functions_keyword_sends_nothing cls args keywords :
  is_Some (keywords !! codepoints "functions") ->
  (exists e, AIModel.as_prompt fns cls args keywords = Raise e
             /\ (e = TypeError \/ e = Unsupported))
  /\ (exists e, call cls args keywords = ([], Raise e)
                /\ (e = TypeError \/ e = Unsupported))
  /\ (exists e, acall cls args keywords = ([], Raise e)
                /\ (e = TypeError \/ e = Unsupported)).
Proof.
  intros Hf. rewrite call_eq, acall_eq. unfold AIModel.to_chat_completion. split_and!.
  - by apply as_prompt_rejects_functions_keyword.
  - destruct (as_prompt_rejects_functions_keyword fns cls args
                (<[codepoints "__schema__" :=
                     default (PyBool false)
                       (<[codepoints "instructions" :=
                            default PyNone (keywords !! codepoints "instructions")]> keywords
                        !! codepoints "__schema__")]>
                   (<[codepoints "instructions" :=
                        default PyNone
                          (<[codepoints "instructions" :=
                               default PyNone (keywords !! codepoints "instructions")]>
                             keywords !! codepoints "instructions")]>
                      (<[codepoints "instructions" :=
                           default PyNone (keywords !! codepoints "instructions")]>
                         keywords))))
      as (e & -> & He); [by rewrite !lookup_insert_ne by done|eauto].
  - destruct (as_prompt_rejects_functions_keyword fns cls args
                (<[codepoints "__schema__" :=
                     default (PyBool false) (keywords !! codepoints "__schema__")]>
                   (<[codepoints "instructions" :=
                        default PyNone (keywords !! codepoints "instructions")]> keywords)))
      as (e & -> & He); [by rewrite !lookup_insert_ne by done|eauto].
Qed.

End requests.

(** * Templates without a tag *)

Section plain_templates.

Variable fns : callables.

Implicit Types (s data : str).

(** The character that opens every tag. *)
#[local] Abbreviation brace := 123%N.

Lemma lex_root_plain fuel data s :
  brace ∉ s -> length s < fuel ->
  jinja2.lex_root fuel data s = Ok (jinja2.flush (rev s ++ data) []).
Proof.
  revert data s. induction fuel as [|fuel IH]; intros data s Hs Hlen; [lia|].
  destruct s as [|c [|c' r]]; [done|done|].
  cbn [jinja2.lex_root]. apply not_elem_of_cons in Hs as [Hc Hs].
  assert ((c =? brace)%N = false) as -> by (apply N.eqb_neq; congruence).
  cbn [andb]. rewrite IH by (done || cbn in *; lia).
  do 2 f_equal. cbn [rev]. by rewrite <- !app_assoc.
Qed.

Lemma normalize_newlines_elem s c :
  c ∈ jinja2.normalize_newlines s -> c ∈ s \/ c = LF.
Proof.
  remember (length s) as n eqn:Hn. revert s Hn.
  induction (lt_wf n) as [n _ IH]. intros s ->.
  destruct s as [|x r]; cbn [jinja2.normalize_newlines]; [by left|].
  destruct (x =? CR)%N.
  - destruct r as [|x' r'].
    + intros ->%list_elem_of_singleton. by right.
    + destruct (x' =? LF)%N.
      * intros [->|H]%elem_of_cons; [by right|].
        destruct (IH (length r') ltac:(cbn; lia) r' eq_refl H); [left|by right].
        by do 2 right.
      * intros [->|H]%elem_of_cons; [by right|].
        destruct (IH (length (x' :: r')) ltac:(cbn; lia) (x' :: r') eq_refl H);
          [left|by right].
        by right.
  - intros [->|H]%elem_of_cons; [left; left|].
    destruct (IH (length r) ltac:(cbn; lia) r eq_refl H); [left|by right]. by right.
Qed.

Lemma drop_trailing_newline_elem s c : c ∈ jinja2.drop_trailing_newline s -> c ∈ s.
Proof.
  unfold jinja2.drop_trailing_newline. destruct (rev s) as [|x r] eqn:E.
  - by intros ?%elem_of_nil.
  - destruct (x =? LF)%N; [|done]. intros H.
    apply list_elem_of_In, in_rev. rewrite E. right.
    by apply in_rev, list_elem_of_In.
Qed.

Lemma strip_drop_trailing_newline s : strip (jinja2.drop_trailing_newline s) = strip s.
Proof.
  unfold jinja2.drop_trailing_newline. destruct (rev s) as [|x r] eqn:E.
  - apply (f_equal (@rev N)) in E. rewrite rev_involutive in E. by subst s.
  - destruct (x =? LF)%N eqn:Hx; [|done]. apply N.eqb_eq in Hx as ->.
    apply (f_equal (@rev N)) in E. rewrite rev_involutive in E. subst s.
    cbn [rev]. by rewrite strip_app_spaces.
Qed.

(** A template without a brace is one piece of text. *)
Lemma render_plain s ctx :
  brace ∉ s ->
  (t ← jinja2.Template s; jinja2.render fns t ctx)
  = Ok (jinja2.drop_trailing_newline (jinja2.normalize_newlines s)).
Proof.
  intros Hs. unfold jinja2.Template, jinja2.lex.
  set (s' := jinja2.drop_trailing_newline (jinja2.normalize_newlines s)).
  assert (Hs' : brace ∉ s').
  { intros H%drop_trailing_newline_elem%normalize_newlines_elem.
    by destruct H as [H|H]. }
  rewrite lex_root_plain by (done || lia). rewrite app_nil_r.
  unfold jinja2.flush. destruct (rev s') as [|x r] eqn:E.
  - apply (f_equal (@rev N)) in E. rewrite rev_involutive in E. by rewrite E.
  - rewrite <- E, rev_involutive. cbn. by rewrite app_nil_r.
Qed.

(** Templates without a brace are sent as they are written. *)
Lemma _messages_raw_plain (keywords : gmap str value) (s u : str) :
  keywords !! codepoints "self" = None ->
  default (PyStr []) (keywords !! codepoints "system") = PyStr s ->
  default (PyStr []) (keywords !! codepoints "user") = PyStr u ->
  brace ∉ s -> brace ∉ u ->
  AIModel._messages_raw fns keywords
  = Ok [ {| role := codepoints "system";
            content := strip (jinja2.normalize_newlines s) |};
         {| role := codepoints "user";
            content := strip (jinja2.normalize_newlines u) |} ].
Proof.
  intros Hself Hs Hu Hbs Hbu.
  assert (Hrole : forall role src,
             role <> codepoints "defaults" ->
             default (PyStr []) (keywords !! role) = PyStr src ->
             brace ∉ src ->
             AIModel.render_content fns keywords role
             = Ok (strip (jinja2.normalize_newlines src))).
  { intros role src Hr Hsrc Hb. unfold AIModel.render_content.
    rewrite !lookup_delete_ne by done. rewrite Hsrc, Hself. cbn [mbind result_bind].
    pose proof (render_plain src
                  (<[codepoints "defaults" :=
                       default PyNone (keywords !! codepoints "defaults")]>
                     (delete (codepoints "defaults") keywords)) Hb) as H.
    destruct (jinja2.Template src) as [t|]; [|done].
    cbn [mbind result_bind] in *.
    destruct (decide (is_Some None)) as [[? [=]]|_].
    rewrite H. cbn [mbind result_bind].
    by rewrite strip_drop_trailing_newline. }
  rewrite _messages_raw_eq, (Hrole _ s), (Hrole _ u) by done. reflexivity.
Qed.

(** X7: templates that hold no brace, or that are left out, are sent as
    they are written, stripped, with every line break a line feed:
    nothing is filled in, and a class without templates gets two empty
    messages.  (The names [cls] and [self] are those of parameters on
    the way to the rendering; Python refuses a keyword of that name.) *)
Theorem messages_plain_templates (keywords : gmap str value) (s u : str) :
  Forall (fun k => keywords !! k = None) [codepoints "cls"; codepoints "self"] ->
  default (PyStr []) (keywords !! codepoints "system") = PyStr s ->
  default (PyStr []) (keywords !! codepoints "user") = PyStr u ->
  brace ∉ s -> brace ∉ u ->
  AIModel._messages_raw fns keywords
  = Ok [ {| role := codepoints "system";
            content := strip (jinja2.normalize_newlines s) |};
         {| role := codepoints "user";
            content := strip (jinja2.normalize_newlines u) |} ].
Proof.
  intros Hres. apply _messages_raw_plain.
  rewrite !Forall_cons in Hres. tauto.
Qed.

End plain_templates.

(** * The built-in prompts, rendered *)

Section built_in_prompts.

Variable fns : callables.

#[local] Abbreviation function_name :=
  (jinja2.EGetattr
     (jinja2.EGetitem (jinja2.EName (codepoints "functions")) (jinja2.EConst (PyInt 0)))
     (codepoints "__name__")).

#[local] Abbreviation context_items :=
  (jinja2.ECall
     (jinja2.EGetattr
        (jinja2.ECall (jinja2.EName (codepoints "context_fn"))
                      [jinja2.EName (codepoints "text")])
        (codepoints "items")) []).

#[local] Abbreviation arg_value := (jinja2.TTuple [codepoints "arg"; codepoints "value"]).

Lemma Template_system_extract_prompt :
  jinja2.Template system_extract_prompt =
    Ok [ jinja2.Data
           (lines ["The user will provide context as text that you need to parse into a structured form. ";
                   "    - To validate your response, you must call the `"]);
         jinja2.Output function_name;
         jinja2.Data
           (lines ["` function.";
                   "    - Use the provided text to extract or infer any parameters needed by `"]);
         jinja2.Output function_name;
         jinja2.Data
           (lines ["`, including any missing data.";
                   "                                      "] ++ [LF]);
         jinja2.If (jinja2.EName (codepoints "instructions"))
           [ jinja2.Data
               ([LF] ++ codepoints "The user has provided some additional requirements for this task: ");
             jinja2.Output (jinja2.EName (codepoints "instructions"));
             jinja2.Data [SPACE; LF] ];
         jinja2.Data ([LF] ++ codepoints "                                         " ++ [LF]);
         jinja2.If (jinja2.EName (codepoints "context_fn"))
           [ jinja2.Data [LF];
             jinja2.For arg_value context_items
               [ jinja2.Output (jinja2.EName (codepoints "arg"));
                 jinja2.Data (codepoints ": ");
                 jinja2.Output (jinja2.EName (codepoints "value")) ];
             jinja2.Data [LF] ] ].
Proof. vm_compute. reflexivity. Qed.

Lemma Template_system_generate_prompt :
  jinja2.Template system_generate_prompt =
    Ok [ jinja2.Data
           (lines ["The user will provide context as text that you need to parse to generate synthetic data.";
                   "    - To validate your response, you must call the `"]);
         jinja2.Output function_name;
         jinja2.Data
           (lines ["` function.";
                   "    - Use the provided text to generate or invent any parameters needed by `"]);
         jinja2.Output function_name;
         jinja2.Data
           (lines ["`, including any missing data.";
                   "    - It is okay to make up representative data."] ++ [LF]);
         jinja2.If (jinja2.EName (codepoints "instructions"))
           [ jinja2.Data
               (codepoints "You have been provided instructions on completing your task: ");
             jinja2.Output (jinja2.EName (codepoints "instructions")) ];
         jinja2.If (jinja2.EName (codepoints "context_fn"))
           [ jinja2.Data
               (codepoints "You have been provided the following context to perform your task:"
                ++ [LF]);
             jinja2.For arg_value context_items
               [ jinja2.Data (codepoints "    - ");
                 jinja2.Output (jinja2.EName (codepoints "arg"));
                 jinja2.Data (codepoints ": ");
                 jinja2.Output (jinja2.EName (codepoints "value"));
                 jinja2.Data [LF] ] ] ].
Proof. vm_compute. reflexivity. Qed.

Implicit Types (ctx : gmap str value) (instr : option str).

(** The name of the first function, printed. *)
Lemma render_function_name ctx f rest :
  ctx !! codepoints "functions" = Some (FunctionRegistry.to_value (f :: rest)) ->
  jinja2.render_node fns ctx (jinja2.Output function_name) = Ok (Function.__name__ f).
Proof.
  intros Hf. cbn [jinja2.render_node jinja2.eval].
  rewrite (resolve_Some _ _ _ Hf ltac:(done)). reflexivity.
Qed.

(** The part under [{% if instructions %}] is rendered when there are
    instructions and they are not empty. *)
Lemma render_if_instructions ctx instr body :
  ctx !! codepoints "instructions" = Some (AIModel.opt_str instr) ->
  jinja2.render_node fns ctx (jinja2.If (jinja2.EName (codepoints "instructions")) body)
  = match default [] instr with
    | [] => Ok []
    | _ => jinja2.render_nodes fns ctx body
    end.
Proof.
  intros Hi. rewrite render_node_If. cbn [jinja2.eval].
  rewrite (resolve_Some _ _ _ Hi ltac:(done)). by destruct instr as [[|c s]|].
Qed.

Lemma render_instructions ctx instr :
  ctx !! codepoints "instructions" = Some (AIModel.opt_str instr) ->
  jinja2.render_node fns ctx (jinja2.Output (jinja2.EName (codepoints "instructions")))
  = Ok (match instr with Some s => s | None => codepoints "None" end).
Proof.
  intros Hi. cbn [jinja2.render_node jinja2.eval].
  rewrite (resolve_Some _ _ _ Hi ltac:(done)). by destruct instr.
Qed.

(** The part under [{% if context_fn %}] is rendered when there is a
    context function. *)
Lemma render_if_context_fn ctx cf body :
  ctx !! codepoints "context_fn" = Some (AIModel.opt_callable cf) ->
  jinja2.render_node fns ctx (jinja2.If (jinja2.EName (codepoints "context_fn")) body)
  = match cf with
    | Some _ => jinja2.render_nodes fns ctx body
    | None => Ok []
    end.
Proof.
  intros Hc. rewrite render_node_If. cbn [jinja2.eval].
  rewrite (resolve_Some _ _ _ Hc ltac:(done)). by destruct cf.
Qed.

(** The loop over the items of the context renders its body once for
    each key and value of the dictionary, in the order of the
    dictionary. *)
Lemma render_for_items ctx id d body (row : str * str -> str) items :
  ctx !! codepoints "context_fn" = Some (PyCallable id) ->
  fns id [jinja2.resolve ctx (codepoints "text")] = Ok (PyDict d) ->
  (forall k v s ctx',
      ctx' !! codepoints "arg" = Some (PyStr k) ->
      ctx' !! codepoints "value" = Some v ->
      to_str v = Ok s ->
      jinja2.render_nodes fns ctx' body = Ok (row (k, s))) ->
  Forall2 (fun (kv : str * value) (ks : str * str) =>
             ks.1 = kv.1 /\ to_str kv.2 = Ok ks.2) d items ->
  jinja2.render_node fns ctx (jinja2.For arg_value context_items body)
  = Ok (concat (row <$> items)).
Proof.
  intros Hc Hd Hrow Hitems. rewrite render_node_For. cbn [jinja2.eval].
  rewrite (resolve_Some _ _ _ Hc ltac:(done)). cbn [mbind result_bind jinja2.call_]. rewrite Hd.
  cbn [mbind result_bind jinja2.getattr_]. unfold jinja2.dict_getattr.
  rewrite decide_True by done.
  cbn [mbind result_bind jinja2.call_]. rewrite decide_True by done.
  cbn [mbind result_bind jinja2.iterate]. clear Hd.
  induction Hitems as [|[k v] [k' s] d items [Hk Hv] _ IH]; [done|].
  cbn [fst snd] in Hk, Hv. subst k'.
  cbn [fmap list_fmap render_loop].
  cbn [jinja2.bind_target jinja2.iterate mbind result_bind].
  cbn [length Nat.eqb zip zip_with foldl fst snd mbind result_bind].
  rewrite (Hrow k v s); [| |apply lookup_insert_eq|done].
  - cbn [mbind result_bind]. cbn [fmap list_fmap] in IH. rewrite IH. reflexivity.
  - rewrite lookup_insert_ne by done. apply lookup_insert_eq.
Qed.

Lemma render_name ctx x v s :
  ctx !! x = Some v -> to_str v = Ok s -> x <> codepoints "self" ->
  jinja2.render_node fns ctx (jinja2.Output (jinja2.EName x)) = Ok s.
Proof.
  intros Hx Hs Hself. cbn [jinja2.render_node jinja2.eval].
  by rewrite (resolve_Some _ _ _ Hx Hself).
Qed.

(** The system prompt of the mode extract, rendered. *)
Lemma render_system_extract_prompt ctx f rest instr cf items :
  ctx !! codepoints "functions" = Some (FunctionRegistry.to_value (f :: rest)) ->
  ctx !! codepoints "instructions" = Some (AIModel.opt_str instr) ->
  ctx !! codepoints "context_fn" = Some (AIModel.opt_callable cf) ->
  context_returns fns cf (jinja2.resolve ctx (codepoints "text")) items ->
  (t ← jinja2.Template system_extract_prompt; jinja2.render fns t ctx)
  = Ok (extract_text (Function.__name__ f) (default [] instr) items).
Proof.
  intros Hf Hi Hc Hitems. rewrite Template_system_extract_prompt.
  cbn [mbind result_bind]. unfold jinja2.render.
  cbn [jinja2.render_nodes].
  rewrite !(render_function_name _ _ _ Hf), (render_if_instructions _ _ _ Hi),
    (render_if_context_fn _ _ _ Hc).
  destruct cf as [fn|], items as [items|]; try done;
    [destruct Hitems as (d & Hd & Hitems);
     cbn [jinja2.render_nodes];
     rewrite (render_for_items ctx fn d _ (fun kv => kv.1 ++ codepoints ": " ++ kv.2) items);
     [|done|done| |done];
     [|intros k v s ctx' Hk Hv Hs; cbn [jinja2.render_nodes];
       rewrite (render_name _ _ _ _ Hk eq_refl ltac:(done)), (render_name _ _ _ _ Hv Hs ltac:(done));
       cbn [jinja2.render_node mbind result_bind fst snd]; by rewrite app_nil_r]|];
    (destruct instr as [[|c s]|];
     cbn [default from_option id jinja2.render_nodes];
     rewrite ?(render_instructions _ _ Hi);
     cbn [jinja2.render_node mbind result_bind];
     unfold extract_text; f_equal; by rewrite ?app_nil_r, <- ?app_assoc).
Qed.

(** The system prompt of the mode generate, rendered. *)
Lemma render_system_generate_prompt ctx f rest instr cf items :
  ctx !! codepoints "functions" = Some (FunctionRegistry.to_value (f :: rest)) ->
  ctx !! codepoints "instructions" = Some (AIModel.opt_str instr) ->
  ctx !! codepoints "context_fn" = Some (AIModel.opt_callable cf) ->
  context_returns fns cf (jinja2.resolve ctx (codepoints "text")) items ->
  (t ← jinja2.Template system_generate_prompt; jinja2.render fns t ctx)
  = Ok (generate_text (Function.__name__ f) (default [] instr) items).
Proof.
  intros Hf Hi Hc Hitems. rewrite Template_system_generate_prompt.
  cbn [mbind result_bind]. unfold jinja2.render.
  cbn [jinja2.render_nodes].
  rewrite !(render_function_name _ _ _ Hf), (render_if_instructions _ _ _ Hi),
    (render_if_context_fn _ _ _ Hc).
  destruct cf as [fn|], items as [items|]; try done;
    [destruct Hitems as (d & Hd & Hitems);
     cbn [jinja2.render_nodes];
     rewrite (render_for_items ctx fn d _
                (fun kv => codepoints "    - " ++ kv.1 ++ codepoints ": " ++ kv.2 ++ [LF])
                items);
     [|done|done| |done];
     [|intros k v s ctx' Hk Hv Hs; cbn [jinja2.render_nodes];
       rewrite (render_name _ _ _ _ Hk eq_refl ltac:(done)), (render_name _ _ _ _ Hv Hs ltac:(done));
       cbn [jinja2.render_node mbind result_bind fst snd]; by rewrite app_nil_r]|];
    (destruct instr as [[|c s]|];
     cbn [default from_option id jinja2.render_nodes];
     rewrite ?(render_instructions _ _ Hi);
     cbn [jinja2.render_node mbind result_bind];
     unfold generate_text; f_equal; by rewrite ?app_nil_r, <- ?app_assoc).
Qed.

(** Under the built-in templates [_messages] returns the system prompt
    of the mode with the name of the first function, the instructions and
    the context filled in, and the text after the words The text to
    parse, both stripped. *)
Lemma _messages_raw_rendered keywords mode f rest instr cf text txt items :
  keywords !! codepoints "self" = None ->
  keywords !! codepoints "system" = Some (PyStr (AIModel.system_prompt_for mode)) ->
  keywords !! codepoints "user" = Some (PyStr user_prompt) ->
  keywords !! codepoints "functions" = Some (FunctionRegistry.to_value (f :: rest)) ->
  keywords !! codepoints "instructions" = Some (AIModel.opt_str instr) ->
  keywords !! codepoints "context_fn" = Some (AIModel.opt_callable cf) ->
  keywords !! codepoints "text" = Some text ->
  to_str text = Ok txt ->
  context_returns fns cf text items ->
  AIModel._messages_raw fns keywords
  = Ok [ {| role := codepoints "system";
            content := strip (system_text mode (Function.__name__ f)
                                          (default [] instr) items) |};
         {| role := codepoints "user";
            content := strip (codepoints "The text to parse: " ++ txt) |} ].
Proof.
  intros Hself Hs Hu Hf Hi Hc Ht Htxt Hitems.
  assert (Hctx : forall k v, k <> codepoints "defaults" -> keywords !! k = Some v ->
                             render_context keywords !! k = Some v).
  { intros k v Hk Hv. unfold render_context.
    by rewrite lookup_insert_ne, lookup_delete_ne. }
  rewrite _messages_raw_eq.
  rewrite (render_content_eq _ _ (codepoints "system") (AIModel.system_prompt_for mode))
    by done.
  rewrite (render_content_user_prompt _ _ Hself Hu).
  rewrite (resolve_Some _ _ text) by (done || by apply Hctx).
  rewrite Htxt. cbn [mbind result_bind].
  assert (Hsys : (t ← jinja2.Template (AIModel.system_prompt_for mode);
                  jinja2.render fns t (render_context keywords))
                 = Ok (system_text mode (Function.__name__ f) (default [] instr) items)).
  { unfold AIModel.system_prompt_for, system_text. destruct (decide _).
    - apply (render_system_extract_prompt _ f rest instr cf); try (by apply Hctx).
      by rewrite (resolve_Some _ _ text) by (done || by apply Hctx).
    - apply (render_system_generate_prompt _ f rest instr cf); try (by apply Hctx).
      by rewrite (resolve_Some _ _ text) by (done || by apply Hctx). }
  destruct (jinja2.Template (AIModel.system_prompt_for mode)) as [t|]; [|done].
  cbn [mbind result_bind] in *. by rewrite Hsys.
Qed.

Lemma or_else_built_in a b : a = None \/ a = Some [] \/ a = Some b -> AIModel.or_else a b = b.
Proof. intros [->|[->| ->]]; [done..|]. by destruct b. Qed.

(** An error of the context function is the error of the rendering. *)
Lemma render_context_fn_raises ctx mode f rest instr fn e :
  ctx !! codepoints "functions" = Some (FunctionRegistry.to_value (f :: rest)) ->
  ctx !! codepoints "instructions" = Some (AIModel.opt_str instr) ->
  ctx !! codepoints "context_fn" = Some (PyCallable fn) ->
  fns fn [jinja2.resolve ctx (codepoints "text")] = Raise e ->
  (t ← jinja2.Template (AIModel.system_prompt_for mode); jinja2.render fns t ctx)
  = Raise e.
Proof.
  intros Hf Hi Hc He.
  assert (Hfor : forall body,
             jinja2.render_node fns ctx (jinja2.For arg_value context_items body) = Raise e).
  { intros body. rewrite render_node_For. cbn [jinja2.eval].
    rewrite (resolve_Some _ _ _ Hc ltac:(done)). cbn [mbind result_bind jinja2.call_].
    by rewrite He. }
  unfold AIModel.system_prompt_for. destruct (decide _).
  - rewrite Template_system_extract_prompt.
    cbn [mbind result_bind]. unfold jinja2.render. cbn [jinja2.render_nodes].
    rewrite !(render_function_name _ _ _ Hf), (render_if_instructions _ _ _ Hi),
      (render_if_context_fn _ (Some fn) _ Hc).
    cbn [jinja2.render_nodes]. rewrite Hfor.
    destruct instr as [[|c s]|];
      cbn [default from_option id jinja2.render_nodes];
      rewrite ?(render_instructions _ _ Hi);
      reflexivity.
  - rewrite Template_system_generate_prompt.
    cbn [mbind result_bind]. unfold jinja2.render. cbn [jinja2.render_nodes].
    rewrite !(render_function_name _ _ _ Hf), (render_if_instructions _ _ _ Hi),
      (render_if_context_fn _ (Some fn) _ Hc).
    cbn [jinja2.render_nodes]. rewrite Hfor.
    destruct instr as [[|c s]|];
      cbn [default from_option id jinja2.render_nodes];
      rewrite ?(render_instructions _ _ Hi);
      reflexivity.
Qed.

Lemma _messages_raw_context_fn_raises keywords mode f rest instr fn text e :
  keywords !! codepoints "self" = None ->
  keywords !! codepoints "system" = Some (PyStr (AIModel.system_prompt_for mode)) ->
  keywords !! codepoints "functions" = Some (FunctionRegistry.to_value (f :: rest)) ->
  keywords !! codepoints "instructions" = Some (AIModel.opt_str instr) ->
  keywords !! codepoints "context_fn" = Some (PyCallable fn) ->
  keywords !! codepoints "text" = Some text ->
  fns fn [text] = Raise e ->
  AIModel._messages_raw fns keywords = Raise e.
Proof.
  intros Hself Hs Hf Hi Hc Ht He.
  assert (Hctx : forall k v, k <> codepoints "defaults" -> keywords !! k = Some v ->
                             render_context keywords !! k = Some v).
  { intros k v Hk Hv. unfold render_context.
    by rewrite lookup_insert_ne, lookup_delete_ne. }
  rewrite _messages_raw_eq.
  rewrite (render_content_eq _ _ (codepoints "system") (AIModel.system_prompt_for mode))
    by done.
  pose proof (render_context_fn_raises (render_context keywords) mode f rest instr fn e)
    as Hsys.
  rewrite (resolve_Some _ _ text) in Hsys by (done || by apply Hctx).
  specialize (Hsys ltac:(by apply Hctx) ltac:(by apply Hctx) ltac:(by apply Hctx) He).
  destruct (jinja2.Template (AIModel.system_prompt_for mode)) as [t|];
    cbn [mbind result_bind] in *; [by rewrite Hsys|congruence].
Qed.

(** The instructions in force: those of the call when it gives some,
    else those of the decorator. *)
#[local] Abbreviation in_force call_instr kw :=
  (match call_instr with
   | Some (c :: s) => Some (c :: s)
   | _ => instructions kw
   end).

(** What [as_prompt] does on a decorated class for keywords that leave
    the reserved names alone: the function described from the
    instructions of the decorator, and the messages rendered from the
    templates of the decorator with the text, the function and the
    instructions in force. *)
Lemma as_prompt_decorated (kw : DecoratorKeywords) (base_model : BaseModel)
  (text : value) (rest : list value) (call_instr : option str)
  (keywords : gmap str value) (__schema__ : bool) :
  Forall (fun k => keywords !! k = None) reserved ->
  truthy (default (PyBool true) (keywords !! codepoints "__schema__")) = Ok __schema__ ->
  default PyNone (keywords !! codepoints "instructions") = AIModel.opt_str call_instr ->
  let cls := AIModel.ai_model false kw base_model in
  let f := Function.from_model (AIModel.format_response cls) (codepoints "format_response")
             (description_for (default [] (instructions kw))) in
  exists messages_keywords,
    AIModel.as_prompt fns cls (text :: rest) keywords
    = (msgs ← AIModel._messages_raw fns messages_keywords;
       Ok {| functions := if __schema__ then inr [Function.schema f] else inl [f];
             function_call := codepoints "format_response";
             messages := msgs |})
    /\ messages_keywords !! codepoints "system"
       = Some (PyStr (AIModel.or_else (system kw) (AIModel.system_prompt_for (mode kw))))
    /\ messages_keywords !! codepoints "user"
       = Some (PyStr (AIModel.or_else (user kw) user_prompt))
    /\ messages_keywords !! codepoints "functions" = Some (FunctionRegistry.to_value [f])
    /\ messages_keywords !! codepoints "instructions"
       = Some (AIModel.opt_str (in_force call_instr kw))
    /\ messages_keywords !! codepoints "context_fn"
       = Some (AIModel.opt_callable (context_fn kw))
    /\ messages_keywords !! codepoints "text" = Some text
    /\ messages_keywords !! codepoints "self" = None.
Proof.
  intros Hres Hsch Hinstr cls f.
  unfold reserved in Hres. rewrite !Forall_cons in Hres.
  destruct Hres as (Hk1 & Hk2 & Hk3 & Hk4 & Hk5 & _ & Hk7 & _).
  set (kwargs := delete (codepoints "instructions")
                        (delete (codepoints "__schema__") keywords)).
  assert (Hkwargs : forall k, k <> codepoints "instructions" ->
                              k <> codepoints "__schema__" ->
                              kwargs !! k = keywords !! k).
  { intros k H1 H2. subst kwargs. by rewrite !lookup_delete_ne. }
  assert (Hkwargs_instr : kwargs !! codepoints "instructions" = None)
    by apply lookup_delete_eq.
  set (X := match call_instr with
            | Some (c :: s) => <[codepoints "instructions" := PyStr (c :: s)]> kwargs
            | _ => kwargs
            end).
  assert (HX : forall k, k <> codepoints "instructions" -> k <> codepoints "__schema__" ->
                         X !! k = keywords !! k).
  { intros k H1 H2. subst X. destruct call_instr as [[|c s]|];
      rewrite ?lookup_insert_ne by done; by apply Hkwargs. }
  assert (HXi : X !! codepoints "instructions"
                = match call_instr with
                  | Some (c :: s) => Some (PyStr (c :: s))
                  | _ => None
                  end).
  { subst X. destruct call_instr as [[|c s]|]; [done| |done]. apply lookup_insert_eq. }
  exists (functools.partial_keywords (_messages_keywords cls)
            (X ∪ {[ codepoints "text" := text;
                    codepoints "functions" := FunctionRegistry.to_value [f] ]})).
  assert (Hcall : forall k v,
             X !! k = None ->
             ({[ codepoints "text" := text;
                 codepoints "functions" := FunctionRegistry.to_value [f] ]}
              : gmap str value) !! k = Some v ->
             (X ∪ {[ codepoints "text" := text;
                     codepoints "functions" := FunctionRegistry.to_value [f] ]}
              ∪ _messages_keywords cls) !! k = Some v).
  { intros k v Hk Hv. apply lookup_union_Some_l. by rewrite lookup_union_r. }
  assert (Hbound : forall k v,
             X !! k = None -> k <> codepoints "text" -> k <> codepoints "functions" ->
             _messages_keywords cls !! k = Some v ->
             (X ∪ {[ codepoints "text" := text;
                     codepoints "functions" := FunctionRegistry.to_value [f] ]}
              ∪ _messages_keywords cls) !! k = Some v).
  { intros k v H1 H2 H3 Hv. rewrite lookup_union_r; [done|].
    rewrite lookup_union_r by done.
    by rewrite lookup_insert_ne, lookup_singleton_ne by done. }
  unfold functools.partial_keywords. split_and!.
  - unfold AIModel.as_prompt.
    rewrite decide_False by (rewrite Hk1; by intros []).
    cbn [mbind result_bind]. rewrite Hsch. cbn [mbind result_bind].
    rewrite Hinstr. fold kwargs.
    assert (Hfuns : AIModel._functions cls rest kwargs = Ok [f]).
    { apply (_functions_instructions _ _ _ (instructions kw)). left.
      unfold functools.partial_keywords. rewrite lookup_union_r by done.
      apply lookup_singleton_eq. }
    rewrite Hfuns. cbn [mbind result_bind]. rewrite _function_call_eq, Hfuns.
    cbn [mbind result_bind].
    rewrite decide_False by (rewrite Hkwargs, Hk2 by done; by intros []).
    unfold AIModel._messages, functools.partial_keywords. subst X.
    by destruct call_instr as [[|c s]|].
  - apply Hbound; [by rewrite HX|done..|]. apply lookup_insert_eq.
  - apply Hbound; [by rewrite HX|done..|].
    subst cls; unfold AIModel.ai_model, AIModel.as_decorator_subclass;
      cbn [_messages_keywords].
    by rewrite lookup_insert_ne, lookup_insert_eq by done.
  - apply Hcall; [by rewrite HX|]. rewrite lookup_insert_ne by done.
    apply lookup_singleton_eq.
  - assert (Hdec : _messages_keywords cls !! codepoints "instructions"
                   = Some (AIModel.opt_str (instructions kw))).
    { subst cls; unfold AIModel.ai_model, AIModel.as_decorator_subclass;
        cbn [_messages_keywords].
      rewrite !lookup_insert_ne by done. apply lookup_singleton_eq. }
    destruct call_instr as [[|c s]|].
    + by rewrite lookup_union_r by (by rewrite lookup_union_r).
    + by apply lookup_union_Some_l, lookup_union_Some_l.
    + by rewrite lookup_union_r by (by rewrite lookup_union_r).
  - apply Hbound; [by rewrite HX|done..|].
    subst cls; unfold AIModel.ai_model, AIModel.as_decorator_subclass;
      cbn [_messages_keywords].
    by rewrite !lookup_insert_ne, lookup_insert_eq by done.
  - apply Hcall; [by rewrite HX|]. apply lookup_insert_eq.
  - rewrite !lookup_union_None. split_and!.
    + by rewrite HX.
    + by rewrite lookup_insert_ne, lookup_singleton_ne.
    + subst cls; unfold AIModel.ai_model, AIModel.as_decorator_subclass;
        cbn [_messages_keywords].
      by rewrite !lookup_insert_ne, lookup_singleton_ne by done.
Qed.

Lemma in_force_or_else call_instr kw :
  default [] (in_force call_instr kw)
  = AIModel.or_else call_instr (default [] (instructions kw)).
Proof. by destruct call_instr as [[|c s]|]. Qed.

(** The prompt of a class decorated with the built-in templates, for
    the value [__schema__] has. *)
Lemma as_prompt_built_in_keywords (kw : DecoratorKeywords) (base_model : BaseModel)
  (text : value) (rest : list value) (txt : str) (call_instr : option str)
  (items : option (list (str * str))) (keywords : gmap str value) (__schema__ : bool) :
  built_in kw ->
  to_str text = Ok txt ->
  context_returns fns (context_fn kw) text items ->
  Forall (fun k => keywords !! k = None) reserved ->
  truthy (default (PyBool true) (keywords !! codepoints "__schema__")) = Ok __schema__ ->
  default PyNone (keywords !! codepoints "instructions") = AIModel.opt_str call_instr ->
  let cls := AIModel.ai_model false kw base_model in
  let f := Function.from_model (AIModel.format_response cls) (codepoints "format_response")
             (description_for (default [] (instructions kw))) in
  AIModel.as_prompt fns cls (text :: rest) keywords
  = Ok {| functions := if __schema__ then inr [Function.schema f] else inl [f];
          function_call := codepoints "format_response";
          messages :=
            [ {| role := codepoints "system";
                 content :=
                   strip (system_text (mode kw) (codepoints "format_response")
                            (AIModel.or_else call_instr (default [] (instructions kw)))
                            items) |};
              {| role := codepoints "user";
                 content := strip (codepoints "The text to parse: " ++ txt) |} ] |}.
Proof.
  intros [Hsys Huser] Htxt Hitems Hres Hsch Hinstr cls f. subst f cls.
  pose proof (as_prompt_decorated kw base_model text rest call_instr keywords __schema__
                Hres Hsch Hinstr) as H.
  cbv zeta in H. destruct H as (mk & -> & Hs & Hu & Hf & Hi & Hc & Ht & Hself).
  rewrite or_else_built_in in Hs by tauto. rewrite or_else_built_in in Hu by tauto.
  rewrite (_messages_raw_rendered mk (mode kw) _ [] _ (context_fn kw) text txt items)
    by done.
  cbn [mbind result_bind]. by rewrite in_force_or_else.
Qed.

(** X8: the prompt of a class decorated with the built-in templates, in
    full, whatever other positional arguments and keywords the call
    gives: the schema of the one function, described from the
    instructions of the decorator; the forced call; the system prompt of
    the mode, with the name of the function, the instructions of the
    call, else those of the decorator, and what the context function
    returns on the text; and the text, as it prints, after the words The
    text to parse. *)
Theorem as_prompt_built_in (with_keywords : bool) (kw : DecoratorKeywords)
  (base_model : BaseModel) (text : value) (rest : list value) (txt : str)
  (call_instr : option str) (items : option (list (str * str)))
  (keywords : gmap str value) :
  built_in kw ->
  to_str text = Ok txt ->
  context_returns fns (context_fn kw) text items ->
  Forall (fun k => keywords !! k = None) (codepoints "__schema__" :: reserved) ->
  default PyNone (keywords !! codepoints "instructions") = AIModel.opt_str call_instr ->
  let cls := AIModel.ai_model with_keywords kw base_model in
  let f := Function.from_model (AIModel.format_response cls) (codepoints "format_response")
             (description_for (default [] (instructions kw))) in
  AIModel.as_prompt fns cls (text :: rest) keywords
  = Ok {| functions := inr [Function.schema f];
          function_call := codepoints "format_response";
          messages :=
            [ {| role := codepoints "system";
                 content :=
                   strip (system_text (mode kw) (codepoints "format_response")
                            (AIModel.or_else call_instr (default [] (instructions kw)))
                            items) |};
              {| role := codepoints "user";
                 content := strip (codepoints "The text to parse: " ++ txt) |} ] |}.
Proof.
  intros Hkw Htxt Hitems [Hsch Hres]%Forall_cons Hinstr cls f. subst f cls.
  rewrite (ai_model_forms with_keywords).
  apply (as_prompt_built_in_keywords kw base_model text rest txt call_instr items _ true);
    try done.
  by rewrite Hsch.
Qed.

End built_in_prompts.

Section built_in_requests.

Variable fns : callables.
Variable Response : Type.
Variable ChatCompletion_create : Prompt -> result Response.
Variable call_function : Response -> result (gmap str value).
Variable BaseModel___init__ : AIModelClass -> gmap str value -> result (gmap str value).

#[local] Abbreviation call := (AIModel.call fns Response ChatCompletion_create call_function).
#[local] Abbreviation __init__ :=
  (AIModel.__init__ fns Response ChatCompletion_create call_function BaseModel___init__).

(** The keywords [to_chat_completion] hands to [as_prompt] leave alone
    what the keywords of the call leave alone. *)
Lemma to_chat_completion_keywords (keywords : gmap str value) call_instr :
  Forall (fun k => keywords !! k = None) (codepoints "__schema__" :: reserved) ->
  default PyNone (keywords !! codepoints "instructions") = AIModel.opt_str call_instr ->
  let keywords1 :=
    <[codepoints "instructions" :=
        default PyNone (keywords !! codepoints "instructions")]> keywords in
  let keywords2 :=
    <[codepoints "__schema__" :=
        default (PyBool false) (keywords1 !! codepoints "__schema__")]>
      (<[codepoints "instructions" :=
           default PyNone (keywords1 !! codepoints "instructions")]> keywords1) in
  Forall (fun k => keywords2 !! k = None) reserved
  /\ truthy (default (PyBool true) (keywords2 !! codepoints "__schema__")) = Ok false
  /\ default PyNone (keywords2 !! codepoints "instructions") = AIModel.opt_str call_instr.
Proof.
  intros [Hsch Hres]%Forall_cons Hinstr keywords1 keywords2. subst keywords1 keywords2.
  split_and!.
  - unfold reserved in *. rewrite !Forall_cons in Hres.
    destruct Hres as (? & ? & ? & ? & ? & ? & ? & _). rewrite !Forall_cons. rewrite !lookup_insert_ne by done. by split_and!.
  - rewrite lookup_insert_eq, lookup_insert_ne, Hsch by done. done.
  - rewrite lookup_insert_ne, !lookup_insert_eq by done. done.
Qed.

(** X9: the request a class decorated with the built-in templates sends,
    from [call] and from the construction of an instance on a text: the
    prompt above in raw form, the function itself in the place of its
    schema; the instructions are those of the call ([instructions_] for
    a construction), else those of the decorator. *)
Theorem call_sends_built_in_prompt (with_keywords : bool) (kw : DecoratorKeywords)
  (base_model : BaseModel) (text : value) (txt : str) (call_instr : option str)
  (items : option (list (str * str))) :
  built_in kw ->
  to_str text = Ok txt ->
  context_returns fns (context_fn kw) text items ->
  let cls := AIModel.ai_model with_keywords kw base_model in
  let f := Function.from_model (AIModel.format_response cls) (codepoints "format_response")
             (description_for (default [] (instructions kw))) in
  let request :=
    {| functions := inl [f];
       function_call := codepoints "format_response";
       messages :=
         [ {| role := codepoints "system";
              content :=
                strip (system_text (mode kw) (codepoints "format_response")
                         (AIModel.or_else call_instr (default [] (instructions kw)))
                         items) |};
           {| role := codepoints "user";
              content := strip (codepoints "The text to parse: " ++ txt) |} ] |} in
  (forall rest keywords,
      Forall (fun k => keywords !! k = None) (codepoints "__schema__" :: reserved) ->
      default PyNone (keywords !! codepoints "instructions") = AIModel.opt_str call_instr ->
      call cls (text :: rest) keywords
      = ([request], ChatCompletion_create request ≫= call_function))
  /\ (forall rest kwargs,
        truthy text = Ok true ->
        default PyNone (kwargs !! codepoints "instructions_") = AIModel.opt_str call_instr ->
        (__init__ cls (text :: rest) kwargs).1 = [request]).
Proof.
  intros Hkw Htxt Hitems cls f request.
  assert (Hcall : forall rest keywords,
             Forall (fun k => keywords !! k = None) (codepoints "__schema__" :: reserved) ->
             default PyNone (keywords !! codepoints "instructions")
             = AIModel.opt_str call_instr ->
             call cls (text :: rest) keywords
             = ([request], ChatCompletion_create request ≫= call_function)).
  { intros rest keywords Hres Hinstr.
    destruct (to_chat_completion_keywords keywords call_instr Hres Hinstr)
      as (Hres' & Hsch' & Hinstr').
    rewrite call_eq. unfold AIModel.to_chat_completion. subst request f cls.
    rewrite (ai_model_forms with_keywords).
    by rewrite (as_prompt_built_in_keywords fns kw base_model text rest txt call_instr items
                  _ false). }
  split; [exact Hcall|].
  intros rest kwargs Ht Hi. rewrite __init___sent.
  cbn [head default from_option id]. rewrite Ht, Hi, Hcall; [done| |].
  - unfold reserved. rewrite !Forall_cons. by rewrite !lookup_singleton_ne by done.
  - by rewrite lookup_singleton_eq.
Qed.

(** X10: under the built-in system prompt an error of the context
    function surfaces as it is: the prompt is not built and nothing is
    sent. *)
Theorem context_fn_error_surfaces (with_keywords : bool) (kw : DecoratorKeywords)
  (base_model : BaseModel) (text : value) (rest : list value) (fn : nat) (e : exn)
  (call_instr : option str) (keywords : gmap str value) :
  system kw = None \/ system kw = Some [] ->
  context_fn kw = Some fn ->
  fns fn [text] = Raise e ->
  Forall (fun k => keywords !! k = None) (codepoints "__schema__" :: reserved) ->
  default PyNone (keywords !! codepoints "instructions") = AIModel.opt_str call_instr ->
  let cls := AIModel.ai_model with_keywords kw base_model in
  AIModel.as_prompt fns cls (text :: rest) keywords = Raise e
  /\ call cls (text :: rest) keywords = ([], Raise e).
Proof.
  intros Hsys Hfn He Hres Hinstr' cls. subst cls.
  rewrite (ai_model_forms with_keywords).
  assert (Hraises : forall keywords' sch,
             Forall (fun k => keywords' !! k = None) reserved ->
             truthy (default (PyBool true) (keywords' !! codepoints "__schema__")) = Ok sch ->
             default PyNone (keywords' !! codepoints "instructions")
             = AIModel.opt_str call_instr ->
             AIModel.as_prompt fns (AIModel.ai_model false kw base_model)
                               (text :: rest) keywords' = Raise e).
  { intros keywords' sch Hres' Hsch' Hi'.
    pose proof (as_prompt_decorated fns kw base_model text rest call_instr keywords' sch
                  Hres' Hsch' Hi') as H.
    cbv zeta in H. destruct H as (mk & -> & Hs & _ & Hf & Hi & Hc & Ht & Hself).
    rewrite or_else_built_in in Hs by tauto. rewrite Hfn in Hc.
    by rewrite (_messages_raw_context_fn_raises fns mk (mode kw) _ [] _ fn text e
                  Hself Hs Hf Hi Hc Ht He). }
  split.
  - apply Forall_cons in Hres as [Hsch Hres].
    apply (Hraises keywords true); [done| |done]. by rewrite Hsch.
  - destruct (to_chat_completion_keywords keywords call_instr Hres Hinstr')
      as (Hres' & Hsch' & Hinstr'').
    rewrite call_eq. unfold AIModel.to_chat_completion.
    by rewrite (Hraises _ false).
Qed.

End built_in_requests.

(** * Templates of the call, and no templates at all *)

Section templates_of_the_call.

Variable fns : callables.

(** X15: the templates a call gives replace those of the decorator: when
    the keywords of the call hold [system] and [user], the messages are
    the same for decorators that differ in their templates and mode
    only. *)
Theorem call_templates_replace_decorators (with_keywords1 with_keywords2 : bool)
  (kw1 kw2 : DecoratorKeywords) (base_model : BaseModel) (keywords : gmap str value) :
  instructions kw1 = instructions kw2 ->
  context_fn kw1 = context_fn kw2 ->
  is_Some (keywords !! codepoints "system") ->
  is_Some (keywords !! codepoints "user") ->
  AIModel._messages fns (AIModel.ai_model with_keywords1 kw1 base_model) keywords
  = AIModel._messages fns (AIModel.ai_model with_keywords2 kw2 base_model) keywords.
Proof.
  intros Hi Hc [s Hs] [u Hu].
  rewrite (ai_model_forms with_keywords1), (ai_model_forms with_keywords2).
  unfold AIModel._messages, functools.partial_keywords. f_equal.
  apply map_eq. intros k. rewrite !lookup_union.
  destruct (keywords !! k) as [v|] eqn:Hk; [by rewrite !union_Some_l|].
  rewrite !(left_id_L None (∪)).
  assert (k <> codepoints "system") by congruence.
  assert (k <> codepoints "user") by congruence.
  unfold AIModel.ai_model, AIModel.as_decorator_subclass. cbn [_messages_keywords].
  rewrite !(lookup_insert_ne _ (codepoints "system")) by done.
  rewrite !(lookup_insert_ne _ (codepoints "user")) by done.
  by rewrite Hi, Hc.
Qed.

(** X16: a subclass written without the decorator has no templates, and
    its prompt holds neither the text nor the instructions of the call:
    the function is described by the boilerplate alone and both messages
    are empty, whatever the call gives. *)
Theorem plain_subclass_prompt_is_empty (base_model : BaseModel) (text : value)
  (rest : list value) (call_instr : option str) (keywords : gmap str value) :
  Forall (fun k => keywords !! k = None) (codepoints "__schema__" :: reserved) ->
  default PyNone (keywords !! codepoints "instructions") = AIModel.opt_str call_instr ->
  let cls := AIModel.plain_subclass base_model in
  let f := Function.from_model (AIModel.format_response cls) (codepoints "format_response")
             AIModel.boilerplate in
  AIModel.as_prompt fns cls (text :: rest) keywords
  = Ok {| functions := inr [Function.schema f];
          function_call := codepoints "format_response";
          messages := [ {| role := codepoints "system"; content := [] |};
                        {| role := codepoints "user"; content := [] |} ] |}.
Proof.
  intros Hres Hinstr cls f. unfold reserved in Hres. rewrite !Forall_cons in Hres.
  destruct Hres as (Hsch & Hk1 & Hk2 & Hk3 & Hk4 & _ & _ & Hk7 & _).
  set (kwargs := delete (codepoints "instructions")
                        (delete (codepoints "__schema__") keywords)).
  assert (Hkwargs : forall k, k <> codepoints "instructions" ->
                              k <> codepoints "__schema__" ->
                              kwargs !! k = keywords !! k).
  { intros k H1 H2. subst kwargs. by rewrite !lookup_delete_ne. }
  assert (Hkwargs_instr : kwargs !! codepoints "instructions" = None)
    by apply lookup_delete_eq.
  unfold AIModel.as_prompt.
  rewrite decide_False by (rewrite Hk1; by intros []).
  cbn [mbind result_bind]. rewrite Hsch. cbn [default from_option truthy mbind result_bind].
  rewrite Hinstr. fold kwargs.
  assert (Hfuns : AIModel._functions cls rest kwargs = Ok [f]).
  { rewrite (_functions_instructions _ _ _ None); [done|]. right. split; [|done].
    unfold functools.partial_keywords. rewrite lookup_union_r by done. done. }
  rewrite Hfuns. cbn [mbind result_bind]. rewrite _function_call_eq, Hfuns.
  cbn [mbind result_bind].
  rewrite decide_False by (rewrite Hkwargs, Hk2 by done; by intros []).
  assert (Hmsgs : forall X : gmap str value,
             X !! codepoints "system" = None -> X !! codepoints "user" = None ->
             X !! codepoints "self" = None ->
             AIModel._messages fns cls
               (X ∪ {[ codepoints "text" := text;
                       codepoints "functions" := FunctionRegistry.to_value [f] ]})
             = Ok [ {| role := codepoints "system"; content := [] |};
                    {| role := codepoints "user"; content := [] |} ]).
  { intros X HXs HXu HXself. unfold AIModel._messages, functools.partial_keywords.
    rewrite (_messages_raw_plain fns _ [] []); [done| | | |apply not_elem_of_nil..].
    - rewrite lookup_union_l by done. rewrite lookup_union_r by done.
      by rewrite lookup_insert_ne, lookup_singleton_ne by done.
    - rewrite lookup_union_l by done. rewrite lookup_union_r by done.
      by rewrite lookup_insert_ne, lookup_singleton_ne by done.
    - rewrite lookup_union_l by done. rewrite lookup_union_r by done.
      by rewrite lookup_insert_ne, lookup_singleton_ne by done. }
  destruct call_instr as [[|c s]|];
    cbn [AIModel.opt_str truthy length Nat.eqb negb mbind result_bind];
    rewrite Hmsgs; try done;
    rewrite ?lookup_insert_ne by done; by rewrite Hkwargs.
Qed.

End templates_of_the_call.

(** * The calls of a batch *)

Section calls.

Lemma mapM_lookup_tail {A} (ls : list (list A)) i :
  mapM (fun l => l !! i) (tail <$> ls) = mapM (fun l => l !! S i) ls.
Proof.
  induction ls as [|l ls IH]; [done|]. cbn. by rewrite lookup_tail, IH.
Qed.

Lemma mapM_head_lookup {A} (ls : list (list A)) :
  mapM head ls = mapM (fun l => l !! 0) ls.
Proof. apply mapM_ext. intros l. apply head_lookup. Qed.

(** No row after a list has ended. *)
Lemma mapM_lookup_None {A} (ls : list (list A)) i j :
  i <= j -> mapM (fun l => l !! i) ls = None -> mapM (fun l => l !! j) ls = None.
Proof.
  intros Hij. rewrite !mapM_None. intros H. eapply Exists_impl; [exact H|].
  intros l Hl. apply lookup_ge_None. apply lookup_ge_None in Hl. lia.
Qed.

Lemma mapM_lookup_is_Some {A} (ls : list (list A)) i :
  is_Some (mapM (fun l => l !! i) ls) <-> Forall (fun l => i < length l) ls.
Proof.
  rewrite mapM_is_Some. apply Forall_iff. intros l. apply lookup_lt_is_Some.
Qed.

Lemma zip_rows_lookup {A} n (ls : list (list A)) i :
  i < n -> AIModel.zip_rows n ls !! i = mapM (fun l => l !! i) ls.
Proof.
  revert ls i. induction n as [|n IH]; intros ls i Hi; [lia|].
  cbn [AIModel.zip_rows]. rewrite mapM_head_lookup.
  destruct (mapM (fun l => l !! 0) ls) as [row|] eqn:E.
  - destruct i as [|i]; [done|]. cbn. rewrite IH by lia. apply mapM_lookup_tail.
  - symmetry. rewrite lookup_nil. apply (mapM_lookup_None ls 0); [lia|done].
Qed.

(** The row [i] of [zip] on the lists [ls] holds the element [i] of every
    list, and there is none once a list has ended. *)
Lemma zip_star_lookup {A} (ls : list (list A)) i :
  ls <> [] -> AIModel.zip_star ls !! i = mapM (fun l => l !! i) ls.
Proof.
  destruct ls as [|l ls]; [done|]. intros _. unfold AIModel.zip_star.
  destruct (decide (i < length l)) as [Hi|Hi]; [by apply zip_rows_lookup|].
  rewrite (lookup_ge_None_2 (AIModel.zip_rows _ _)).
  - symmetry. apply mapM_None. left. apply lookup_ge_None. lia.
  - assert (H : forall n (ks : list (list A)), length (AIModel.zip_rows n ks) <= n).
    { clear. induction n as [|n IH]; intros ks; cbn; [lia|].
      destruct (mapM head ks); cbn; [|lia]. specialize (IH (tail <$> ks)). lia. }
    specialize (H (length l) (l :: ls)). lia.
Qed.

Lemma foldl_insert_list_to_map (l : list (str * value)) :
  NoDup l.*1 ->
  foldl (fun m kv => <[kv.1 := kv.2]> m) (∅ : gmap str value) l = list_to_map l.
Proof.
  induction l as [|[k v] l IH] using rev_ind; [done|]. intros Hnd.
  rewrite fmap_app in Hnd. apply NoDup_app in Hnd as (Hl & Hk & _).
  rewrite foldl_app. cbn. rewrite IH by done. symmetry. apply list_to_map_snoc.
  intros Hin. apply (Hk _ Hin). cbn. left.
Qed.

(** X11: the call [i] of a batch over at least one positional list is made on
    the element [i] of every positional list and, under the name of each
    keyword, the element [i] of its list; there is a call [i] when every
    list has an element [i], so the batch is as long as the shortest
    list and what the longer lists hold after that is dropped. *)
Theorem amap_calls_index (map_args : list (list value))
  (map_kwargs : list (str * list value)) (i : nat) :
  map_args <> [] ->
  NoDup map_kwargs.*1 ->
  AIModel.amap_calls map_args map_kwargs !! i
  = (a ← mapM (fun l => l !! i) map_args;
     kw ← mapM (fun l => l !! i) map_kwargs.*2;
     Some (a, list_to_map (zip map_kwargs.*1 kw)))
  /\ (i < length (AIModel.amap_calls map_args map_kwargs)
      <-> Forall (fun l : list value => i < length l) (map_args ++ map_kwargs.*2)).
Proof.
  intros Hargs Hnd.
  assert (Heq : AIModel.amap_calls map_args map_kwargs !! i
                = (a ← mapM (fun l => l !! i) map_args;
                   kw ← mapM (fun l => l !! i) map_kwargs.*2;
                   Some (a, list_to_map (zip map_kwargs.*1 kw)))).
  { unfold AIModel.amap_calls. destruct map_kwargs as [|kv map_kwargs].
    - rewrite list_lookup_fmap, zip_star_lookup by done.
      by destruct (mapM _ map_args).
    - rewrite list_lookup_fmap, lookup_zip_with, !zip_star_lookup by done.
      destruct (mapM _ map_args) as [a|]; [|done]. cbn [mbind option_bind].
      destruct (mapM _ (_ :: _).*2) as [kw|] eqn:E; [|done].
      cbn [mbind option_bind fmap option_fmap option_map fst snd]. do 2 f_equal.
      apply foldl_insert_list_to_map. apply length_mapM in E.
      rewrite fst_zip; [done|]. rewrite <- E, !length_fmap. done. }
  split; [exact Heq|].
  rewrite <- lookup_lt_is_Some, Heq, Forall_app, <- !mapM_lookup_is_Some.
  destruct (mapM _ map_args) as [a|]; cbn.
  - destruct (mapM _ map_kwargs.*2) as [kw|]; cbn.
    + split; [by eauto|by eauto].
    + split; [by intros []|by intros [_ []]].
  - split; [by intros []|by intros [[] _]].
Qed.

End calls.

(** * When a batch returns *)

Section outcome.

Context {A : Type}.
Implicit Types (children : list (result A)) (schedule : list nat).

Lemma first_raised_None_inv children schedule i :
  asyncio.first_raised children schedule = None ->
  i ∈ schedule -> forall exc, children !! i <> Some (Raise exc).
Proof.
  induction schedule as [|j rest IH]; [by intros _ ?%elem_of_nil|].
  cbn. intros H [->|Hi]%elem_of_cons exc.
  - destruct (children !! j) as [[|]|]; congruence.
  - destruct (children !! j) as [[|]|]; try done; by apply IH.
Qed.

(** What awaiting the gathered children yields while no child completes
    twice: the exception of the first child that raised, else the
    results once every child has completed, else nothing yet. *)
Lemma gather_outcome children schedule :
  schedule ⊆+ seq 0 (length children) ->
  asyncio.gather children schedule =
    match asyncio.first_raised children schedule with
    | Some exc => Some (Raise exc)
    | None => if decide (length schedule = length children)
              then Some (Ok children) else None
    end.
Proof.
  intros Hs. pose proof (submseteq_length _ _ Hs) as Hlen.
  rewrite length_seq in Hlen. unfold asyncio.gather.
  destruct children as [|c children].
  - destruct schedule; [done|cbn in Hlen; lia].
  - rewrite gather_pending; [|done|cbn in *; lia].
    destruct (asyncio.first_raised _ _); [done|].
    cbn [asyncio.initial asyncio.nfinished]. rewrite Nat.add_0_l.
    repeat case_decide; try done.
    + by destruct H.
    + destruct H. split; [done|]. intros ->. cbn in *. lia.
Qed.

End outcome.

Section returns.

Variable fns : callables.
Variable Response : Type.
Variable ChatCompletion_acreate : Prompt -> result Response.
Variable call_function : Response -> result (gmap str value).

#[local] Abbreviation amap_tasks := (AIModel.amap_tasks fns Response ChatCompletion_acreate call_function).
#[local] Abbreviation amap := (AIModel.amap fns Response ChatCompletion_acreate call_function).
#[local] Abbreviation map := (AIModel.map fns Response ChatCompletion_acreate call_function).

(** X12: while no task completes twice, [amap] and [map] return a list
    exactly when every task has completed and none has raised, and the
    list is then the results of the calls in the order of the inputs;
    they are still waiting exactly when no completed task has raised and
    a task has yet to complete. *)
Theorem amap_returns_when_all_done (cls : AIModelClass) (map_args : list (list value))
  (map_kwargs : list (str * list value)) (schedule : list nat) :
  let tasks := amap_tasks cls map_args map_kwargs in
  schedule ⊆+ seq 0 (length tasks) ->
  map cls map_args map_kwargs schedule = amap cls map_args map_kwargs schedule
  /\ (forall results,
        amap cls map_args map_kwargs schedule = Some (Ok results)
        <-> results = tasks
            /\ Forall (fun t => exists a, t = Ok a) tasks
            /\ schedule ≡ₚ seq 0 (length tasks))
  /\ (amap cls map_args map_kwargs schedule = None
      <-> asyncio.first_raised tasks schedule = None
          /\ length schedule < length tasks).
Proof.
  intros tasks Hs. pose proof (submseteq_length _ _ Hs) as Hlen.
  rewrite length_seq in Hlen.
  unfold AIModel.map, AIModel.amap. fold tasks. rewrite (gather_outcome _ _ Hs).
  split; [done|]. split.
  - intros results. split.
    + destruct (asyncio.first_raised tasks schedule) eqn:E; [done|].
      case_decide as Hl; [|done]. intros [= <-].
      assert (Hp : schedule ≡ₚ seq 0 (length tasks)).
      { apply submseteq_length_Permutation; [done|]. rewrite length_seq. lia. }
      split_and!; [done| |done].
      apply Forall_lookup. intros i t Hi.
      assert (Hin : i ∈ schedule).
      { rewrite Hp. apply elem_of_seq. apply lookup_lt_Some in Hi. lia. }
      pose proof (first_raised_None_inv _ _ _ E Hin) as Hno.
      destruct t as [a|exc]; [eauto|]. by destruct (Hno exc).
    + intros (-> & Hok & Hp).
      rewrite first_raised_None by done.
      apply Permutation_length in Hp. rewrite length_seq in Hp.
      by rewrite decide_True.
  - destruct (asyncio.first_raised tasks schedule); [by split; [|intros []]|].
    case_decide; split; try done; [intros [_ ?]; lia|intros _; split; [done|lia]].
Qed.

End returns.

(** * The roles: [Role._missing_] *)

Section roles.

Implicit Types (m : Role.t) (value l : str).

(** No two members have the same value up to case. *)
Lemma lower_value_inj m m' :
  lower (Role._value_ m) = lower (Role._value_ m') -> m = m'.
Proof.
  destruct m, m'; intros H; try reflexivity; vm_compute in H; discriminate H.
Qed.

Lemma lower_value_Ok m : exists l, lower (Role._value_ m) = Ok l.
Proof. destruct m; eexists; vm_compute; reflexivity. Qed.

(** The loop returns the first member whose value is [l] in lower case;
    it is the only one. *)
Lemma first_member_spec l ms :
  match Role.first_member l ms with
  | Ok (Some m) => m ∈ ms /\ lower (Role._value_ m) = Ok l
  | Ok None => forall m, m ∈ ms -> lower (Role._value_ m) <> Ok l
  | Raise _ => False
  end.
Proof.
  induction ms as [|m0 ms IH]; cbn.
  - intros m Hm. by apply elem_of_nil in Hm.
  - destruct (lower_value_Ok m0) as [l0 H0]. rewrite H0. cbn.
    case_decide as Hl.
    + subst l0. split; [left|done].
    + destruct (Role.first_member l ms) as [[m|]|]; [| |done].
      * destruct IH. split; [by right|done].
      * intros m [->|Hm]%elem_of_cons; [congruence|by apply IH].
Qed.

Lemma elem_of_members m : m ∈ Role.members.
Proof. destruct m; unfold Role.members; set_solver. Qed.

(** X13: [Role(value)] for an ASCII string: the member whose value is [value]
    up to case, whichever case the string is in, and ValueError when
    there is none. *)
Theorem Role_lookup_ignores_case (value l : str) :
  lower value = Ok l ->
  (forall m, Role.lookup value = Ok m <-> lower (Role._value_ m) = Ok l)
  /\ (Role.lookup value = Raise ValueError
      <-> forall m, lower (Role._value_ m) <> Ok l)
  /\ (forall value', lower value' = Ok l -> Role.lookup value' = Role.lookup value).
Proof.
  assert (Hone : forall value l,
             lower value = Ok l ->
             (forall m, lower (Role._value_ m) = Ok l -> Role.lookup value = Ok m)
             /\ ((forall m, lower (Role._value_ m) <> Ok l) ->
                 Role.lookup value = Raise ValueError)).
  { clear. intros value l Hl. unfold Role.lookup.
    destruct (List.find _ Role.members) as [m0|] eqn:E.
    - apply find_some in E as [_ E%bool_decide_eq_true]. split.
      + intros m Hm. f_equal. apply lower_value_inj. congruence.
      + intros Hnone. destruct (Hnone m0). congruence.
    - unfold Role._missing_. rewrite Hl. cbn [mbind result_bind].
      pose proof (first_member_spec l Role.members) as Hspec.
      destruct (Role.first_member l Role.members) as [[m0|]|]; [| |done];
        cbn [mbind result_bind].
      + destruct Hspec as [_ H0]. split.
        * intros m Hm. f_equal. apply lower_value_inj. congruence.
        * intros Hnone. by destruct (Hnone m0).
      + split; [|done]. intros m Hm. destruct (Hspec m); [apply elem_of_members|done]. }
  intros Hl. destruct (Hone value l Hl) as [Hfound Hnone].
  assert (Hdec : (exists m, lower (Role._value_ m) = Ok l)
                 \/ forall m, lower (Role._value_ m) <> Ok l).
  { pose proof (first_member_spec l Role.members) as Hspec.
    destruct (Role.first_member l Role.members) as [[m0|]|]; [| |done].
    - left. exists m0. apply Hspec.
    - right. intros m. apply Hspec, elem_of_members. }
  split_and!.
  - intros m. split; [|apply Hfound].
    destruct Hdec as [[m0 H0]|Hno].
    + rewrite (Hfound m0 H0). by intros [= <-].
    + by rewrite (Hnone Hno).
  - split; [|apply Hnone].
    destruct Hdec as [[m0 H0]|Hno]; [|done]. by rewrite (Hfound m0 H0).
  - intros value' Hl'. destruct (Hone value' l Hl') as [Hfound' Hnone'].
    destruct Hdec as [[m0 H0]|Hno].
    + by rewrite (Hfound m0 H0), (Hfound' m0 H0).
    + by rewrite (Hnone Hno), (Hnone' Hno).
Qed.

(** Every member is found again from its value, and from its value in
    lower case. *)
Lemma Role_lookup_value (m : Role.t) :
  Role.lookup (Role._value_ m) = Ok m
  /\ exists l, lower (Role._value_ m) = Ok l /\ Role.lookup l = Ok m
               /\ Role._missing_ l = Ok (Some m).
Proof.
  split; [by destruct m|].
  destruct (lower_value_Ok m) as [l Hl]. exists l. split; [done|].
  destruct m; vm_compute in Hl; injection Hl as <-; split; vm_compute; reflexivity.
Qed.

End roles.

(** * The validator of the content of a message: [clean_content] *)

Section cleandoc.

Implicit Types (s l : str) (ls : list str) (c : N).

Lemma expandtabs_from_no_tab col s : TAB ∉ expandtabs_from col s.
Proof.
  revert col. induction s as [|c s IH]; intros col; cbn; [apply not_elem_of_nil|].
  destruct (c =? TAB)%N eqn:Hc.
  - rewrite elem_of_app. intros [H%elem_of_replicate|H]; [by destruct H|by apply IH in H].
  - apply N.eqb_neq in Hc.
    destruct (_ || _); (apply not_elem_of_cons; split; [done|apply IH]).
Qed.

(** The lines of a text hold its characters, the line feeds apart. *)
Lemma split_on_elem s l c :
  l ∈ split_on LF s -> c ∈ l -> c ∈ s /\ c <> LF.
Proof.
  revert l. induction s as [|x s IH]; intros l; cbn.
  - intros ->%list_elem_of_singleton. by intros ?%elem_of_nil.
  - destruct (x =? LF)%N eqn:Hx.
    + intros [->|Hl]%elem_of_cons Hc; [by apply elem_of_nil in Hc|].
      destruct (IH _ Hl Hc). split; [by right|done].
    + apply N.eqb_neq in Hx. destruct (split_on LF s) as [|l0 ls0] eqn:E.
      * intros ->%list_elem_of_singleton ->%list_elem_of_singleton. split; [left|done].
      * intros [->|Hl]%elem_of_cons Hc.
        -- apply elem_of_cons in Hc as [->|Hc]; [split; [left|done]|].
           destruct (IH l0 ltac:(left) Hc). split; [by right|done].
        -- destruct (IH l ltac:(by right) Hc). split; [by right|done].
Qed.

Lemma lstrip_elem s c : c ∈ lstrip s -> c ∈ s.
Proof.
  induction s as [|x s IH]; cbn; [done|].
  destruct (isspace x); [|done]. intros H. right. auto.
Qed.

Lemma pop_leading_empty_elem ls l : l ∈ inspect.pop_leading_empty ls -> l ∈ ls.
Proof.
  induction ls as [|[|x l0] ls IH]; cbn; [done| |done].
  intros H. right. auto.
Qed.

Lemma pop_trailing_empty_elem ls l : l ∈ inspect.pop_trailing_empty ls -> l ∈ ls.
Proof.
  unfold inspect.pop_trailing_empty. rewrite list_elem_of_In, <- in_rev.
  intros H%list_elem_of_In%pop_leading_empty_elem.
  by apply list_elem_of_In, in_rev, list_elem_of_In.
Qed.

Lemma pop_leading_empty_head ls : head (inspect.pop_leading_empty ls) <> Some [].
Proof. induction ls as [|[|x l0] ls IH]; cbn; done. Qed.

Lemma pop_leading_empty_suffix ls : inspect.pop_leading_empty ls `suffix_of` ls.
Proof.
  induction ls as [|[|x l0] ls IH]; cbn; [done| |done].
  by apply suffix_cons_r.
Qed.

Lemma pop_trailing_empty_last ls : last (inspect.pop_trailing_empty ls) <> Some [].
Proof.
  unfold inspect.pop_trailing_empty. rewrite last_rev_head.
  apply pop_leading_empty_head.
Qed.

(** A suffix that is not empty ends as the list does. *)
Lemma suffix_last {A} (k l : list A) : k `suffix_of` l -> k <> [] -> last k = last l.
Proof.
  intros [p ->] Hk. induction p as [|x p IH]; [done|].
  cbn [app]. rewrite IH. destruct (p ++ k) eqn:E; [|done].
  by apply app_eq_nil in E as [_ ->].
Qed.

Lemma join_elem sep ls c :
  c ∈ join sep ls -> c ∈ sep \/ exists l, l ∈ ls /\ c ∈ l.
Proof.
  induction ls as [|l [|l' ls] IH]; cbn [join].
  - by intros ?%elem_of_nil.
  - intros H. right. exists l. split; [left|done].
  - rewrite !elem_of_app. intros [H|[H|H]].
    + right. exists l. split; [left|done].
    + by left.
    + destruct (IH H) as [?|(l0 & Hl0 & Hc)]; [by left|].
      right. exists l0. split; [by right|done].
Qed.

Lemma join_head sep l ls : l <> [] -> head (join sep (l :: ls)) = head l.
Proof. destruct l as [|x l]; [done|]. by destruct ls. Qed.

Lemma join_last sep ls l : last ls = Some l -> l <> [] -> last (join sep ls) = last l.
Proof.
  induction ls as [|l0 [|l1 ls] IH]; [done|by intros [= ->]|].
  intros Hl Hne. cbn [join]. rewrite last_cons_cons in Hl.
  specialize (IH Hl Hne). destruct (last l) as [x|] eqn:E.
  - apply last_app_Some. left. apply last_app_Some. by left.
  - by apply last_None in E.
Qed.

(** The lines [cleandoc] joins: without a tab and without a line feed
    inside, the first and the last not empty. *)
Lemma cleandoc_lines doc :
  exists ls,
    inspect.cleandoc doc = join [LF] ls
    /\ Forall (fun l => (LF ∉ l) /\ (TAB ∉ l)) ls
    /\ head ls <> Some [] /\ last ls <> Some [].
Proof.
  unfold inspect.cleandoc.
  pose proof (fun l c => split_on_elem (expandtabs doc) l c) as Hsplit.
  destruct (split_on LF (expandtabs doc)) as [|first rest]; [by exists []|].
  set (rest' := match inspect.margin rest with
                | Some m => drop m <$> rest
                | None => rest
                end).
  set (cleaned := lstrip first :: rest').
  exists (inspect.pop_leading_empty (inspect.pop_trailing_empty cleaned)).
  split; [done|]. split_and!.
  - apply Forall_forall. intros l Hl%pop_leading_empty_elem%pop_trailing_empty_elem.
    assert (Hsrc : exists l0, l0 ∈ first :: rest /\ forall c, c ∈ l -> c ∈ l0).
    { subst cleaned. apply elem_of_cons in Hl as [->|Hl].
      - exists first. split; [left|]. apply lstrip_elem.
      - subst rest'. destruct (inspect.margin rest) as [m|].
        + apply list_elem_of_fmap in Hl as (l0 & -> & Hl0). exists l0.
          split; [by right|]. intros c Hc. by eapply elem_of_suffix, suffix_drop.
        + exists l. split; [by right|done]. }
    destruct Hsrc as (l0 & Hl0 & Hsub).
    split; intros Hc%Hsub; destruct (Hsplit _ _ Hl0 Hc) as [Hin Hne]; [done|].
    by apply (expandtabs_from_no_tab 0 doc).
  - apply pop_leading_empty_head.
  - destruct (inspect.pop_leading_empty (inspect.pop_trailing_empty cleaned)) eqn:E;
      [done|].
    rewrite <- E, (suffix_last _ _ (pop_leading_empty_suffix _)) by (by rewrite E).
    apply pop_trailing_empty_last.
Qed.

Lemma expandtabs_from_id col s : TAB ∉ s -> expandtabs_from col s = s.
Proof.
  revert col. induction s as [|c s IH]; intros col Hs; [done|].
  apply not_elem_of_cons in Hs as [Hc Hs]. cbn [expandtabs_from].
  assert ((c =? TAB)%N = false) as -> by (apply N.eqb_neq; congruence).
  destruct (_ || _); by rewrite IH.
Qed.

Lemma split_on_one_line s : LF ∉ s -> split_on LF s = [s].
Proof.
  induction s as [|c s IH]; intros Hs; [done|].
  apply not_elem_of_cons in Hs as [Hc Hs]. cbn [split_on].
  assert ((c =? LF)%N = false) as -> by (apply N.eqb_neq; congruence).
  by rewrite IH.
Qed.

(** X14: a content that is None stays None; a content that is a string
    comes out as a string that holds no tab and neither begins nor ends
    with a line feed; one line of text without a tab that does not
    begin with whitespace is left as it is. *)
Theorem clean_content_no_tab_no_blank_end :
  clean_content None = None
  /\ (forall doc,
        exists s, clean_content (Some doc) = Some s
                  /\ (TAB ∉ s) /\ head s <> Some LF /\ last s <> Some LF)
  /\ (forall doc,
        TAB ∉ doc -> LF ∉ doc ->
        (forall c, head doc = Some c -> isspace c = false) ->
        clean_content (Some doc) = Some doc).
Proof.
  split_and!; [done| |].
  - intros doc. exists (inspect.cleandoc doc). split; [done|].
    destruct (cleandoc_lines doc) as (ls & -> & Hall & Hhead & Hlast). split_and!.
    + intros [Hc|(l & Hl & Hc)]%join_elem.
      * by apply list_elem_of_singleton in Hc.
      * rewrite Forall_forall in Hall. by destruct (Hall _ Hl).
    + destruct ls as [|l ls]; [done|]. rewrite join_head by (by intros ->).
      apply Forall_cons in Hall as [[HLF _] _]. intros H. apply HLF.
      destruct l; [done|]. injection H as ->. left.
    + destruct (last ls) as [l|] eqn:E.
      * rewrite (join_last _ _ l) by (done || by intros ->).
        assert (Hl : l ∈ ls) by (by apply last_Some_elem_of).
        rewrite Forall_forall in Hall. destruct (Hall _ Hl) as [HLF _].
        intros H. apply HLF. by apply last_Some_elem_of.
      * apply last_None in E as ->. done.
  - intros doc Htab Hlf Hhead. cbn [clean_content]. f_equal.
    unfold inspect.cleandoc, expandtabs.
    rewrite expandtabs_from_id, split_on_one_line by done.
    cbn [inspect.margin foldl fmap list_fmap].
    destruct doc as [|c doc]; [done|].
    cbn [lstrip]. rewrite (Hhead c eq_refl). reflexivity.
Qed.

End cleandoc.

(** * The statements on a run *)

Section examples.

Import Examples.

Let call_ := AIModel.call fns (gmap str value) backend call_function.
Let init_ :=
  AIModel.__init__ fns (gmap str value) backend call_function validate.
Let amap_ := AIModel.amap fns (gmap str value) flaky_backend call_function.

(** An undefined variable printed by the system template of the
    decorator is swallowed: the prompt is built and no error is raised. *)
Lemma C2_counterexample_swallowed_variable :
  jinja2.Template (codepoints "Hello {{ name }}!")
  = Ok [jinja2.Data (codepoints "Hello ");
        jinja2.Output (jinja2.EName (codepoints "name"));
        jinja2.Data (codepoints "!")]
  /\ messages <$> AIModel.as_prompt fns (AIModel.ai_model true hello_keywords Location)
                                    [windy_city] ∅
     = Ok [ {| role := codepoints "system"; content := codepoints "Hello !" |};
            {| role := codepoints "user";
               content := codepoints "The text to parse: windy city" |} ].
Proof. split; vm_compute; reflexivity. Qed.

Lemma C2_witness :
  AIModel.render_content fns dear_keywords (codepoints "user") = Raise UndefinedError
  /\ AIModel._messages_raw fns dear_keywords = Raise UndefinedError
  /\ AIModel.render_content fns lenient_keywords (codepoints "system")
     = Ok (codepoints "Hello !").
Proof.
  assert (Hstrict := C2_undefined_variable fns dear_keywords
            (codepoints "user")
            (codepoints "{% if text %}Dear {{ name.first }}, {% endif %}{{ text }}")
            (codepoints "name")
            []
            [jinja2.Output (jinja2.EName (codepoints "text"))]
            (jinja2.If (jinja2.EName (codepoints "text"))
               ([jinja2.Data (codepoints "Dear ")]
                ++ jinja2.Output (jinja2.EGetattr (jinja2.EName (codepoints "name"))
                                                  (codepoints "first"))
                   :: [jinja2.Data (codepoints ", ")]))
            []
            ltac:(right; left) ltac:(vm_compute; reflexivity)
            ltac:(vm_compute; reflexivity) ltac:(vm_compute; reflexivity)
            ltac:(vm_compute; reflexivity)).
  destruct Hstrict as [Hstrict _].
  destruct Hstrict as (Huser & e & Hmsgs & He).
  { apply (meets_if_body _ _ _ _ windy_city _ _ _ (codepoints "Dear "));
      [vm_compute; reflexivity..|].
    apply meets_output; [vm_compute; reflexivity|].
    apply strict_getattr. reflexivity. }
  assert (Hlenient := C2_undefined_variable fns lenient_keywords
            (codepoints "system")
            (codepoints "Hello {{ name }}!")
            (codepoints "name")
            [jinja2.Data (codepoints "Hello ")]
            [jinja2.Data (codepoints "!")]
            (jinja2.Output (jinja2.EName (codepoints "name")))
            (codepoints "Hello ")
            ltac:(left) ltac:(vm_compute; reflexivity)
            ltac:(vm_compute; reflexivity) ltac:(vm_compute; reflexivity)
            ltac:(vm_compute; reflexivity)).
  destruct Hlenient as (_ & Hlenient & _).
  destruct (Hlenient (lenient_output _) ltac:(vm_compute; reflexivity)
              (codepoints "!") ltac:(vm_compute; reflexivity)) as [Hsystem _].
  split_and!.
  - exact Huser.
  - destruct He as [->|He]; [exact Hmsgs|].
    vm_compute in He. discriminate He.
  - rewrite Hsystem. vm_compute. reflexivity.
Defined.

(** A subclass of AIModel written without the decorator has no
    templates: both messages of its prompt are empty. *)
Lemma C3_counterexample_empty_content :
  ~ (forall p,
        AIModel.as_prompt fns (AIModel.plain_subclass Location) [windy_city] ∅ = Ok p ->
        Forall (fun m => content m <> []) (messages p)).
Proof.
  intros H.
  assert (E : AIModel.as_prompt fns (AIModel.plain_subclass Location) [windy_city] ∅
              = Ok {| functions :=
                        inr (FunctionRegistry.schema
                               [Function.from_model
                                  (AIModel.format_response (AIModel.plain_subclass Location))
                                  (codepoints "format_response") AIModel.boilerplate]);
                      function_call := codepoints "format_response";
                      messages := [ {| role := codepoints "system"; content := [] |};
                                    {| role := codepoints "user"; content := [] |} ] |})
    by (vm_compute; reflexivity).
  apply H in E. by inversion E.
Qed.

Lemma C3_witness :
  AIModel._messages_raw fns messages_keywords = Ok rendered_messages
  /\ Forall (fun m => trimmed (content m)) rendered_messages
  /\ Forall (fun m => content m <> []) rendered_messages.
Proof.
  assert (E : AIModel._messages_raw fns messages_keywords = Ok rendered_messages)
    by (vm_compute; reflexivity).
  destruct (C3_content_trimmed fns messages_keywords rendered_messages E) as [Ht Hn].
  split_and!; [exact E|exact Ht|].
  apply (Hn (codepoints "extract")); vm_compute; reflexivity.
Defined.

(** With a user template of the caller, the user message is the text
    without the words The text to parse; and when the context function
    raises, or the call gives a keyword [self], no message is
    produced. *)
Lemma C8_counterexample_framing_and_failure :
  ~ (forall p,
        AIModel.as_prompt fns (AIModel.ai_model true bare_user_keywords Location)
                          [windy_city] ∅ = Ok p ->
        exists s,
          messages p
          = [ {| role := codepoints "system"; content := s |};
              {| role := codepoints "user";
                 content := strip (codepoints "The text to parse: "
                                   ++ codepoints "windy city") |} ])
  /\ AIModel.as_prompt fns (AIModel.ai_model true no_argument_keywords Location)
                        [windy_city] ∅
     = Raise TypeError
  /\ AIModel.as_prompt fns LocationModel [windy_city] {[ codepoints "self" := PyNone ]}
     = Raise TypeError.
Proof.
  split; [|split_and!; vm_compute; reflexivity].
  intros H.
  assert (Hu : (fun p => content <$> messages p !! 1)
                 <$> AIModel.as_prompt fns
                       (AIModel.ai_model true bare_user_keywords Location) [windy_city] ∅
               = Ok (Some (codepoints "windy city")))
    by (vm_compute; reflexivity).
  destruct (AIModel.as_prompt fns (AIModel.ai_model true bare_user_keywords Location)
                              [windy_city] ∅) as [p|]; [|discriminate Hu].
  destruct (H p eq_refl) as [s Hs].
  cbn [fmap result_fmap] in Hu. apply Ok_inj in Hu. rewrite Hs in Hu.
  vm_compute in Hu. discriminate.
Qed.

Lemma C8_witness :
  exists s,
    AIModel._messages_raw fns messages_keywords
    = Ok [ {| role := codepoints "system"; content := s |};
           {| role := codepoints "user";
              content := codepoints "The text to parse: windy city" |} ].
Proof.
  destruct (C8_two_messages fns messages_keywords) as [Hshape Hreturns].
  destruct (Hreturns (codepoints "extract")) as [msgs E].
  - vm_compute. reflexivity.
  - vm_compute. reflexivity.
  - vm_compute. reflexivity.
  - split_and!.
    + exists (Function.from_model (AIModel.format_response LocationModel)
                                  (codepoints "format_response") AIModel.boilerplate), [].
      vm_compute. reflexivity.
    + exists None. vm_compute. reflexivity.
    + exists windy_city. split; [vm_compute; reflexivity|].
      exists (codepoints "windy city"). reflexivity.
    + exists (PyCallable 0). split; [vm_compute; reflexivity|right].
      exists 0, windy_city, [(codepoints "The current date is", PyStr now)].
      split_and!; [reflexivity|vm_compute; reflexivity|reflexivity|].
      constructor; [|constructor]. exists now. reflexivity.
  - destruct (Hshape msgs E) as (s & u & -> & _ & _ & Hu). exists s. rewrite E.
    rewrite (Hu ltac:(vm_compute; reflexivity) (codepoints "windy city")
                ltac:(vm_compute; reflexivity)).
    vm_compute. reflexivity.
Defined.

Lemma C6_witness :
  _messages_keywords
    (AIModel.ai_model true (AIModel.with_mode (codepoints "extract") AIModel.default_keywords)
                      Location) !! codepoints "user"
  = _messages_keywords
      (AIModel.ai_model true (AIModel.with_mode (codepoints "generate") AIModel.default_keywords)
                        Location) !! codepoints "user".
Proof.
  apply (C6_mode_independence true AIModel.default_keywords Location
           (codepoints "extract") (codepoints "generate") [] ∅).
  vm_compute. discriminate.
Defined.



Lemma C4_witness :
  amap_ LocationModel [[windy_city; big_apple; windy_city]] [] [2; 1]
  = Some (Raise (BackendError (codepoints "rate limit"))).
Proof.
  destruct (C4_all_or_nothing fns (gmap str value) flaky_backend call_function
              LocationModel [[windy_city; big_apple; windy_city]] [] [2; 1]
              1 (BackendError (codepoints "rate limit")))
    as (exc & j & H & _ & _ & _ & _ & Honly).
  - apply (bool_decide_unpack _). vm_compute. exact I.
  - apply (bool_decide_unpack _). vm_compute. exact I.
  - vm_compute. reflexivity.
  - unfold amap_. rewrite H, Honly; [reflexivity|].
    assert (E2 : AIModel.amap_tasks fns (gmap str value) flaky_backend call_function
                   LocationModel [[windy_city; big_apple; windy_city]] [] !! 2
                 = Some (Ok chicago)) by (vm_compute; reflexivity).
    assert (E1 : AIModel.amap_tasks fns (gmap str value) flaky_backend call_function
                   LocationModel [[windy_city; big_apple; windy_city]] [] !! 1
                 = Some (Raise (BackendError (codepoints "rate limit"))))
      by (vm_compute; reflexivity).
    intros k e Hk. apply elem_of_cons in Hk as [-> | Hk].
    + rewrite E2. discriminate.
    + apply elem_of_cons in Hk as [-> | Hk]; [|apply elem_of_nil in Hk; destruct Hk].
      rewrite E1. intros E. apply (inj Some) in E. symmetry. exact (Raise_inj _ _ E).
Defined.

Lemma C5_witness :
  AIModel.amap_calls [] [(codepoints "text", [windy_city; big_apple])] = []
  /\ amap_ LocationModel [] [(codepoints "text", [windy_city; big_apple])] []
     = Some (Ok []).
Proof.
  apply C5_keyword_lists_alone_make_no_call. discriminate.
Defined.

Lemma C10_witness :
  (init_ LocationModel [windy_city]
         {[ codepoints "city" := PyStr (codepoints "Springfield") ]}).2
  = Ok chicago
  /\ init_ LocationModel [PyStr []]
           {[ codepoints "city" := PyStr (codepoints "Springfield") ]}
     = ([], Ok {[ codepoints "city" := PyStr (codepoints "Springfield") ]}).
Proof.
  pose (kwargs := ({[ codepoints "city" := PyStr (codepoints "Springfield") ]}
                   : gmap str value)).
  fold kwargs. unfold init_.
  destruct (C10_init_merges_call fns (gmap str value) backend call_function validate
              LocationModel [windy_city] kwargs) as [Hcall _].
  destruct (C10_init_merges_call fns (gmap str value) backend call_function validate
              LocationModel [PyStr []] kwargs) as [_ Hnone].
  split.
  - pose (c := call_ LocationModel [windy_city]
                 {[ codepoints "instructions" :=
                      default PyNone (kwargs !! codepoints "instructions_") ]}).
    destruct (Hcall windy_city [] c.1 chicago eq_refl) as (Hinit & _).
    + vm_compute. reflexivity.
    + apply injective_projections; [reflexivity|]. vm_compute. reflexivity.
    + rewrite Hinit. vm_compute. reflexivity.
  - rewrite Hnone by (vm_compute; reflexivity). vm_compute. reflexivity.
Defined.

End examples.

(** * More statements on a run *)

Section more_examples.

Import Examples.

Let call_ := AIModel.call fns (gmap str value) backend call_function.
Let init_ :=
  AIModel.__init__ fns (gmap str value) backend call_function validate.
Let amap_ := AIModel.amap fns (gmap str value) backend call_function.

(** The system message of the docstring's Location for the text windy
    city, at the instant of the run. *)
Let windy_city_system : str :=
  lines ["The user will provide context as text that you need to parse into a structured form. ";
         "    - To validate your response, you must call the `format_response` function.";
         "    - Use the provided text to extract or infer any parameters needed by `format_response`, including any missing data.";
         "                                      "]
  ++ [LF; LF] ++ codepoints "                                         " ++ [LF; LF]
  ++ codepoints "The current date is: Tuesday, 03 November 2026 at 09:30:00 AM UTC".

Lemma as_prompt_description_from_decorator_witness :
  exists f,
    (functions brief_prompt = inl [f] \/ functions brief_prompt = inr [Function.schema f])
    /\ Function.__doc__ f
       = description_for (default [] (instructions english_keywords))
    /\ Function.description (Function.schema f)
       = strip (AIModel.boilerplate ++ [LF; LF]
                ++ default [] (instructions english_keywords)).
Proof.
  apply (as_prompt_description_from_decorator fns true english_keywords Location
           [windy_city] brief_keywords).
  vm_compute. reflexivity.
Defined.

Lemma call_with_functions_keyword_sends_nothing_witness :
  exists e,
    call_ LocationModel [windy_city] {[ codepoints "functions" := PyNone ]}
    = ([], Raise e)
    /\ (e = TypeError \/ e = Unsupported).
Proof.
  destruct (call_with_functions_keyword_sends_nothing fns (gmap str value) backend backend
              call_function LocationModel [windy_city]
              {[ codepoints "functions" := PyNone ]}) as (_ & H & _).
  - rewrite lookup_singleton_eq. by eexists.
  - exact H.
Defined.

Lemma as_prompt_built_in_witness :
  messages <$> AIModel.as_prompt fns LocationModel [windy_city] ∅
  = Ok [ {| role := codepoints "system"; content := windy_city_system |};
         {| role := codepoints "user";
            content := codepoints "The text to parse: windy city" |} ].
Proof.
  unfold LocationModel.
  rewrite (as_prompt_built_in fns false AIModel.default_keywords Location windy_city []
             (codepoints "windy city") None
             (Some [(codepoints "The current date is", now)]) ∅).
  - vm_compute. reflexivity.
  - split; [by left|by right; right].
  - reflexivity.
  - exists [(codepoints "The current date is", PyStr now)].
    split; [reflexivity|]. constructor; [by split|constructor].
  - unfold reserved. repeat (constructor; [apply lookup_empty|]). constructor.
  - reflexivity.
Defined.

Lemma call_sends_built_in_prompt_witness :
  (fun p => content <$> messages p) <$> (init_ LocationModel [windy_city] ∅).1
  = [[windy_city_system; codepoints "The text to parse: windy city"]].
Proof.
  unfold LocationModel, init_.
  destruct (call_sends_built_in_prompt fns (gmap str value) backend call_function validate
              false AIModel.default_keywords Location windy_city
              (codepoints "windy city") None
              (Some [(codepoints "The current date is", now)])) as [_ H].
  - split; [by left|by right; right].
  - reflexivity.
  - exists [(codepoints "The current date is", PyStr now)].
    split; [reflexivity|]. constructor; [by split|constructor].
  - rewrite (H [] ∅) by reflexivity. vm_compute. reflexivity.
Defined.

Lemma context_fn_error_surfaces_witness :
  AIModel.as_prompt broken_clock LocationModel [windy_city] ∅ = Raise ValueError
  /\ AIModel.call broken_clock (gmap str value) backend call_function
                  LocationModel [windy_city] ∅
     = ([], Raise ValueError).
Proof.
  apply (context_fn_error_surfaces broken_clock (gmap str value) backend call_function
           false AIModel.default_keywords Location windy_city [] 0 ValueError None ∅).
  - by left.
  - reflexivity.
  - reflexivity.
  - unfold reserved. repeat (constructor; [apply lookup_empty|]). constructor.
  - reflexivity.
Defined.

Lemma messages_plain_templates_witness :
  AIModel._messages_raw fns plain_keywords
  = Ok [ {| role := codepoints "system"; content := codepoints "You find cities." |};
         {| role := codepoints "user"; content := codepoints "Go!" |} ].
Proof.
  rewrite (messages_plain_templates fns plain_keywords
             (codepoints "You find cities." ++ [CR; LF]) (codepoints " Go! ")).
  - vm_compute. reflexivity.
  - repeat (constructor; [vm_compute; reflexivity|]). constructor.
  - vm_compute. reflexivity.
  - vm_compute. reflexivity.
  - apply (bool_decide_unpack _). vm_compute. exact I.
  - apply (bool_decide_unpack _). vm_compute. exact I.
Defined.

Lemma amap_calls_index_witness :
  AIModel.amap_calls [[windy_city; big_apple; windy_city]] batch_keywords !! 1
  = Some ([big_apple], {[ codepoints "instructions" := PyNone ]})
  /\ length (AIModel.amap_calls [[windy_city; big_apple; windy_city]] batch_keywords) = 2.
Proof.
  assert (Hnd : NoDup batch_keywords.*1).
  { apply (bool_decide_unpack _). vm_compute. exact I. }
  split.
  - destruct (amap_calls_index [[windy_city; big_apple; windy_city]] batch_keywords 1
                ltac:(discriminate) Hnd) as [-> _].
    vm_compute. reflexivity.
  - destruct (amap_calls_index [[windy_city; big_apple; windy_city]] batch_keywords 1
                ltac:(discriminate) Hnd) as [_ H1].
    destruct (amap_calls_index [[windy_city; big_apple; windy_city]] batch_keywords 2
                ltac:(discriminate) Hnd) as [_ H2].
    assert (1 < length (AIModel.amap_calls [[windy_city; big_apple; windy_city]]
                                           batch_keywords)).
    { apply H1. repeat (constructor; [cbn; lia|]). constructor. }
    assert (~ 2 < length (AIModel.amap_calls [[windy_city; big_apple; windy_city]]
                                             batch_keywords)).
    { rewrite H2. intros Hall. apply Forall_cons in Hall as [_ Hall].
      apply Forall_cons in Hall as [Hlen _]. cbn in Hlen. lia. }
    lia.
Defined.

Lemma amap_returns_when_all_done_witness :
  amap_ LocationModel [[windy_city; big_apple]] [] [1; 0]
  = Some (Ok [Ok chicago; Ok chicago]).
Proof.
  destruct (amap_returns_when_all_done fns (gmap str value) backend call_function
              LocationModel [[windy_city; big_apple]] [] [1; 0]) as (_ & H & _).
  - apply (bool_decide_unpack _). vm_compute. exact I.
  - apply H. split_and!.
    + vm_compute. reflexivity.
    + repeat (constructor; [exists chicago; vm_compute; reflexivity|]). constructor.
    + apply perm_swap.
Defined.

Lemma Role_lookup_ignores_case_witness :
  Role.lookup (codepoints "Assistant") = Ok Role.ASSISTANT
  /\ Role.lookup (codepoints "robot") = Raise ValueError.
Proof.
  split.
  - destruct (Role_lookup_ignores_case (codepoints "Assistant") (codepoints "assistant"))
      as (H & _ & _); [vm_compute; reflexivity|].
    apply H. vm_compute. reflexivity.
  - destruct (Role_lookup_ignores_case (codepoints "robot") (codepoints "robot"))
      as (_ & H & _); [vm_compute; reflexivity|].
    apply H. intros []; vm_compute; discriminate.
Defined.

Lemma call_templates_replace_decorators_witness :
  AIModel._messages fns LocationModel plain_keywords
  = AIModel._messages fns (AIModel.ai_model true hello_keywords Location) plain_keywords.
Proof.
  apply (call_templates_replace_decorators fns false true AIModel.default_keywords
           hello_keywords Location plain_keywords).
  - reflexivity.
  - reflexivity.
  - exists (PyStr (codepoints "You find cities." ++ [CR; LF])). vm_compute. reflexivity.
  - exists (PyStr (codepoints " Go! ")). vm_compute. reflexivity.
Defined.

Lemma plain_subclass_prompt_is_empty_witness :
  messages <$> AIModel.as_prompt fns (AIModel.plain_subclass Location) [windy_city]
                                 brief_keywords
  = Ok [ {| role := codepoints "system"; content := [] |};
         {| role := codepoints "user"; content := [] |} ].
Proof.
  rewrite (plain_subclass_prompt_is_empty fns Location windy_city []
             (Some (codepoints "Be brief.")) brief_keywords).
  - reflexivity.
  - unfold reserved. repeat (constructor; [vm_compute; reflexivity|]). constructor.
  - vm_compute. reflexivity.
Defined.

End more_examples.
